(** * Document structuring pipeline: PDF text -> key/value records -> table -> spreadsheet

    A shallow embedding of the three Python programs of the repository

      - [document_extractor.py]  (class [DocumentExtractor], regular-expression rules),
      - [ai_extractor.py]        (class [AIDocumentExtractor], command-line variant),
      - [app.py]                 (class [AIDocumentExtractor], Streamlit form variant),

    together with the parts of the Python run time they rely on:
    [str] methods, the backtracking search of [re] for the pattern syntax the
    rules use, and [datetime.strptime] / [strftime] for the one format pair
    the rules use.

    Texts are [string]s of 8-bit characters read as the code points
    U+0000..U+00FF; the character classes below are Python's classes
    restricted to that range. *)

From Stdlib Require Import String Ascii NArith List Bool Lia.
From stdpp Require Import base strings gmap pretty.

Import ListNotations.
Local Open Scope string_scope.
Local Open Scope list_scope.

(* ===================================================================== *)
(** ** Python [str] operations used by the extractors *)
(* ===================================================================== *)

Module PyStr.

Definition code (a : ascii) : N := N_of_ascii a.

Definition in_range (lo hi : N) (a : ascii) : bool :=
  (lo <=? code a)%N && (code a <=? hi)%N.

(** [str.isspace] and the class [\s]: both are [Py_UNICODE_ISSPACE]. *)
Definition is_space (a : ascii) : bool :=
  in_range 9 13 a || in_range 28 32 a || (code a =? 133)%N || (code a =? 160)%N.

(** The class [\d] ([Py_UNICODE_ISDECIMAL]); below U+0100 only 0-9. *)
Definition is_digit (a : ascii) : bool := in_range 48 57 a.

(** The class [\w]: alphanumeric or underscore. *)
Definition is_word (a : ascii) : bool :=
  in_range 48 57 a || in_range 65 90 a || (code a =? 95)%N || in_range 97 122 a
  || (code a =? 170)%N || in_range 178 179 a || (code a =? 181)%N
  || in_range 185 186 a || in_range 188 190 a || in_range 192 214 a
  || in_range 216 246 a || in_range 248 255 a.

Definition is_upper_az (a : ascii) : bool := in_range 65 90 a.
Definition is_lower_az (a : ascii) : bool := in_range 97 122 a.

Definition lower_az (a : ascii) : ascii :=
  if is_upper_az a then ascii_of_N (code a + 32) else a.
Definition upper_az (a : ascii) : ascii :=
  if is_lower_az a then ascii_of_N (code a - 32) else a.

Fixpoint map_chars (f : ascii -> ascii) (s : string) : string :=
  match s with
  | EmptyString => EmptyString
  | String a s' => String (f a) (map_chars f s')
  end.

(** [s.lower()] on the letters A-Z (the only use is on month names). *)
Definition lower (s : string) : string := map_chars lower_az s.

(** [s.capitalize()]: first character upper-cased, the rest lower-cased.
    The source applies it to a matched sentence of ASCII letters only. *)
Definition capitalize (s : string) : string :=
  match s with
  | EmptyString => EmptyString
  | String a s' => String (upper_az a) (map_chars lower_az s')
  end.

Fixpoint drop_while (p : ascii -> bool) (s : string) : string :=
  match s with
  | EmptyString => EmptyString
  | String a s' => if p a then drop_while p s' else s
  end.

Fixpoint rev_onto (s acc : string) : string :=
  match s with
  | EmptyString => acc
  | String a s' => rev_onto s' (String a acc)
  end.

Definition rev (s : string) : string := rev_onto s EmptyString.

(** [s.strip()]: whitespace removed at both ends. *)
Definition strip (s : string) : string :=
  rev (drop_while is_space (rev (drop_while is_space s))).

(** [s.split()]: the maximal runs of non-whitespace characters. [cur] is
    the run being read, reversed. *)
Fixpoint split_go (s : string) (cur : string) : list string :=
  match s with
  | EmptyString =>
      match cur with EmptyString => [] | _ => [rev cur] end
  | String a s' =>
      if is_space a
      then match cur with
           | EmptyString => split_go s' EmptyString
           | _ => rev cur :: split_go s' EmptyString
           end
      else split_go s' (String a cur)
  end.

Definition split (s : string) : list string := split_go s EmptyString.

Fixpoint starts_with (p s : string) : bool :=
  match p, s with
  | EmptyString, _ => true
  | String a p', String b s' => Ascii.eqb a b && starts_with p' s'
  | String _ _, EmptyString => false
  end.

(** [s.replace(old, new)] for a non-empty [old]: every non-overlapping
    occurrence, left to right. [skip] counts the characters of an
    occurrence that are still to be passed over. *)
Fixpoint replace_go (old new : string) (skip : nat) (s : string) : string :=
  match s with
  | EmptyString => EmptyString
  | String a s' =>
      match skip with
      | S k => replace_go old new k s'
      | O =>
          if starts_with old s
          then new +:+ replace_go old new (String.length old - 1) s'
          else String a (replace_go old new 0 s')
      end
  end.

Definition replace (old new s : string) : string := replace_go old new 0 s.

(** [s[i:j]] for [0 <= i <= j]. *)
Definition slice (i j : nat) (s : string) : string := substring i (j - i) s.

(** Two-digit, zero-padded decimal of a number below 100 ([%02d]). *)
Definition digit_char (n : nat) : ascii := ascii_of_nat (48 + n).
Definition two_digits (n : nat) : string :=
  String (digit_char (n / 10 mod 10)) (String (digit_char (n mod 10)) EmptyString).

(** [int(s)] on a string of decimal digits. *)
Fixpoint int_go (s : string) (acc : nat) : option nat :=
  match s with
  | EmptyString => Some acc
  | String a s' =>
      if is_digit a then int_go s' (10 * acc + (nat_of_ascii a - 48)) else None
  end.

Definition int (s : string) : option nat :=
  match s with
  | EmptyString => None
  | _ => int_go s 0
  end.

End PyStr.

(* ===================================================================== *)
(** ** The fragment of [re] the rules are written in *)
(* ===================================================================== *)

(** Patterns are kept as the source writes them and compiled by [compile];
    [search] is the leftmost, greedy, backtracking search of [re.search].
    The fragment: literal characters, the escapes [\w \s \d] and escaped
    punctuation, bracket classes (negated or not, with ranges), the
    quantifiers [+], [?] and a fixed count in braces on a single character
    or class, and capturing groups that are neither nested nor quantified.
    Anything else makes [compile] fail. *)

Module Re.

Inductive citem :=
| CChar (a : ascii)
| CRange (lo hi : ascii)
| CWord
| CDigit
| CSpace.

Record cset := CSet { cneg : bool; citems : list citem }.

Inductive quant := QOne | QOpt | QPlus | QRep (n : nat).

Inductive tok :=
| TSet (c : cset) (q : quant)
| TOpen
| TClose.

Definition item_mem (i : citem) (a : ascii) : bool :=
  match i with
  | CChar b => Ascii.eqb a b
  | CRange lo hi => PyStr.in_range (PyStr.code lo) (PyStr.code hi) a
  | CWord => PyStr.is_word a
  | CDigit => PyStr.is_digit a
  | CSpace => PyStr.is_space a
  end.

Definition mem (c : cset) (a : ascii) : bool :=
  xorb (cneg c) (existsb (fun i => item_mem i a) (citems c)).

Definition lit (a : ascii) : cset := CSet false [CChar a].

(** *** Compiling a pattern *)

Definition is_alnum_az (a : ascii) : bool :=
  PyStr.is_digit a || PyStr.is_upper_az a || PyStr.is_lower_az a.

(** The item an escape [\c] stands for. *)
Definition escape (c : ascii) : option citem :=
  if Ascii.eqb c "w" then Some CWord
  else if Ascii.eqb c "d" then Some CDigit
  else if Ascii.eqb c "s" then Some CSpace
  else if is_alnum_az c then None
  else Some (CChar c).

(** The items of a bracket class, read after the opening bracket (and
    the caret); returns the rest of the pattern after the closing one. *)
Fixpoint parse_class (s : string) (acc : list citem) : option (list citem * string) :=
  match s with
  | EmptyString => None
  | String "]" rest =>
      match acc with [] => None | _ => Some (List.rev acc, rest) end
  | String "\" (String c rest) =>
      match escape c with
      | Some i => parse_class rest (i :: acc)
      | None => None
      end
  | String "\" EmptyString => None
  | String "[" _ => None
  | String a rest0 =>
      match rest0 with
      | String "-" (String b rest) =>
          if Ascii.eqb b "]" then parse_class rest0 (CChar a :: acc)
          else if Ascii.eqb b "\" then None
          else if (PyStr.code a <=? PyStr.code b)%N then parse_class rest (CRange a b :: acc)
          else None
      | _ => parse_class rest0 (CChar a :: acc)
      end
  end.

Fixpoint parse_count (s : string) (acc : option nat) : option (nat * string) :=
  match s with
  | EmptyString => None
  | String "}" rest => match acc with Some n => Some (n, rest) | None => None end
  | String a rest =>
      if PyStr.is_digit a
      then parse_count rest (Some (10 * default 0 acc + (nat_of_ascii a - 48)))
      else None
  end.

Definition starts_quant (s : string) : bool :=
  match s with
  | String a _ =>
      Ascii.eqb a "+" || Ascii.eqb a "?" || Ascii.eqb a "*" || Ascii.eqb a "{"
  | EmptyString => false
  end.

(** The quantifier that follows an atom, if any. A second quantifier
    character (lazy or possessive forms) is outside the fragment. *)
Definition parse_quant (s : string) : option (quant * string) :=
  match s with
  | String "+" rest => if starts_quant rest then None else Some (QPlus, rest)
  | String "?" rest => if starts_quant rest then None else Some (QOpt, rest)
  | String "*" _ => None
  | String "{" rest =>
      match parse_count rest None with
      | Some (n, rest') => if starts_quant rest' then None else Some (QRep n, rest')
      | None => None
      end
  | _ => Some (QOne, s)
  end.

Definition special (a : ascii) : bool :=
  existsb (Ascii.eqb a) ["."; "^"; "$"; "|"; "*"; "+"; "?"; "{"; "}"; "]"]%char.

Definition atom_then (fuel_parse : string -> option (list tok))
    (c : cset) (rest : string) : option (list tok) :=
  match parse_quant rest with
  | Some (q, rest') =>
      match fuel_parse rest' with
      | Some ts => Some (TSet c q :: ts)
      | None => None
      end
  | None => None
  end.

Fixpoint parse (fuel : nat) (s : string) : option (list tok) :=
  match fuel with
  | O => None
  | S fuel' =>
      match s with
      | EmptyString => Some []
      | String "(" rest =>
          if starts_quant rest then None
          else option_map (cons TOpen) (parse fuel' rest)
      | String ")" rest =>
          if starts_quant rest then None
          else option_map (cons TClose) (parse fuel' rest)
      | String "[" (String "^" rest) =>
          match parse_class rest [] with
          | Some (items, rest') => atom_then (parse fuel') (CSet true items) rest'
          | None => None
          end
      | String "[" rest =>
          match parse_class rest [] with
          | Some (items, rest') => atom_then (parse fuel') (CSet false items) rest'
          | None => None
          end
      | String "\" (String c rest) =>
          match escape c with
          | Some i => atom_then (parse fuel') (CSet false [i]) rest
          | None => None
          end
      | String a rest =>
          if special a || Ascii.eqb a "\" then None
          else atom_then (parse fuel') (lit a) rest
      end
  end.

(** Groups must be closed and not nested. *)
Fixpoint well_grouped (ts : list tok) (inside : bool) : bool :=
  match ts with
  | [] => negb inside
  | TOpen :: ts' => negb inside && well_grouped ts' true
  | TClose :: ts' => inside && well_grouped ts' false
  | TSet _ _ :: ts' => well_grouped ts' inside
  end.

Definition compile (pattern : string) : option (list tok) :=
  match parse (S (String.length pattern)) pattern with
  | Some ts => if well_grouped ts false then Some ts else None
  | None => None
  end.

(** *** Matching *)

(** A match object: the span of the whole match and of each group, in
    group order. Positions are offsets into the searched text. *)
Record rmatch := RMatch {
  m_start : nat;
  m_end : nat;
  m_groups : list (nat * nat)
}.

(** Matching state: where the group being read started, and the groups
    closed so far (latest first). *)
Record mstate := MState { ms_open : option nat; ms_done : list (nat * nat) }.

Definition cont := string -> nat -> mstate -> option (nat * mstate).

(** [c+] followed by [k]: as many characters as possible, giving back
    one at a time while [k] fails. *)
Fixpoint plus (c : cset) (k : cont) (s : string) (pos : nat) (st : mstate)
    : option (nat * mstate) :=
  match s with
  | EmptyString => None
  | String a s' =>
      if mem c a then
        match plus c k s' (S pos) st with
        | Some r => Some r
        | None => k s' (S pos) st
        end
      else None
  end.

Definition opt (c : cset) (k : cont) (s : string) (pos : nat) (st : mstate)
    : option (nat * mstate) :=
  match s with
  | String a s' =>
      if mem c a then
        match k s' (S pos) st with
        | Some r => Some r
        | None => k s pos st
        end
      else k s pos st
  | EmptyString => k s pos st
  end.

Fixpoint rep (c : cset) (n : nat) (k : cont) (s : string) (pos : nat) (st : mstate)
    : option (nat * mstate) :=
  match n with
  | O => k s pos st
  | S n' =>
      match s with
      | String a s' => if mem c a then rep c n' k s' (S pos) st else None
      | EmptyString => None
      end
  end.

(** The tokens [ts] matched at the head of [s], which is the text from
    offset [pos] on. *)
Fixpoint match_here (ts : list tok) : cont :=
  match ts with
  | [] => fun _ pos st => Some (pos, st)
  | TOpen :: ts' =>
      fun s pos st => match_here ts' s pos (MState (Some pos) (ms_done st))
  | TClose :: ts' =>
      fun s pos st =>
        match ms_open st with
        | Some b => match_here ts' s pos (MState None ((b, pos) :: ms_done st))
        | None => None
        end
  | TSet c QOne :: ts' => rep c 1 (match_here ts')
  | TSet c (QRep n) :: ts' => rep c n (match_here ts')
  | TSet c QOpt :: ts' => opt c (match_here ts')
  | TSet c QPlus :: ts' => plus c (match_here ts')
  end.

(** The leftmost start offset at which the tokens match. *)
Fixpoint search_from (ts : list tok) (s : string) (pos : nat) : option rmatch :=
  match match_here ts s pos (MState None []) with
  | Some (e, st) => Some (RMatch pos e (List.rev (ms_done st)))
  | None =>
      match s with
      | EmptyString => None
      | String _ s' => search_from ts s' (S pos)
      end
  end.

(** [re.search(pattern, text)]; [None] also for a pattern outside the
    fragment (every pattern of the source is inside, see [patterns_compile]). *)
Definition search (pattern text : string) : option rmatch :=
  match compile pattern with
  | Some ts => search_from ts text 0
  | None => None
  end.

(** [m.group(0)] and [m.group(i)] for [i >= 1], read off the searched text. *)
Definition group0 (text : string) (m : rmatch) : string :=
  PyStr.slice (m_start m) (m_end m) text.

Definition group (i : nat) (text : string) (m : rmatch) : string :=
  match nth_error (m_groups m) (i - 1) with
  | Some (b, e) => PyStr.slice b e text
  | None => EmptyString
  end.

End Re.

(* ===================================================================== *)
(** ** Exceptions and results *)
(* ===================================================================== *)

(** The exception classes the handlers of the programs tell apart; every
    class is a subclass of [Exception]. The detail string is what
    formatting the exception would print (abridged for the run-time's own
    messages, which no handler of the programs inspects). *)
Inductive exn_class :=
| ValueError
| IndexError
| KeyError
| APIError
| JSONDecodeError
| OtherException.

Record exn := Exn { exn_cls : exn_class; exn_detail : string }.

Inductive result (A : Type) :=
| Ok (a : A)
| Raise (e : exn).

Arguments Ok {A} a.
Arguments Raise {A} e.

Global Instance result_ret : MRet result := fun _ a => Ok a.

Global Instance result_bind : MBind result := fun _ _ f r =>
  match r with
  | Ok a => f a
  | Raise e => Raise e
  end.

Definition is_ok {A} (r : result A) : bool :=
  match r with Ok _ => true | Raise _ => false end.

(* ===================================================================== *)
(** ** [datetime.strptime(s, '%B %d, %Y')] and [strftime('%d-%b-%y')] *)
(* ===================================================================== *)

(** Follows [_strptime.py]: the format is turned into the regular
    expression

      [(?P<B>september|february|...|may)\s+(?P<d>3[0-1]|[1-2]\d|0[1-9]|[1-9]| [1-9]),\s+(?P<Y>\d\d\d\d)]

    matched case-insensitively at the start of the data; data left over
    after the match, or a date that does not exist, is a [ValueError].
    Month names are those of the C / English locale. *)

Module PyDate.

Record datetime := DateTime { year : nat; month : nat; day : nat }.

(** [locale_time.f_month[1:]] and [a_month[1:]]. *)
Definition f_month : list string :=
  ["january"; "february"; "march"; "april"; "may"; "june"; "july";
   "august"; "september"; "october"; "november"; "december"].

Definition a_month : list string :=
  ["Jan"; "Feb"; "Mar"; "Apr"; "May"; "Jun"; "Jul"; "Aug"; "Sep"; "Oct";
   "Nov"; "Dec"].

(** The alternatives of the [%B] group: longest names first, as
    [sorted(..., key=len, reverse=True)] leaves them. *)
Definition month_alternatives : list string :=
  ["september"; "february"; "november"; "december"; "january"; "october";
   "august"; "march"; "april"; "june"; "july"; "may"].

(** [name] matched against the head of [data] ignoring case: the text
    matched and the rest. *)
Fixpoint imatch (name data : string) : option (string * string) :=
  match name, data with
  | EmptyString, _ => Some (EmptyString, data)
  | String a name', String b data' =>
      if Ascii.eqb a (PyStr.lower_az b)
      then match imatch name' data' with
           | Some (m, r) => Some (String b m, r)
           | None => None
           end
      else None
  | String _ _, EmptyString => None
  end.

Section Backtracking.
Context {A : Type}.

Definition or_else (x y : option A) : option A :=
  match x with Some _ => x | None => y end.

Fixpoint first_some {B} (f : B -> option A) (l : list B) : option A :=
  match l with
  | [] => None
  | b :: l' => or_else (f b) (first_some f l')
  end.

(** [\s+] then [k], greedy. *)
Fixpoint ws_plus (k : string -> option A) (s : string) : option A :=
  match s with
  | String a s' =>
      if PyStr.is_space a then or_else (ws_plus k s') (k s') else None
  | EmptyString => None
  end.

Definition two (p q : ascii -> bool) (k : string -> string -> option A)
    (s : string) : option A :=
  match s with
  | String a (String b r) =>
      if p a && q b then k (String a (String b EmptyString)) r else None
  | _ => None
  end.

Definition one (p : ascii -> bool) (k : string -> string -> option A)
    (s : string) : option A :=
  match s with
  | String a r => if p a then k (String a EmptyString) r else None
  | _ => None
  end.

(** The five alternatives of the [%d] group, in order. *)
Definition day_group (k : string -> string -> option A) (s : string) : option A :=
  or_else (two (Ascii.eqb "3") (PyStr.in_range 48 49) k s)
 (or_else (two (PyStr.in_range 49 50) PyStr.is_digit k s)
 (or_else (two (Ascii.eqb "0") (PyStr.in_range 49 57) k s)
 (or_else (one (PyStr.in_range 49 57) k s)
          (two (Ascii.eqb " ") (PyStr.in_range 49 57) k s)))).

Definition comma (k : string -> option A) (s : string) : option A :=
  match s with
  | String "," r => k r
  | _ => None
  end.
End Backtracking.

Definition year_group (s : string) : option (string * string) :=
  match s with
  | String a (String b (String c (String d r))) =>
      if PyStr.is_digit a && PyStr.is_digit b && PyStr.is_digit c && PyStr.is_digit d
      then Some (String a (String b (String c (String d EmptyString))), r)
      else None
  | _ => None
  end.

(** The groups [B], [d], [Y] of the first match, and the data left. *)
Definition format_match (data : string) : option (string * string * string * string) :=
  first_some
    (fun name =>
       match imatch name data with
       | Some (B, r) =>
           ws_plus (day_group (fun d r1 =>
             comma (ws_plus (fun r2 =>
               match year_group r2 with
               | Some (Y, rest) => Some (B, d, Y, rest)
               | None => None
               end)) r1)) r
       | None => None
       end)
    month_alternatives.

Fixpoint index_of (x : string) (l : list string) (i : nat) : option nat :=
  match l with
  | [] => None
  | y :: l' => if String.eqb x y then Some i else index_of x l' (S i)
  end.

Definition is_leap (y : nat) : bool :=
  Nat.eqb (y mod 4) 0 && (negb (Nat.eqb (y mod 100) 0) || Nat.eqb (y mod 400) 0).

Definition days_in_month (y m : nat) : nat :=
  match m with
  | 2 => if is_leap y then 29 else 28
  | 4 | 6 | 9 | 11 => 30
  | _ => 31
  end.

Definition value_error (detail : string) : exn := Exn ValueError detail.

(** [datetime.strptime(data, '%B %d, %Y')]. *)
Definition strptime (data : string) : result datetime :=
  match format_match data with
  | None => Raise (value_error "time data does not match format")
  | Some (B, d, Y, rest) =>
      match rest with
      | String _ _ => Raise (value_error ("unconverted data remains: " +:+ rest))
      | EmptyString =>
          match index_of (PyStr.lower B) f_month 1,
                PyStr.int (PyStr.strip d), PyStr.int Y with
          | Some m, Some dd, Some y =>
              if Nat.eqb y 0 then Raise (value_error "year 0 is out of range")
              else if Nat.leb 1 dd && Nat.leb dd (days_in_month y m)
              then Ok (DateTime y m dd)
              else Raise (value_error "day is out of range for month")
          | _, _, _ => Raise (value_error "time data does not match format")
          end
      end
  end.

(** [dt.strftime('%d-%b-%y')]. *)
Definition strftime (dt : datetime) : string :=
  PyStr.two_digits (day dt) +:+ "-" +:+ nth (month dt - 1) a_month "" +:+ "-"
    +:+ PyStr.two_digits (year dt mod 100).

End PyDate.

(* ===================================================================== *)
(** ** Records, data frames and the outside world *)
(* ===================================================================== *)

(** One extracted fact: the dictionary with the keys ['key'], ['value'],
    ['comments'] that every extractor builds. *)
Record entry := Entry { key : string; value : string; comments : string }.

(** A value as [json.loads] returns it: [None], a [bool], a number (as it
    is written), a [str], a [list], or a [dict] given by its items in
    insertion order, no key twice. *)
#[warnings="-register-all"]
Inductive json :=
| JNull
| JBool (b : bool)
| JNumber (literal : string)
| JString (s : string)
| JArray (items : list json)
| JObject (members : list (string * json)).

(** The dictionary of a record, and the list of the dictionaries. *)
Definition record_json (e : entry) : json :=
  JObject [("key", JString (key e)); ("value", JString (value e));
           ("comments", JString (comments e))].

Definition records_json (data : list entry) : json := JArray (map record_json data).

(** The part of [pandas.DataFrame] the programs use: named columns over
    rows of cells. *)
Module Pandas.

(** A cell holds a number of the [#] column, a string, any other value of
    a dictionary, or [NaN] where a dictionary has no value for the
    column. *)
Inductive cell :=
| CInt (n : nat)
| CStr (s : string)
| CObject (v : json)
| CNaN.

Record DataFrame := Frame { columns : list string; rows : list (list cell) }.

(** [pd.DataFrame(data)] for a list of [entry] dictionaries: the columns
    are the keys met, none for the empty list. *)
Definition of_records (data : list entry) : DataFrame :=
  match data with
  | [] => Frame [] []
  | _ =>
      Frame ["key"; "value"; "comments"]
            (map (fun e => [CStr (key e); CStr (value e); CStr (comments e)]) data)
  end.

(** The items of a list when every one of them is a [dict]. *)
Definition as_dicts (items : list json) : option (list (list (string * json))) :=
  mapM (fun v => match v with JObject d => Some d | _ => None end) items.

(** The keys of the dictionaries in the order in which they are first
    met. *)
Definition add_key (cols : list string) (k : string) : list string :=
  if existsb (String.eqb k) cols then cols else cols ++ [k].

Definition keys_met (dicts : list (list (string * json))) : list string :=
  foldl (fun cols d => foldl add_key cols (map fst d)) [] dicts.

(** [d.get(k)] *)
Fixpoint get (k : string) (d : list (string * json)) : option json :=
  match d with
  | [] => None
  | (k', v) :: d' => if String.eqb k k' then Some v else get k d'
  end.

Definition cell_of (v : option json) : cell :=
  match v with
  | Some (JString s) => CStr s
  | Some v => CObject v
  | None => CNaN
  end.

(** [pd.DataFrame(data)] for a value parsed from JSON. [None], the empty
    list and the empty dictionary give the frame without rows and columns;
    a list of dictionaries gives one row for each, over the keys met; a
    string, a number or a boolean is refused. What the constructor makes
    of a value of another shape (a list with an item that is no
    dictionary, a dictionary with items) is [other]. *)
Definition of_json (other : json -> result DataFrame) (data : json) : result DataFrame :=
  match data with
  | JNull => Ok (Frame [] [])
  | JBool _ | JNumber _ | JString _ =>
      Raise (Exn ValueError "DataFrame constructor not properly called!")
  | JArray items =>
      match as_dicts items with
      | Some dicts =>
          let cols := keys_met dicts in
          Ok (Frame cols (map (fun d => map (fun c => cell_of (get c d)) cols) dicts))
      | None => other data
      end
  | JObject [] => Ok (Frame [] [])
  | JObject _ => other data
  end.

(** [len(df)] *)
Definition len (df : DataFrame) : nat := length (rows df).

(** [df.empty]: some axis has length zero. *)
Definition empty (df : DataFrame) : bool :=
  Nat.eqb (length (rows df)) 0 || Nat.eqb (length (columns df)) 0.

(** [range(a, b)] *)
Definition range (a b : nat) : list nat := seq a (b - a).

Definition has_column (name : string) (df : DataFrame) : bool :=
  existsb (String.eqb name) (columns df).

(** [df.insert(0, name, values)] *)
Definition insert0 (name : string) (values : list nat) (df : DataFrame)
    : result DataFrame :=
  if has_column name df
  then Raise (Exn ValueError ("cannot insert " +:+ name +:+ ", already exists"))
  else if Nat.eqb (length values) (len df)
  then Ok (Frame (name :: columns df)
                 (zip_with (fun v r => CInt v :: r) values (rows df)))
  else Raise (Exn ValueError "Length of values does not match length of index").

(** [df.columns = names] *)
Definition set_columns (names : list string) (df : DataFrame) : result DataFrame :=
  if Nat.eqb (length names) (length (columns df))
  then Ok (Frame names (rows df))
  else Raise (Exn ValueError "Length mismatch").

Fixpoint position (name : string) (cols : list string) : option nat :=
  match cols with
  | [] => None
  | c :: cols' =>
      if String.eqb name c then Some 0 else option_map S (position name cols')
  end.

(** [df[names]]: the named columns, in the order asked. *)
Definition select (names : list string) (df : DataFrame) : result DataFrame :=
  match mapM (fun n => position n (columns df)) names with
  | Some idx =>
      Ok (Frame names
            (map (fun r => omap (fun i => r !! i) idx) (rows df)))
  | None => Raise (Exn KeyError "not in index")
  end.

End Pandas.

(** What a PDF source gives to [PyPDF2]: opening and parsing it fails, or
    it has pages, each of which yields its text or fails in turn. *)
Inductive page :=
| PageText (s : string)
| PageFails (e : exn).

Inductive pdf :=
| Unreadable (e : exn)
| Pages (ps : list page).

(** A spreadsheet file as written by [to_excel]: sheet name, table, and
    the formatting applied to the sheet. *)
Record workbook := Workbook {
  wb_sheet : string;
  wb_frame : Pandas.DataFrame;
  wb_widths : list (string * nat);
  wb_wrapped : list string
}.

(** How writing a workbook to a path ends: the file is there, or the
    writer raised (the engine refuses the extension of the path or a
    value of a cell, the location cannot be written), leaving at the path
    the file [remains], or nothing new. Which of them it is depends on the
    path and on the workbook, and is given to the programs as the
    function [writer]. *)
Inductive written :=
| Saved
| WriteFails (e : exn) (remains : option workbook).

Definition nl : string := String (ascii_of_nat 10) EmptyString.
Definition dq : string := String (ascii_of_nat 34) EmptyString.

(* ===================================================================== *)
(** ** [document_extractor.py]: class [DocumentExtractor] *)
(* ===================================================================== *)

Module DocumentExtractor.

(** A rule: [re.search] with the rule's pattern, and what it appends to
    [data] on a match; nothing is appended without one. *)
Definition on_match (pattern text : string)
    (body : Re.rmatch -> result (list entry)) : result (list entry) :=
  match Re.search pattern text with
  | Some m => body m
  | None => Ok []
  end.

(** [m.group(0) if m else ''] for a context search. *)
Definition context_or_empty (pattern text : string) : string :=
  match Re.search pattern text with
  | Some m => Re.group0 text m
  | None => ""
  end.

(** [names[i]] *)
Definition item (names : list string) (i : nat) : result string :=
  match names !! i with
  | Some x => Ok x
  | None => Raise (Exn IndexError "list index out of range")
  end.

(** [datetime.strptime(s, '%B %d, %Y').strftime('%d-%b-%y')] *)
Definition reformat_date (s : string) : result string :=
  d ← PyDate.strptime s; Ok (PyDate.strftime d).

(** *** [extract_personal_info] *)

Definition name_rule (text : string) : result (list entry) :=
  on_match "(\w+\s+\w+)\s+was born" text (fun name_match =>
    let full_name := Re.group 1 text name_match in
    let names := PyStr.split full_name in
    first ← item names 0;
    last ← (if Nat.ltb 1 (length names) then item names 1 else Ok "");
    Ok [Entry "First Name" first ""; Entry "Last Name" last ""]).

Definition dob_rule (text : string) : result (list entry) :=
  on_match "born on (\w+ \d+, \d{4})" text (fun dob_match =>
    let dob_str := Re.group 1 text dob_match in
    dob ← reformat_date dob_str;
    Ok [Entry "Date of Birth" dob ""]).

Definition birth_rule (text : string) : result (list entry) :=
  on_match "born on [^,]+, in (\w+), (\w+)" text (fun birth_match =>
    let city := Re.group 1 text birth_match in
    let state := Re.group 2 text birth_match in
    let city_comment :=
      context_or_empty
        "Born and raised in the Pink City of India, his birthplace provides valuable regional profiling context"
        text in
    Ok [Entry "Birth City" city city_comment;
        Entry "Birth State" state city_comment]).

Definition age_rule (text : string) : result (list entry) :=
  on_match "making him (\d+) years old as of (\d{4})" text (fun age_match =>
    let age := Re.group 1 text age_match in
    let age_context :=
      context_or_empty
        "His birthdate is formatted as[^,]+, while his age serves as a key demographic marker for analytical purposes"
        text in
    Ok [Entry "Age" (age +:+ " years") age_context]).

Definition blood_rule (text : string) : result (list entry) :=
  on_match "his ([A-Z]\+?) blood group" text (fun blood_match =>
    let blood_context :=
      match Re.search "his [A-Z]\+? blood group is noted for emergency contact purposes" text with
      | Some c =>
          PyStr.capitalize
            (PyStr.replace "his O+ blood group is noted for " "" (Re.group0 text c))
      | None => ""
      end in
    Ok [Entry "Blood Group" (Re.group 1 text blood_match) blood_context]).

Definition nationality_rule (text : string) : result (list entry) :=
  on_match "As an (\w+) national" text (fun nationality_match =>
    let nat_context :=
      match Re.search "his citizenship status is important for understanding his work authorization and visa requirements across different employment opportunities" text with
      | Some c =>
          PyStr.replace
            "his citizenship status is important for understanding his work authorization and visa requirements across different employment opportunities"
            "Citizenship status is important for understanding his work authorization and visa requirements across different employment opportunities."
            (Re.group0 text c)
      | None => ""
      end in
    Ok [Entry "Nationality" (Re.group 1 text nationality_match) nat_context]).

(** The rules run in order, each appending to [data]; an exception
    raised by a rule leaves the function. *)
Fixpoint run_rules (rules : list (string -> result (list entry))) (text : string)
    : result (list entry) :=
  match rules with
  | [] => Ok []
  | rule :: rules' =>
      found ← rule text;
      more ← run_rules rules' text;
      Ok (found ++ more)
  end.

Definition personal_rules : list (string -> result (list entry)) :=
  [name_rule; dob_rule; birth_rule; age_rule; blood_rule; nationality_rule].

Definition extract_personal_info (text : string) : result (list entry) :=
  run_rules personal_rules text.

(** *** [extract_professional_info] *)

Definition first_job_rule (text : string) : result (list entry) :=
  on_match "professional journey began on (\w+ \d+, \d{4}), when he joined his first company as a ([^w]+) with an annual salary of ([\d,]+) INR" text
    (fun first_job_match =>
      joining_date ← reformat_date (Re.group 1 text first_job_match);
      Ok [Entry "Joining Date of first professional role" joining_date "";
          Entry "Designation of first professional role"
                (PyStr.strip (Re.group 2 text first_job_match)) "";
          Entry "Salary of first professional role"
                (PyStr.replace "," "" (Re.group 3 text first_job_match)) "";
          Entry "Salary currency of first professional role" "INR" ""]).

Definition current_org_rule (text : string) : result (list entry) :=
  on_match "his current role at ([^b]+) beginning" text (fun current_org_match =>
    Ok [Entry "Current Organization"
              (PyStr.strip (Re.group 1 text current_org_match)) ""]).

Definition current_join_rule (text : string) : result (list entry) :=
  on_match "beginning on (\w+ \d+, \d{4})" text (fun current_join_match =>
    current_date ← reformat_date (Re.group 1 text current_join_match);
    Ok [Entry "Current Joining Date" current_date ""]).

Definition current_desig_rule (text : string) : result (list entry) :=
  on_match "where he serves as a ([^e]+) earning" text (fun current_desig_match =>
    Ok [Entry "Current Designation"
              (PyStr.strip (Re.group 1 text current_desig_match)) ""]).

Definition current_sal_rule (text : string) : result (list entry) :=
  on_match "earning ([\d,]+) INR annually" text (fun current_sal_match =>
    let salary_context :=
      context_or_empty
        "This salary progression from his starting compensation to his current peak salary of 2,800,000 INR represents a substantial eight- ?fold increase over his twelve-year career span"
        text in
    Ok [Entry "Current Salary"
              (PyStr.replace "," "" (Re.group 1 text current_sal_match))
              salary_context;
        Entry "Current Salary Currency" "INR" ""]).

Definition prev_org_rule (text : string) : result (list entry) :=
  on_match "he worked at ([^f]+) from" text (fun prev_org_match =>
    Ok [Entry "Previous Organization"
              (PyStr.strip (Re.group 1 text prev_org_match)) ""]).

Definition prev_join_rule (text : string) : result (list entry) :=
  on_match "from (\w+ \d+, \d{4}), to" text (fun prev_join_match =>
    prev_date ← reformat_date (Re.group 1 text prev_join_match);
    Ok [Entry "Previous Joining Date" prev_date ""]).

Definition prev_end_rule (text : string) : result (list entry) :=
  on_match "from [^,]+, to (\d{4})" text (fun prev_end_match =>
    Ok [Entry "Previous end year" (Re.group 1 text prev_end_match) ""]).

Definition prev_desig_rule (text : string) : result (list entry) :=
  on_match "starting as a ([^a]+) and earning a promotion" text (fun prev_desig_match =>
    let promotion_context := "Promoted in 2019" in
    Ok [Entry "Previous Starting Designation"
              (PyStr.strip (Re.group 1 text prev_desig_match))
              promotion_context]).

Definition professional_rules : list (string -> result (list entry)) :=
  [first_job_rule; current_org_rule; current_join_rule; current_desig_rule;
   current_sal_rule; prev_org_rule; prev_join_rule; prev_end_rule;
   prev_desig_rule].

Definition extract_professional_info (text : string) : result (list entry) :=
  run_rules professional_rules text.

(** *** [extract_education_info] *)

Definition hs_rule (text : string) : result (list entry) :=
  on_match "high school education at ([^,]+), Jaipur" text (fun hs_match =>
    let school_context :=
      "His core subjects included Mathematics, Physics, Chemistry, and Computer Science, demonstrating his early aptitude for technical disciplines." in
    Ok [Entry "High School" (PyStr.strip (Re.group 1 text hs_match)) school_context]).

Definition year_12_rule (text : string) : result (list entry) :=
  on_match "12th standard in (\d{4})" text (fun year_12_match =>
    Ok [Entry "12th standard pass out year" (Re.group 1 text year_12_match)
              "Outstanding achievement"]).

Definition score_12_rule (text : string) : result (list entry) :=
  on_match "achieving an outstanding ([\d.]+)% overall score" text (fun score_12_match =>
    Ok [Entry "12th overall board score"
              (Re.group 1 text score_12_match +:+ "%") ""]).

Definition ug_degree_rule (text : string) : result (list entry) :=
  on_match "He pursued his (B\.Tech[^a]+) at" text (fun ug_degree_match =>
    Ok [Entry "Undergraduate degree"
              (PyStr.strip (Re.group 1 text ug_degree_match)) ""]).

Definition ug_college_rule (text : string) : result (list entry) :=
  on_match "at the prestigious ([^,]+), graduating" text (fun ug_college_match =>
    Ok [Entry "Undergraduate college"
              (PyStr.strip (Re.group 1 text ug_college_match)) ""]).

Definition ug_year_rule (text : string) : result (list entry) :=
  on_match "graduating with honors in (\d{4})" text (fun ug_year_match =>
    let ug_context :=
      "Graduating with honors and ranking 15th among 120 students in his class." in
    Ok [Entry "Undergraduate year" (Re.group 1 text ug_year_match) ug_context]).

Definition ug_cgpa_rule (text : string) : result (list entry) :=
  on_match "with a CGPA of ([\d.]+) on a 10-point scale" text (fun ug_cgpa_match =>
    Ok [Entry "Undergraduate CGPA" (Re.group 1 text ug_cgpa_match)
              "On a 10-point scale"]).

Definition grad_degree_rule (text : string) : result (list entry) :=
  on_match "earned his (M\.Tech[^i]+) in" text (fun grad_degree_match =>
    Ok [Entry "Graduation degree"
              (PyStr.strip (Re.group 1 text grad_degree_match)) ""]).

Definition grad_college_rule (text : string) : result (list entry) :=
  on_match "His academic excellence continued at ([^,]+), where he earned" text
    (fun grad_college_match =>
      Ok [Entry "Graduation college"
                (PyStr.strip (Re.group 1 text grad_college_match))
                "Continued academic excellence at IIT Bombay"]).

Definition grad_year_rule (text : string) : result (list entry) :=
  on_match "Data Science in (\d{4})" text (fun grad_year_match =>
    Ok [Entry "Graduation year" (Re.group 1 text grad_year_match) ""]).

Definition grad_cgpa_rule (text : string) : result (list entry) :=
  on_match "achieving an exceptional CGPA of ([\d.]+) and scoring (\d+) out of (\d+)" text
    (fun grad_cgpa_match =>
      let thesis_context :=
        "Considered exceptional and scoring 95 out of 100 for his final year thesis project" in
      Ok [Entry "Graduation CGPA" (Re.group 1 text grad_cgpa_match) thesis_context]).

Definition education_rules : list (string -> result (list entry)) :=
  [hs_rule; year_12_rule; score_12_rule; ug_degree_rule; ug_college_rule;
   ug_year_rule; ug_cgpa_rule; grad_degree_rule; grad_college_rule;
   grad_year_rule; grad_cgpa_rule].

Definition extract_education_info (text : string) : result (list entry) :=
  run_rules education_rules text.

(** *** [extract_certifications] *)

Definition cert_context : string :=
  "Vijay's commitment to continuous learning is evident through his impressive certification scores. He passed the AWS Solutions Architect exam in 2019 with a score of 920 out of 1000. Pursued in the year 2020 with 875 points.".

(** The two entries appended whatever the text is. *)
Definition fixed_certifications : list entry :=
  [Entry "Certifications 1" "AWS Solutions Architect" cert_context;
   Entry "Certifications 2" "Azure Data Engineer" cert_context].

Definition pmp_pattern : string :=
  "his Project Management Professional certification, obtained in (\d{4}), was achieved with an "
    +:+ dq +:+ "([^" +:+ dq +:+ "]+)" +:+ dq +:+ " rating".

Definition pmp_rule (text : string) : result (list entry) :=
  on_match pmp_pattern text (fun pmp_match =>
    let pmp_context :=
      "Obtained in " +:+ Re.group 1 text pmp_match +:+ ", was achieved with an "
        +:+ dq +:+ Re.group 2 text pmp_match +:+ dq
        +:+ " rating from PMI. These certifications complement his practical experience and demonstrate his expertise across multiple technology platforms." in
    Ok [Entry "Certifications 3" "Project Management Professional certification"
              pmp_context]).

Definition safe_rule (text : string) : result (list entry) :=
  on_match "his SAFe Agilist certification earned him an outstanding (\d+)% score" text
    (fun safe_match =>
      let safe_context :=
        "Earned him an outstanding " +:+ Re.group 1 text safe_match
          +:+ "% score. These certifications complement his practical experience and demonstrate his expertise across multiple technology platforms." in
      Ok [Entry "Certifications 4" "SAFe Agilist" safe_context]).

Definition extract_certifications (text : string) : result (list entry) :=
  found ← run_rules [pmp_rule; safe_rule] text;
  Ok (fixed_certifications ++ found).

(** *** [extract_technical_proficiency] *)

Definition proficiency_context : string :=
  "In terms of technical proficiency, Vijay rates himself highly across various skills, with SQL expertise at a perfect 10 out of 10, reflecting his daily usage since 2012. His Python proficiency scores 9 out of 10, backed by over seven years of practical experience and demonstrate his expertise across multiple technology platforms.".

Definition extract_technical_proficiency (text : string) : result (list entry) :=
  Ok [Entry "Technical Proficiency" "" proficiency_context].

(** *** The object, [extract_text_from_pdf], [process_document], [save_to_excel] *)

(** The fields of the object ([structured_data] is never read or written
    after construction). *)
Record self := Self { pdf_path : string; text_content : string }.

(** [DocumentExtractor(pdf_path)] *)
Definition init (path : string) : self := Self path "".

(** What the run leaves outside the object: printed lines and files. *)
Record out := Out { stdout : list string; files : gmap string workbook }.

Definition print (line : string) (o : out) : out :=
  Out (stdout o ++ [line]) (files o).

(** The loop [for page in pdf_reader.pages: text += page.extract_text()]. *)
Fixpoint read_pages (ps : list page) (text : string) : result string :=
  match ps with
  | [] => Ok text
  | PageText t :: ps' => read_pages ps' (text +:+ t)
  | PageFails e :: _ => Raise e
  end.

Definition read_pdf (source : pdf) : result string :=
  match source with
  | Unreadable e => Raise e
  | Pages ps => read_pages ps ""
  end.

(** [fs] is the file system as [open] and [PyPDF2.PdfReader] see it. *)
Definition extract_text_from_pdf (fs : string -> pdf) (s : self) (o : out)
    : string * self * out :=
  match read_pdf (fs (pdf_path s)) with
  | Ok text => (text, Self (pdf_path s) text, o)
  | Raise e => ("", s, print ("Error reading PDF: " +:+ exn_detail e) o)
  end.

(** The five sections in order, concatenated. *)
Definition extract_all (text : string) : result (list entry) :=
  personal_data ← extract_personal_info text;
  professional_data ← extract_professional_info text;
  education_data ← extract_education_info text;
  cert_data ← extract_certifications text;
  tech_data ← extract_technical_proficiency text;
  Ok (personal_data ++ professional_data ++ education_data ++ cert_data ++ tech_data).

(** The table built from [all_data]: [pd.DataFrame], the [#] column
    inserted in front, the four column names assigned. *)
Definition build_table (all_data : list entry) : result Pandas.DataFrame :=
  let df := Pandas.of_records all_data in
  df ← Pandas.insert0 "#" (Pandas.range 1 (Pandas.len df + 1)) df;
  Pandas.set_columns ["#"; "Key"; "Value"; "Comments"] df.

Definition process_document (fs : string -> pdf) (s : self) (o : out)
    : result Pandas.DataFrame * self * out :=
  let '(_, s, o) := extract_text_from_pdf fs s o in
  (all_data ← extract_all (text_content s); build_table all_data, s, o).

(** [df.to_excel(output_path, index=False)]: one sheet with the default
    name, no formatting. Nothing catches what the writer raises. *)
Definition to_excel (writer : string -> workbook -> written) (output_path : string)
    (df : Pandas.DataFrame) (o : out) : result unit * out :=
  let wb := Workbook "Sheet1" df [] [] in
  match writer output_path wb with
  | Saved => (Ok (), Out (stdout o) (<[output_path := wb]> (files o)))
  | WriteFails e (Some remains) =>
      (Raise e, Out (stdout o) (<[output_path := remains]> (files o)))
  | WriteFails e None => (Raise e, o)
  end.

Definition save_to_excel (writer : string -> workbook -> written) (fs : string -> pdf)
    (output_path : string) (s : self) (o : out) : result Pandas.DataFrame * self * out :=
  match process_document fs s o with
  | (Ok df, s, o) =>
      match to_excel writer output_path df o with
      | (Ok _, o) =>
          let o := print ("Data successfully extracted and saved to " +:+ output_path) o in
          (Ok df, s, o)
      | (Raise e, o) => (Raise e, s, o)
      end
  | (Raise e, s, o) => (Raise e, s, o)
  end.

End DocumentExtractor.

(* ===================================================================== *)
(** ** The language-model service *)
(* ===================================================================== *)

(** The collaborators of the model-backed extractors, as the programs see
    them: [genai.Client()], which returns or raises;
    [client.models.generate_content(model, contents, config)], which
    returns the response text or raises; [json.loads] on that text, which
    returns the value the text denotes, of whatever shape, or raises; and
    [frame_other], what [pd.DataFrame] makes of a value whose shape
    [Pandas.of_json] leaves open. The service answers a given prompt the
    same way each time (the request sets the sampling temperature to
    zero). *)
Record service := Service {
  new_client : result unit;
  generate_content : string -> string -> result string;
  json_loads : string -> result json;
  frame_other : json -> result Pandas.DataFrame
}.

(** The calls made to the service, in order. *)
Inductive api_call :=
| ClientCreated
| GenerateContent (model prompt : string).

Definition is_generate (c : api_call) : bool :=
  match c with
  | GenerateContent _ _ => true
  | ClientCreated => false
  end.

(* ===================================================================== *)
(** ** [ai_extractor.py]: class [AIDocumentExtractor], command line *)
(* ===================================================================== *)

Module AIExtractor.

Record self := Self { pdf_path : string; text_content : string; use_ai : bool }.

(** [AIDocumentExtractor(pdf_path, use_ai)] *)
Definition init (path : string) (ai : bool) : self := Self path "" ai.

Record out := Out {
  stdout : list string;
  files : gmap string workbook;
  calls : list api_call
}.

Definition print (line : string) (o : out) : out :=
  Out (stdout o ++ [line]) (files o) (calls o).

Definition call (c : api_call) (o : out) : out :=
  Out (stdout o) (files o) (calls o ++ [c]).

(** The loop over the pages: [if page_text: text += page_text + "\n"]. *)
Fixpoint read_pages (ps : list page) (text : string) : result string :=
  match ps with
  | [] => Ok text
  | PageText page_text :: ps' =>
      match page_text with
      | EmptyString => read_pages ps' text
      | _ => read_pages ps' (text +:+ page_text +:+ nl)
      end
  | PageFails e :: _ => Raise e
  end.

Definition read_pdf (source : pdf) : result string :=
  match source with
  | Unreadable e => Raise e
  | Pages ps => read_pages ps ""
  end.

Definition extract_text_from_pdf (fs : string -> pdf) (s : self) (o : out)
    : string * self * out :=
  match read_pdf (fs (pdf_path s)) with
  | Ok text => (text, Self (pdf_path s) text (use_ai s), o)
  | Raise e => ("", s, print ("Error reading PDF: " +:+ exn_detail e) o)
  end.

Definition prompt_head : string :=
  "You are a data extraction expert. Extract ALL information from the following document into a structured key-value format." +:+ nl +:+
  nl +:+
  "DOCUMENT TEXT:" +:+ nl.

Definition prompt_tail : string :=
  nl +:+
  nl +:+
  "INSTRUCTIONS:" +:+ nl +:+
  "1. Extract **EVERY** piece of information - nothing should be omitted." +:+ nl +:+
  "2. Create logical key-value pairs (e.g., " +:+ dq +:+ "First Name" +:+ dq +:+ " : " +:+ dq +:+ "Vijay" +:+ dq +:+ ")." +:+ nl +:+
  "3. For each key-value pair, add relevant **CONTEXT** from the document in a " +:+ dq +:+ "comments" +:+ dq +:+ " field." +:+ nl +:+
  "4. Context should be the **EXACT** original sentences from the document that provide additional information." +:+ nl +:+
  "5. Preserve original wording - do not paraphrase." +:+ nl +:+
  "6. Format dates as DD-MMM-YY (e.g., 15-Mar-89)." +:+ nl +:+
  "7. The output **MUST** be a JSON array that strictly adheres to the provided schema. Do not add any extra text or markdown wrappers like ```json." +:+ nl +:+
  nl +:+
  "Extract ALL information systematically covering:" +:+ nl +:+
  "- Personal details (name, DOB, age, blood group, nationality)" +:+ nl +:+
  "- Professional history (all jobs, dates, salaries, designations)" +:+ nl +:+
  "- Education (schools, colleges, degrees, scores, years)" +:+ nl +:+
  "- Certifications (names, scores, years)" +:+ nl +:+
  "- Technical skills".

Definition prompt (text : string) : string := prompt_head +:+ text +:+ prompt_tail.

Definition model : string := "gemini-2.5-pro".

(** The three [except] clauses around the request, first match first. *)
Definition report (e : exn) : string :=
  match exn_cls e with
  | APIError => "Error with Gemini API: " +:+ exn_detail e
  | JSONDecodeError => "Error decoding JSON response from Gemini: " +:+ exn_detail e
  | _ => "An unexpected error occurred during the API call: " +:+ exn_detail e
  end.

(** What [extract_with_gemini] returns is what [json.loads] returned,
    unchecked, or the empty list. *)
Definition extract_with_gemini (svc : service) (s : self) (o : out)
    : json * out :=
  let o := call ClientCreated o in
  match new_client svc with
  | Raise e =>
      let o := print "Error initializing Gemini client. The GEMINI_API_KEY environment variable is likely missing or incorrect." o in
      let o := print ("Details: " +:+ exn_detail e) o in
      (JArray [], o)
  | Ok _ =>
      let o := call (GenerateContent model (prompt (text_content s))) o in
      match response ← generate_content svc model (prompt (text_content s));
            json_loads svc response with
      | Ok extracted_data => (extracted_data, o)
      | Raise e => (JArray [], print (report e) o)
      end
  end.

(** Fallback rule-based extraction if AI is not available. *)
Definition rule_based_extraction (s : self) : json := JArray [].

(** The lines after [df = pd.DataFrame(extracted_data)]: the three
    columns selected, the [#] column inserted in front, the four column
    names assigned; the empty frame is returned as it is. *)
Definition finish_table (df : Pandas.DataFrame) : result Pandas.DataFrame :=
  if negb (Pandas.empty df) then
    df ← Pandas.select ["key"; "value"; "comments"] df;
    df ← Pandas.insert0 "#" (Pandas.range 1 (Pandas.len df + 1)) df;
    Pandas.set_columns ["#"; "Key"; "Value"; "Comments"] df
  else Ok df.

(** The table built from a list of records. *)
Definition build_table (extracted_data : list entry) : result Pandas.DataFrame :=
  finish_table (Pandas.of_records extracted_data).

(** The table built from whatever [extracted_data] is. No handler is
    around these lines. *)
Definition table_of (svc : service) (extracted_data : json) : result Pandas.DataFrame :=
  df ← Pandas.of_json (frame_other svc) extracted_data;
  finish_table df.

Definition process_document (fs : string -> pdf) (svc : service) (s : self) (o : out)
    : result Pandas.DataFrame * self * out :=
  let '(_, s, o) := extract_text_from_pdf fs s o in
  let '(extracted_data, o) :=
    if use_ai s then extract_with_gemini svc s o
    else (rule_based_extraction s, o) in
  (table_of svc extracted_data, s, o).

(** The workbook written through [pd.ExcelWriter]: sheet ['Extracted Data'],
    four column widths, the cells of column D wrapped and top-aligned. *)
Definition sheet (df : Pandas.DataFrame) : workbook :=
  Workbook "Extracted Data" df [("A", 5); ("B", 35); ("C", 30); ("D", 100)] ["D"].

(** The [with pd.ExcelWriter(output_path, engine='openpyxl')] block.
    Nothing catches what the writer raises. *)
Definition write_excel (writer : string -> workbook -> written) (output_path : string)
    (df : Pandas.DataFrame) (o : out) : result unit * out :=
  match writer output_path (sheet df) with
  | Saved => (Ok (), Out (stdout o) (<[output_path := sheet df]> (files o)) (calls o))
  | WriteFails e (Some remains) =>
      (Raise e, Out (stdout o) (<[output_path := remains]> (files o)) (calls o))
  | WriteFails e None => (Raise e, o)
  end.

Definition save_to_excel (writer : string -> workbook -> written) (fs : string -> pdf)
    (svc : service) (output_path : string) (s : self) (o : out)
    : result Pandas.DataFrame * self * out :=
  match process_document fs svc s o with
  | (Ok df, s, o) =>
      if Pandas.empty df then
        (Ok df, s, print "No data extracted. Skipping Excel save." o)
      else
        match write_excel writer output_path df o with
        | (Ok _, o) =>
            let o := print ("Data successfully extracted and saved to " +:+ output_path) o in
            let o := print ("Total records extracted: " +:+ pretty (Pandas.len df)) o in
            (Ok df, s, o)
        | (Raise e, o) => (Raise e, s, o)
        end
  | (Raise e, s, o) => (Raise e, s, o)
  end.

End AIExtractor.

(* ===================================================================== *)
(** ** [app.py]: class [AIDocumentExtractor] and the Streamlit form *)
(* ===================================================================== *)

(** Streamlit's part: messages shown on the page ([st.error], ..., without
    the pictographs some of them start with), and
    the store behind the decorator [st.cache_data]. The decorator keys an
    entry by the decorated function and by the values of its parameters,
    leaving out every parameter whose name begins with an underscore; a
    hit returns the stored value and shows again the messages the stored
    run showed. *)

Module App.

Inductive st_msg :=
| StError (text : string)
| StWarning (text : string)
| StSuccess (text : string)
| StInfo (text : string).

(** [uploaded_file] is what the upload widget holds: a file, or [None]
    while nothing is uploaded. *)
Record self := Self {
  uploaded_file : option pdf;
  text_content : string;
  use_ai : bool
}.

(** [AIDocumentExtractor(uploaded_file, use_ai)] *)
Definition init (file : option pdf) (ai : bool) : self := Self file "" ai.

(** A stored result of a cached function. *)
Record cached := Cached { c_value : json; c_shown : list st_msg }.

Record out := Out {
  shown : list st_msg;
  calls : list api_call;
  cache : gmap (list string) cached
}.

Definition show (m : st_msg) (o : out) : out :=
  Out (shown o ++ [m]) (calls o) (cache o).

Definition call (c : api_call) (o : out) : out :=
  Out (shown o) (calls o ++ [c]) (cache o).

(** The same loop as in the command-line variant. *)
Fixpoint read_pages (ps : list page) (text : string) : result string :=
  match ps with
  | [] => Ok text
  | PageText page_text :: ps' =>
      match page_text with
      | EmptyString => read_pages ps' text
      | _ => read_pages ps' (text +:+ page_text +:+ nl)
      end
  | PageFails e :: _ => Raise e
  end.

Definition read_pdf (source : pdf) : result string :=
  match source with
  | Unreadable e => Raise e
  | Pages ps => read_pages ps ""
  end.

(** [self.uploaded_file.seek(0)] stands before the [try]: without a file
    it raises out of the method. *)
Definition extract_text_from_pdf (s : self) (o : out) : result string * self * out :=
  match uploaded_file s with
  | None =>
      (Raise (Exn OtherException "'NoneType' object has no attribute 'seek'"), s, o)
  | Some file =>
      match read_pdf file with
      | Ok text => (Ok text, Self (uploaded_file s) text (use_ai s), o)
      | Raise e => (Ok "", s, show (StError ("Error reading PDF: " +:+ exn_detail e)) o)
      end
  end.

Definition prompt_head : string :=
  "You are a data extraction expert. Extract ALL information from the following document into a structured key-value format." +:+ nl +:+
  nl +:+
  "DOCUMENT TEXT:" +:+ nl.

Definition prompt_tail : string :=
  nl +:+
  nl +:+
  "INSTRUCTIONS:" +:+ nl +:+
  "1. Extract **EVERY** piece of information - nothing should be omitted." +:+ nl +:+
  "2. Create logical key-value pairs (e.g., " +:+ dq +:+ "First Name" +:+ dq +:+ " : " +:+ dq +:+ "Vijay" +:+ dq +:+ ")." +:+ nl +:+
  "3. For each key-value pair, add relevant **CONTEXT** from the document in a " +:+ dq +:+ "comments" +:+ dq +:+ " field." +:+ nl +:+
  "4. Context in " +:+ dq +:+ "comments" +:+ dq +:+ " should be the **EXACT** original sentences from the document that provide additional information. Do not modify or summarize these sentences." +:+ nl +:+
  "5. Preserve original wording - do not paraphrase." +:+ nl +:+
  "6. Format dates as DD-MMM-YY (e.g., 15-Mar-89)." +:+ nl +:+
  "7. The output **MUST** be a JSON array that strictly adheres to the provided schema. Do not add any extra text or markdown wrappers like ```json." +:+ nl +:+
  "Extract ALL information systematically covering:" +:+ nl +:+
  "- Personal details (name, DOB, age, blood group, nationality)" +:+ nl +:+
  "- Professional history (all jobs, dates, salaries, designations)" +:+ nl +:+
  "- Education (schools, colleges, degrees, scores, years)" +:+ nl +:+
  "- Certifications (names, scores, years)" +:+ nl +:+
  "- Technical skills".

Definition prompt (text : string) : string := prompt_head +:+ text +:+ prompt_tail.

Definition model : string := "gemini-2.5-flash".

(** The three [except] clauses around the request, first match first. *)
Definition report (e : exn) : st_msg :=
  match exn_cls e with
  | APIError =>
      StError ("Gemini API Error: Please check your GEMINI_API_KEY and model configuration. Details: " +:+ exn_detail e)
  | JSONDecodeError =>
      StError "AI response was not valid JSON. Try again or modify the prompt instructions."
  | _ =>
      StError ("An unexpected error occurred during AI processing: " +:+ exn_detail e)
  end.

(** The body of [extract_with_gemini], as it runs when the decorator finds
    nothing stored: the records, the messages shown, the calls made. *)
Definition extract_with_gemini_body (svc : service) (s : self)
    : json * list st_msg * list api_call :=
  match new_client svc with
  | Raise _ => (JArray [], [], [ClientCreated])
  | Ok _ =>
      let made := [ClientCreated; GenerateContent model (prompt (text_content s))] in
      match response ← generate_content svc model (prompt (text_content s));
            json_loads svc response with
      | Ok extracted_data => (extracted_data, [], made)
      | Raise e => (JArray [], [report e], made)
      end
  end.

(** The parameters of [extract_with_gemini] with the values of a call,
    rendered for hashing: the one parameter is [_self]. *)
Definition describe (s : self) : string :=
  text_content s +:+ (if use_ai s then "|True" else "|False").

Definition extract_with_gemini_params (s : self) : list (string * string) :=
  [("_self", describe s)].

(** The key [st.cache_data] computes for a call: the values of the
    parameters whose names do not begin with an underscore. *)
Definition cache_key (params : list (string * string)) : list string :=
  map snd (List.filter (fun p => negb (PyStr.starts_with "_" (fst p))) params).

(** [extract_with_gemini] as decorated with [st.cache_data]. *)
Definition extract_with_gemini (svc : service) (s : self) (o : out)
    : json * out :=
  let k := cache_key (extract_with_gemini_params s) in
  match cache o !! k with
  | Some hit => (c_value hit, Out (shown o ++ c_shown hit) (calls o) (cache o))
  | None =>
      let '(data, msgs, made) := extract_with_gemini_body svc s in
      (data, Out (shown o ++ msgs) (calls o ++ made)
                 (<[k := Cached data msgs]> (cache o)))
  end.

(** The same construction as in the command-line variant. *)
Definition finish_table (df : Pandas.DataFrame) : result Pandas.DataFrame :=
  if negb (Pandas.empty df) then
    df ← Pandas.select ["key"; "value"; "comments"] df;
    df ← Pandas.insert0 "#" (Pandas.range 1 (Pandas.len df + 1)) df;
    Pandas.set_columns ["#"; "Key"; "Value"; "Comments"] df
  else Ok df.

Definition build_table (extracted_data : list entry) : result Pandas.DataFrame :=
  finish_table (Pandas.of_records extracted_data).

(** The table built from whatever [extracted_data] is; the handler around
    the run is the one of the page script. *)
Definition table_of (svc : service) (extracted_data : json) : result Pandas.DataFrame :=
  df ← Pandas.of_json (frame_other svc) extracted_data;
  finish_table df.

Definition nonempty (text : string) : bool :=
  match text with EmptyString => false | _ => true end.

Definition process_document (svc : service) (s : self) (o : out)
    : result Pandas.DataFrame * self * out :=
  match extract_text_from_pdf s o with
  | (Raise e, s, o) => (Raise e, s, o)
  | (Ok _, s, o) =>
      let '(extracted_data, o) :=
        if use_ai s && nonempty (text_content s) then extract_with_gemini svc s o
        else (JArray [], o) in
      (table_of svc extracted_data, s, o)
  end.

(** [convert_df_to_excel]: the bytes of a one-sheet workbook. *)
Definition convert_df_to_excel (df : Pandas.DataFrame) : workbook :=
  Workbook "Extracted Data" df [] [].

(** *** The page script *)

(** [st.session_state]: the two widgets read by key and the three entries
    the script sets and deletes. *)
Record session := Session {
  pdf_uploader : option pdf;
  use_ai_checkbox : bool;
  run_extraction : option bool;
  extracted_df : option Pandas.DataFrame;
  extractor_instance : option self
}.

(** [check_api_key()] used as a condition; [api_key] is what
    [os.getenv] returns for [GEMINI_API_KEY]. *)
Definition check_api_key (api_key : option string) : bool :=
  match api_key with
  | Some (String _ _) => true
  | _ => false
  end.

(** The check at the top of the page. *)
Definition page_top (api_key : option string) (o : out) : out :=
  if negb (check_api_key api_key)
  then show (StError "**GEMINI_API_KEY not found!** Please create a `.env` file with your key or set it as an environment variable to run the extraction.") o
  else o.

(** The button [Extract Data]. [st.stop()] ends the script run, so the
    flag is left as it was. *)
Definition click_extract (api_key : option string) (ss : session) (o : out)
    : session * out :=
  match pdf_uploader ss with
  | None => (ss, show (StWarning "Please upload a PDF file to begin extraction.") o)
  | Some _ =>
      if negb (check_api_key api_key) && use_ai_checkbox ss
      then (ss, show (StError "Cannot run AI extraction without the GEMINI_API_KEY.") o)
      else (Session (pdf_uploader ss) (use_ai_checkbox ss) (Some true)
                    (extracted_df ss) (extractor_instance ss), o)
  end.

(** The button [Clear Results]. *)
Definition click_clear (ss : session) (o : out) : session * out :=
  (Session (pdf_uploader ss) (use_ai_checkbox ss) None None None,
   Out (shown o) (calls o) ∅).

(** The block under [if 'run_extraction' in st.session_state and ...]. *)
Definition run_block (svc : service) (ss : session) (o : out) : session * out :=
  match run_extraction ss with
  | Some true =>
      let extractor := init (pdf_uploader ss) (use_ai_checkbox ss) in
      match process_document svc extractor o with
      | (Ok result_df, extractor, o) =>
          if negb (Pandas.empty result_df) then
            (Session (pdf_uploader ss) (use_ai_checkbox ss) (Some false)
                     (Some result_df) (Some extractor),
             show (StSuccess ("Extraction Complete! Found **"
                              +:+ pretty (Pandas.len result_df)
                              +:+ "** key-value pairs.")) o)
          else
            (Session (pdf_uploader ss) (use_ai_checkbox ss) (Some false)
                     (extracted_df ss) (Some extractor),
             show (StWarning "No structured data could be extracted by the AI model. Check the console for details.") o)
      | (Raise e, extractor, o) =>
          (Session (pdf_uploader ss) (use_ai_checkbox ss) (Some false)
                   (extracted_df ss) (Some extractor),
           show (StError ("An error occurred during file processing: " +:+ exn_detail e)) o)
      end
  | _ => (ss, o)
  end.

(** The download offered under [Display results if available]. *)
Definition download (ss : session) : option workbook :=
  match extracted_df ss with
  | Some df => if negb (Pandas.empty df) then Some (convert_df_to_excel df) else None
  | None => None
  end.

End App.

(* ===================================================================== *)
(** ** Vocabulary of the statements *)
(* ===================================================================== *)

(** The row of the table for the record at position [n] (counted from 1). *)
Definition table_row (n : nat) (e : entry) : list Pandas.cell :=
  [Pandas.CInt n; Pandas.CStr (key e); Pandas.CStr (value e); Pandas.CStr (comments e)].

(** The rows for [data], numbered from [n] on in the order of [data]. *)
Fixpoint numbered (n : nat) (data : list entry) : list (list Pandas.cell) :=
  match data with
  | [] => []
  | e :: data' => table_row n e :: numbered (S n) data'
  end.

Definition header : list string := ["#"; "Key"; "Value"; "Comments"].

(** The table without rows and without columns. *)
Definition no_table : Pandas.DataFrame := Pandas.Frame [] [].

(** Where a run of a model-backed extractor can fail. *)
Inductive failure_mode :=
| ClientConstruction
| RemoteCall
| ResponseParsing.

(** The service fails in [mode] with [e] on the request for [prompt]. *)
Definition fails (svc : service) (model prompt : string)
    (mode : failure_mode) (e : exn) : Prop :=
  match mode with
  | ClientConstruction => new_client svc = Raise e
  | RemoteCall =>
      new_client svc = Ok () /\ generate_content svc model prompt = Raise e
  | ResponseParsing =>
      new_client svc = Ok ()
      /\ exists response, generate_content svc model prompt = Ok response
                          /\ json_loads svc response = Raise e
  end.

(** What the extractor of each variant reports for a failure. *)
Definition cli_report (mode : failure_mode) (e : exn) : list string :=
  match mode with
  | ClientConstruction =>
      ["Error initializing Gemini client. The GEMINI_API_KEY environment variable is likely missing or incorrect.";
       "Details: " +:+ exn_detail e]
  | _ => [AIExtractor.report e]
  end.

Definition form_report (mode : failure_mode) (e : exn) : list App.st_msg :=
  match mode with
  | ClientConstruction => []
  | _ => [App.report e]
  end.

(** The number of requests sent to the model among [cs]. *)
Definition requests (cs : list api_call) : nat := length (List.filter is_generate cs).

(** The reader's output as the specification words it: every page's text
    in page order, a newline after each page, nothing for a page without
    text. *)
Fixpoint pages_joined (texts : list string) : string :=
  match texts with
  | [] => ""
  | EmptyString :: texts' => pages_joined texts'
  | t :: texts' => t +:+ nl +:+ pages_joined texts'
  end.

(** The page texts one after the other, nothing in between. *)
Fixpoint pages_glued (texts : list string) : string :=
  match texts with
  | [] => ""
  | t :: texts' => t +:+ pages_glued texts'
  end.

(** A correct cache in front of the call, keyed by the document text,
    as C5 describes it. *)
Definition extract_keyed_by_text (svc : service) (s : App.self)
    (memo : gmap string json) : json * gmap string json :=
  match memo !! App.text_content s with
  | Some data => (data, memo)
  | None =>
      let data := (App.extract_with_gemini_body svc s).1.1 in
      (data, <[App.text_content s := data]> memo)
  end.

(** A service that answers with the prompt it was sent, and a parser that
    wraps the answer in one record: different texts give different
    records. *)
Definition echo_service : service :=
  Service (Ok ()) (fun _ prompt => Ok prompt)
          (fun text => Ok (records_json [Entry "echo" text ""]))
          (fun _ => Raise (Exn ValueError "DataFrame constructor not properly called!")).

(** The shape DD-Mon-YY: two digits, a dash, a month abbreviation, a dash,
    two digits. *)
Definition dd_mon_yy (s : string) : bool :=
  match s with
  | String d1 (String d2 (String "-" (String m1 (String m2 (String m3
      (String "-" (String y1 (String y2 EmptyString)))))))) =>
      PyStr.is_digit d1 && PyStr.is_digit d2
      && existsb (String.eqb (String m1 (String m2 (String m3 EmptyString))))
                 PyDate.a_month
      && PyStr.is_digit y1 && PyStr.is_digit y2
  | _ => false
  end.

Fixpoint all_chars (p : ascii -> bool) (s : string) : bool :=
  match s with
  | EmptyString => true
  | String a s' => p a && all_chars p s'
  end.

(** A non-empty run of whitespace. *)
Definition blank (s : string) : Prop := s <> "" /\ all_chars PyStr.is_space s = true.

(** [data] spells the date [dt] in the grammar of the format: the full
    month name in any case, whitespace, the day, a comma, whitespace, the
    year in four digits. *)
Definition spells (dt : PyDate.datetime) (data : string) : Prop :=
  exists B ws1 d ws2 Y,
    data = B +:+ ws1 +:+ d +:+ "," +:+ ws2 +:+ Y
    /\ nth_error PyDate.f_month (PyDate.month dt - 1) = Some (PyStr.lower B)
    /\ blank ws1 /\ blank ws2
    /\ PyStr.int (PyStr.strip d) = Some (PyDate.day dt)
    /\ String.length Y = 4
    /\ PyStr.int Y = Some (PyDate.year dt).

(** The date exists in the calendar. *)
Definition valid_date (dt : PyDate.datetime) : Prop :=
  1 <= PyDate.year dt
  /\ 1 <= PyDate.month dt <= 12
  /\ 1 <= PyDate.day dt <= PyDate.days_in_month (PyDate.year dt) (PyDate.month dt).

(** A text the [%d] group accepts: its value is between 1 and 31. *)
Definition day_text (d : string) : Prop :=
  exists n, PyStr.int (PyStr.strip d) = Some n /\ 1 <= n <= 31.

(** The four rules that carry a date: pattern, key of the date record,
    and the rule. *)
Definition date_rules : list (string * string * (string -> result (list entry))) :=
  [("born on (\w+ \d+, \d{4})", "Date of Birth", DocumentExtractor.dob_rule);
   ("professional journey began on (\w+ \d+, \d{4}), when he joined his first company as a ([^w]+) with an annual salary of ([\d,]+) INR",
    "Joining Date of first professional role", DocumentExtractor.first_job_rule);
   ("beginning on (\w+ \d+, \d{4})", "Current Joining Date",
    DocumentExtractor.current_join_rule);
   ("from (\w+ \d+, \d{4}), to", "Previous Joining Date",
    DocumentExtractor.prev_join_rule)].

(** The text the object holds after [extract_text_from_pdf]. *)
Definition text_read (fs : string -> pdf) (s : DocumentExtractor.self)
    (o : DocumentExtractor.out) : string :=
  DocumentExtractor.text_content (DocumentExtractor.extract_text_from_pdf fs s o).1.2.

(** What a date-bearing rule does on [text]. *)
Definition date_rule_behaviour (text : string)
    (r : string * string * (string -> result (list entry))) : Prop :=
  let '(pattern, key, rule) := r in
  match Re.search pattern text with
  | None => rule text = Ok []
  | Some m =>
      let date := Re.group 1 text m in
      match PyDate.strptime date with
      | Ok dt =>
          spells dt date /\ valid_date dt
          /\ dd_mon_yy (PyDate.strftime dt) = true
          /\ exists others,
               rule text = Ok (Entry key (PyDate.strftime dt) "" :: others)
      | Raise e =>
          exn_cls e = ValueError
          /\ rule text = Raise e
          /\ is_ok (DocumentExtractor.extract_all text) = false
          /\ forall fs s o,
               text_read fs s o = text ->
               is_ok (DocumentExtractor.process_document fs s o).1.1 = false
      end
  end.

(** The three records of [document_extractor.py] that do not come from the
    text. *)
Definition fixed_entries : list entry :=
  DocumentExtractor.fixed_certifications
    ++ [Entry "Technical Proficiency" "" DocumentExtractor.proficiency_context].

Definition vijay_sentence : string :=
  "Vijay Kumar was born on March 15, 1989, in Jaipur, Rajasthan".

(** [sub in text] *)
Fixpoint contains (sub text : string) : bool :=
  PyStr.starts_with sub text
  || match text with
     | EmptyString => false
     | String _ text' => contains sub text'
     end.

(** The extractor emits a record with this key and value. *)
Definition emits (r : result (list entry)) (k v : string) : Prop :=
  exists records c, r = Ok records /\ In (Entry k v c) records.

(** A text with an earlier birth sentence in front of the example's. *)
Definition two_births : string :=
  "Asha Rao was born on January 2, 1990, in Pune, Maharashtra. " +:+ vijay_sentence.

(** The patterns of [document_extractor.py], in source order. *)
Definition source_patterns : list string :=
  ["(\w+\s+\w+)\s+was born";
   "born on (\w+ \d+, \d{4})";
   "born on [^,]+, in (\w+), (\w+)";
   "Born and raised in the Pink City of India, his birthplace provides valuable regional profiling context";
   "making him (\d+) years old as of (\d{4})";
   "His birthdate is formatted as[^,]+, while his age serves as a key demographic marker for analytical purposes";
   "his ([A-Z]\+?) blood group";
   "his [A-Z]\+? blood group is noted for emergency contact purposes";
   "As an (\w+) national";
   "his citizenship status is important for understanding his work authorization and visa requirements across different employment opportunities";
   "professional journey began on (\w+ \d+, \d{4}), when he joined his first company as a ([^w]+) with an annual salary of ([\d,]+) INR";
   "his current role at ([^b]+) beginning";
   "beginning on (\w+ \d+, \d{4})";
   "where he serves as a ([^e]+) earning";
   "earning ([\d,]+) INR annually";
   "This salary progression from his starting compensation to his current peak salary of 2,800,000 INR represents a substantial eight- ?fold increase over his twelve-year career span";
   "he worked at ([^f]+) from";
   "from (\w+ \d+, \d{4}), to";
   "from [^,]+, to (\d{4})";
   "starting as a ([^a]+) and earning a promotion";
   "high school education at ([^,]+), Jaipur";
   "12th standard in (\d{4})";
   "achieving an outstanding ([\d.]+)% overall score";
   "He pursued his (B\.Tech[^a]+) at";
   "at the prestigious ([^,]+), graduating";
   "graduating with honors in (\d{4})";
   "with a CGPA of ([\d.]+) on a 10-point scale";
   "earned his (M\.Tech[^i]+) in";
   "His academic excellence continued at ([^,]+), where he earned";
   "Data Science in (\d{4})";
   "achieving an exceptional CGPA of ([\d.]+) and scoring (\d+) out of (\d+)";
   DocumentExtractor.pmp_pattern;
   "his SAFe Agilist certification earned him an outstanding (\d+)% score"].

(** The month names as the documents write them. *)
Definition month_names : list string :=
  ["January"; "February"; "March"; "April"; "May"; "June"; "July"; "August";
   "September"; "October"; "November"; "December"].

(** The day of the month in decimal, without padding. *)
Definition day_number (d : nat) : string :=
  if Nat.ltb d 10 then String (PyStr.digit_char d) ""
  else String (PyStr.digit_char (d / 10)) (String (PyStr.digit_char (d mod 10)) "").

(** The value of a digit character. *)
Definition digit_of (a : ascii) : nat := nat_of_ascii a - 48.

(** A year written with the four digits [a b c e], and its value. *)
Definition year_text (a b c e : ascii) : string :=
  String a (String b (String c (String e ""))).

Definition year_value (a b c e : ascii) : nat :=
  1000 * digit_of a + 100 * digit_of b + 10 * digit_of c + digit_of e.

(** The date in the form <Month> <day>, <year>. *)
Definition written_date (m d : nat) (Y : string) : string :=
  nth (m - 1) month_names "" +:+ " " +:+ day_number d +:+ ", " +:+ Y.

(** [PyDate.format_match] with the part after the month name as [k]. *)
Definition month_then {A} (k : string -> string -> string -> option A)
    (data : string) : option A :=
  PyDate.first_some
    (fun name =>
       match PyDate.imatch name data with
       | Some (B, r) => PyDate.ws_plus (PyDate.day_group (k B)) r
       | None => None
       end)
    PyDate.month_alternatives.

(** A month, a day and a year in four digits that name an existing date. *)
Definition conforming (m d : nat) (a b c e : ascii) : Prop :=
  1 <= m <= 12
  /\ PyStr.is_digit a = true /\ PyStr.is_digit b = true
  /\ PyStr.is_digit c = true /\ PyStr.is_digit e = true
  /\ 1 <= year_value a b c e
  /\ 1 <= d <= PyDate.days_in_month (year_value a b c e) m.

(** The date as DD-Mon-YY: the day in two digits, the first three letters
    of the name of the month, the last two digits of the year. *)
Definition as_dd_mon_yy (m d : nat) (c e : ascii) : string :=
  PyStr.two_digits d +:+ "-" +:+ substring 0 3 (nth (m - 1) month_names "") +:+ "-"
    +:+ String c (String e "").

(** The text before the sentence does not end in a word character. *)
Fixpoint ends_clean (pre : string) : bool :=
  match pre with
  | EmptyString => true
  | String c EmptyString => negb (PyStr.is_word c)
  | String _ pre' => ends_clean pre'
  end.

(** Nothing before the sentence mentions a birth. *)
Definition quiet (pre : string) : Prop :=
  contains "born" pre = false /\ ends_clean pre = true.

Definition skip_word : string -> string := PyStr.drop_while PyStr.is_word.
Definition skip_space : string -> string := PyStr.drop_while PyStr.is_space.

(** Where the four runs of the name pattern end when read greedily. *)
Definition after_two_words (s : string) : string :=
  skip_space (skip_word (skip_space (skip_word s))).

(** The tokens of a literal text. *)
Fixpoint literal (l : string) : list Re.tok :=
  match l with
  | EmptyString => []
  | String a l' => Re.TSet (Re.lit a) Re.QOne :: literal l'
  end.

Definition word_set : Re.cset := Re.CSet false [Re.CWord].
Definition space_set : Re.cset := Re.CSet false [Re.CSpace].
Definition digit_set : Re.cset := Re.CSet false [Re.CDigit].

(** The compiled patterns of the name rule and of the date-of-birth rule. *)
Definition name_tokens : list Re.tok :=
  [Re.TOpen; Re.TSet word_set Re.QPlus; Re.TSet space_set Re.QPlus;
   Re.TSet word_set Re.QPlus; Re.TClose; Re.TSet space_set Re.QPlus]
    ++ literal "was born".

Definition dob_tokens : list Re.tok :=
  literal "born"
    ++ literal " on "
    ++ [Re.TOpen; Re.TSet word_set Re.QPlus] ++ literal " "
    ++ [Re.TSet digit_set Re.QPlus] ++ literal ", "
    ++ [Re.TSet digit_set (Re.QRep 4); Re.TClose].

(** Every stored result is what the extractor returns for its text. *)
Definition memo_sound (svc : service) (memo : gmap string json) : Prop :=
  forall s data,
    memo !! App.text_content s = Some data ->
    data = (App.extract_with_gemini_body svc s).1.1.

(** The number of pages that have text. *)
Fixpoint pages_with_text (texts : list string) : nat :=
  match texts with
  | [] => 0
  | EmptyString :: texts' => pages_with_text texts'
  | _ :: texts' => S (pages_with_text texts')
  end.

(* ===================================================================== *)
(** ** Vocabulary of the further properties *)
(* ===================================================================== *)

(** *** The shape of a match *)

(** What one quantified class matches: characters of the class, as many
    as the quantifier allows. *)
Definition chunk (c : Re.cset) (q : Re.quant) (v : string) : Prop :=
  all_chars (Re.mem c) v = true
  /\ match q with
     | Re.QOne => String.length v = 1
     | Re.QOpt => String.length v <= 1
     | Re.QPlus => 1 <= String.length v
     | Re.QRep n => String.length v = n
     end.

(** The text [u] is matched by the tokens [ts], and the groups closed on
    the way hold the texts [gs], in order; [cur] is the text read so far
    by the group that is open. *)
Fixpoint shaped (ts : list Re.tok) (u : string) (cur : option string)
    (gs : list string) : Prop :=
  match ts with
  | [] => u = "" /\ gs = []
  | Re.TOpen :: ts' => shaped ts' u (Some "") gs
  | Re.TClose :: ts' =>
      exists g gs', cur = Some g /\ gs = g :: gs' /\ shaped ts' u None gs'
  | Re.TSet c q :: ts' =>
      exists v w, u = v +:+ w /\ chunk c q v
                  /\ shaped ts' w (option_map (fun g => g +:+ v) cur) gs
  end.

(** The literal text a token list starts with, and the tokens after it. *)
Fixpoint lit_prefix (ts : list Re.tok) : string * list Re.tok :=
  match ts with
  | Re.TSet (Re.CSet false [Re.CChar a]) Re.QOne :: ts' =>
      let '(l, rest) := lit_prefix ts' in (String a l, rest)
  | _ => ("", ts)
  end.

(** *** Shapes of extracted values *)

(** A non-empty run of word characters, and of digits. *)
Definition word (s : string) : Prop := s <> "" /\ all_chars PyStr.is_word s = true.
Definition digits (s : string) : Prop := s <> "" /\ all_chars PyStr.is_digit s = true.

Definition four_digits (s : string) : Prop :=
  String.length s = 4 /\ all_chars PyStr.is_digit s = true.

(** The character [x] does not occur in [s]. *)
Definition lacks (x : ascii) (s : string) : bool :=
  all_chars (fun a => negb (Ascii.eqb a x)) s.

(** No whitespace at either end. *)
Definition trimmed (s : string) : Prop :=
  match s with String a _ => PyStr.is_space a = false | EmptyString => True end
  /\ match PyStr.rev s with String a _ => PyStr.is_space a = false | EmptyString => True end.

(** The rules of [document_extractor.py] whose value is read by a negated
    class and stripped: the rule, its key, and the character the class
    shuts out. *)
Definition bounded_rules
    : list ((string -> result (list entry)) * string * ascii) :=
  [(DocumentExtractor.current_org_rule, "Current Organization", "b"%char);
   (DocumentExtractor.current_desig_rule, "Current Designation", "e"%char);
   (DocumentExtractor.prev_org_rule, "Previous Organization", "f"%char);
   (DocumentExtractor.prev_desig_rule, "Previous Starting Designation", "a"%char);
   (DocumentExtractor.hs_rule, "High School", ","%char);
   (DocumentExtractor.ug_degree_rule, "Undergraduate degree", "a"%char);
   (DocumentExtractor.ug_college_rule, "Undergraduate college", ","%char);
   (DocumentExtractor.grad_degree_rule, "Graduation degree", "i"%char);
   (DocumentExtractor.grad_college_rule, "Graduation college", ","%char)].

(** What a rule of [bounded_rules] does on [text]. *)
Definition bounded_rule_behaviour (text : string)
    (r : (string -> result (list entry)) * string * ascii) : Prop :=
  let '(rule, k, x) := r in
  rule text = Ok []
  \/ exists v c, rule text = Ok [Entry k v c] /\ lacks x v = true /\ trimmed v.

(** The rules whose value is a year. *)
Definition year_rules : list ((string -> result (list entry)) * string) :=
  [(DocumentExtractor.prev_end_rule, "Previous end year");
   (DocumentExtractor.year_12_rule, "12th standard pass out year");
   (DocumentExtractor.ug_year_rule, "Undergraduate year");
   (DocumentExtractor.grad_year_rule, "Graduation year")].

Definition year_rule_behaviour (text : string)
    (r : (string -> result (list entry)) * string) : Prop :=
  let '(rule, k) := r in
  rule text = Ok []
  \/ exists y c, rule text = Ok [Entry k y c] /\ four_digits y.

(** The sentence the current-salary rule looks for as a comment, with or
    without the blank the pattern allows after the hyphen. *)
Definition salary_progression (gap : string) : string :=
  "This salary progression from his starting compensation to his current peak salary of 2,800,000 INR represents a substantial eight-"
    +:+ gap +:+ "fold increase over his twelve-year career span".




(** The number of places at which [sub] occurs in [text]. *)
Fixpoint occurrences (sub text : string) : nat :=
  (if PyStr.starts_with sub text then 1 else 0)
  + match text with
    | EmptyString => 0
    | String _ text' => occurrences sub text'
    end.



(** The first exception among the results, in order. *)
Fixpoint first_raise {A} (rs : list (result A)) : option exn :=
  match rs with
  | [] => None
  | Ok _ :: rs' => first_raise rs'
  | Raise e :: _ => Some e
  end.

(** The rules of [document_extractor.py] that do not call [strptime]. *)
Definition plain_rules : list (string -> result (list entry)) :=
  [DocumentExtractor.name_rule; DocumentExtractor.birth_rule;
   DocumentExtractor.age_rule; DocumentExtractor.blood_rule;
   DocumentExtractor.nationality_rule; DocumentExtractor.current_org_rule;
   DocumentExtractor.current_desig_rule; DocumentExtractor.current_sal_rule;
   DocumentExtractor.prev_org_rule; DocumentExtractor.prev_end_rule;
   DocumentExtractor.prev_desig_rule]
  ++ DocumentExtractor.education_rules
  ++ [DocumentExtractor.pmp_rule; DocumentExtractor.safe_rule].

(** The rules in the order [process_document] runs them. *)
Definition rules_in_order : list (string -> result (list entry)) :=
  DocumentExtractor.personal_rules ++ DocumentExtractor.professional_rules
  ++ DocumentExtractor.education_rules
  ++ [DocumentExtractor.pmp_rule; DocumentExtractor.safe_rule].

(** Every key the table of [document_extractor.py] can hold, in the order
    of the rows. *)
Definition table_keys : list string :=
  ["First Name"; "Last Name"; "Date of Birth"; "Birth City"; "Birth State";
   "Age"; "Blood Group"; "Nationality";
   "Joining Date of first professional role";
   "Designation of first professional role";
   "Salary of first professional role";
   "Salary currency of first professional role";
   "Current Organization"; "Current Joining Date"; "Current Designation";
   "Current Salary"; "Current Salary Currency"; "Previous Organization";
   "Previous Joining Date"; "Previous end year"; "Previous Starting Designation";
   "High School"; "12th standard pass out year"; "12th overall board score";
   "Undergraduate degree"; "Undergraduate college"; "Undergraduate year";
   "Undergraduate CGPA"; "Graduation degree"; "Graduation college";
   "Graduation year"; "Graduation CGPA";
   "Certifications 1"; "Certifications 2"; "Certifications 3"; "Certifications 4";
   "Technical Proficiency"].

(** The keys each rule emits when it emits. *)
Definition rule_keys : list ((string -> result (list entry)) * list string) :=
  [(DocumentExtractor.name_rule, ["First Name"; "Last Name"]);
   (DocumentExtractor.dob_rule, ["Date of Birth"]);
   (DocumentExtractor.birth_rule, ["Birth City"; "Birth State"]);
   (DocumentExtractor.age_rule, ["Age"]);
   (DocumentExtractor.blood_rule, ["Blood Group"]);
   (DocumentExtractor.nationality_rule, ["Nationality"]);
   (DocumentExtractor.first_job_rule,
    ["Joining Date of first professional role";
     "Designation of first professional role";
     "Salary of first professional role";
     "Salary currency of first professional role"]);
   (DocumentExtractor.current_org_rule, ["Current Organization"]);
   (DocumentExtractor.current_join_rule, ["Current Joining Date"]);
   (DocumentExtractor.current_desig_rule, ["Current Designation"]);
   (DocumentExtractor.current_sal_rule, ["Current Salary"; "Current Salary Currency"]);
   (DocumentExtractor.prev_org_rule, ["Previous Organization"]);
   (DocumentExtractor.prev_join_rule, ["Previous Joining Date"]);
   (DocumentExtractor.prev_end_rule, ["Previous end year"]);
   (DocumentExtractor.prev_desig_rule, ["Previous Starting Designation"]);
   (DocumentExtractor.hs_rule, ["High School"]);
   (DocumentExtractor.year_12_rule, ["12th standard pass out year"]);
   (DocumentExtractor.score_12_rule, ["12th overall board score"]);
   (DocumentExtractor.ug_degree_rule, ["Undergraduate degree"]);
   (DocumentExtractor.ug_college_rule, ["Undergraduate college"]);
   (DocumentExtractor.ug_year_rule, ["Undergraduate year"]);
   (DocumentExtractor.ug_cgpa_rule, ["Undergraduate CGPA"]);
   (DocumentExtractor.grad_degree_rule, ["Graduation degree"]);
   (DocumentExtractor.grad_college_rule, ["Graduation college"]);
   (DocumentExtractor.grad_year_rule, ["Graduation year"]);
   (DocumentExtractor.grad_cgpa_rule, ["Graduation CGPA"]);
   (DocumentExtractor.pmp_rule, ["Certifications 3"]);
   (DocumentExtractor.safe_rule, ["Certifications 4"])].

(** A rule emits nothing or records with exactly its keys. *)
Definition keeps_keys (r : (string -> result (list entry)) * list string) : Prop :=
  forall text found, r.1 text = Ok found -> map key found = [] \/ map key found = r.2.




(** *** Dates in the grammar of the format *)

(** The date string <Month> <day>, <year> with the month written [B],
    the day written [D] and the year written with the digits [a b c e]. *)
Definition date_text (B D : string) (a b c e : ascii) : string :=
  B +:+ " " +:+ D +:+ ", " +:+ year_text a b c e.

(** [D] is the day [d] in the digits of the grammar: as it is, or padded
    with a zero to two digits. *)
Definition day_digits (d : nat) (D : string) : Prop :=
  D = day_number d \/ D = PyStr.two_digits d.

(** [B], [D] and the year name the date of month [m] and day [d]: [B] is
    the English name of the month in whatever letter case, [D] is the day
    in one or two digits, the year is not 0000, and the month has that
    day in that year. *)
Definition names_date (B D : string) (a b c e : ascii) (m d : nat) : Prop :=
  1 <= m <= 12
  /\ PyStr.lower B = PyStr.lower (nth (m - 1) month_names "")
  /\ day_digits d D
  /\ 1 <= year_value a b c e
  /\ 1 <= d <= PyDate.days_in_month (year_value a b c e) m.

(** What a date-bearing rule does on [text], by the date it matched. *)
Definition date_rule_decides (text : string)
    (r : string * string * (string -> result (list entry))) : Prop :=
  let '(pattern, key, rule) := r in
  match Re.search pattern text with
  | None => rule text = Ok []
  | Some found =>
      exists B D a b c e,
        Re.group 1 text found = date_text B D a b c e
        /\ word B /\ digits D
        /\ PyStr.is_digit a = true /\ PyStr.is_digit b = true
        /\ PyStr.is_digit c = true /\ PyStr.is_digit e = true
        /\ ((exists m d others,
               names_date B D a b c e m d
               /\ rule text = Ok (Entry key (as_dd_mon_yy m d c e) "" :: others))
            \/ ((forall m d, ~ names_date B D a b c e m d)
                /\ exists err,
                     exn_cls err = ValueError
                     /\ rule text = Raise err
                     /\ is_ok (DocumentExtractor.extract_all text) = false
                     /\ forall fs s o,
                          text_read fs s o = text ->
                          is_ok (DocumentExtractor.process_document fs s o).1.1 = false))
  end.

(** The day as the [%d] group accepts it when a comma follows: one digit
    from 1 to 9, or two digits from 01 to 31. *)
Definition day_ok (D : string) : bool :=
  match D with
  | String x EmptyString => PyStr.in_range 49 57 x
  | String x (String y EmptyString) =>
      (Ascii.eqb "3" x && PyStr.in_range 48 49 y)
      || (PyStr.in_range 49 50 x && PyStr.is_digit y)
      || (Ascii.eqb "0" x && PyStr.in_range 49 57 y)
  | _ => false
  end.

(* ===================================================================== *)
(** ** The programs around the classes *)
(* ===================================================================== *)

(** The programs end when an exception leaves [save_to_excel]: nothing
    catches it. *)

(** [df.head(n)]: the first [n] rows. *)
Definition df_head (n : nat) (df : Pandas.DataFrame) : Pandas.DataFrame :=
  Pandas.Frame (Pandas.columns df) (take n (Pandas.rows df)).

(** [s * n] *)
Fixpoint str_times (s : string) (n : nat) : string :=
  match n with
  | O => ""
  | S n' => s +:+ str_times s n'
  end.

(** The block under [if __name__ == "__main__"] of [document_extractor.py].
    [to_string] is [DataFrame.to_string]. An exception that leaves
    [save_to_excel] ends the program. *)
Definition pattern_main (to_string : Pandas.DataFrame -> string)
    (writer : string -> workbook -> written)
    (fs : string -> pdf) (o : DocumentExtractor.out)
    : result unit * DocumentExtractor.out :=
  let extractor := DocumentExtractor.init "Data Input.pdf" in
  match DocumentExtractor.save_to_excel writer fs "Output.xlsx" extractor o with
  | (Ok result_df, _, o) =>
      let o := DocumentExtractor.print (nl +:+ "Extracted Data Preview:") o in
      let o := DocumentExtractor.print (to_string result_df) o in
      let o := DocumentExtractor.print
                 (nl +:+ "Total records extracted: " +:+ pretty (Pandas.len result_df)) o in
      (Ok (), o)
  | (Raise e, _, o) => (Raise e, o)
  end.

(** The three values read from [sys.argv], with their defaults. The test
    [sys.argv[3].lower() == 'true'] compares with ASCII letters, which no
    character other than an ASCII letter is lowered to. *)
Definition cli_pdf_path (argv : list string) : string :=
  if Nat.ltb (length argv) 2 then "Data Input.pdf" else nth 1 argv "".

Definition cli_output_path (argv : list string) : string :=
  if Nat.ltb (length argv) 3 then "Output.xlsx" else nth 2 argv "".

Definition cli_use_ai (argv : list string) : bool :=
  if Nat.ltb (length argv) 4 then true
  else String.eqb (PyStr.lower (nth 3 argv "")) "true".

(** The block under [if __name__ == "__main__"] of [ai_extractor.py].
    [path_exists] is [os.path.exists]. *)
Definition cli_main (to_string : Pandas.DataFrame -> string)
    (path_exists : string -> bool) (writer : string -> workbook -> written)
    (fs : string -> pdf) (svc : service)
    (argv : list string) (o : AIExtractor.out) : result unit * AIExtractor.out :=
  let pdf_path := cli_pdf_path argv in
  let output_path := cli_output_path argv in
  let use_ai := cli_use_ai argv in
  let o := AIExtractor.print "Initializing AI Document Extractor..." o in
  if negb (path_exists pdf_path) then
    (Ok (), AIExtractor.print
              ("Error: The specified PDF file was not found at path: " +:+ pdf_path) o)
  else
    let extractor := AIExtractor.init pdf_path use_ai in
    let o := AIExtractor.print "Extracting data from document..." o in
    match AIExtractor.save_to_excel writer fs svc output_path extractor o with
    | (Ok result_df, _, o) =>
        let o := AIExtractor.print (nl +:+ str_times "=" 80) o in
        let o := AIExtractor.print "EXTRACTION COMPLETE" o in
        let o := AIExtractor.print (str_times "=" 80) o in
        let o := AIExtractor.print (nl +:+ "Preview of extracted data:") o in
        let o := AIExtractor.print (to_string (df_head 10 result_df)) o in
        let o := AIExtractor.print
                   (nl +:+ "... (" +:+ pretty (Pandas.len result_df) +:+ " total records)") o in
        (Ok (), o)
    | (Raise e, _, o) => (Raise e, o)
    end.

(** *** One run of the page script of [app.py] *)

(** What the user did to start the run: the file in the upload widget, the
    state of the checkbox, and the button clicked, if any. *)
Inductive button :=
| NoButton
| ExtractData
| ClearResults.

Record event := Event {
  ev_file : option pdf;
  ev_use_ai : bool;
  ev_button : button
}.

(** The panel [Peek at the Raw Text Content]. *)
Inductive raw_panel :=
| TextArea (text : string)
| PanelInfo (text : string).

(** What is drawn under [Display results if available]: the table, the
    file behind the download button, and the panel. *)
Record results := Results {
  r_table : Pandas.DataFrame;
  r_download : workbook;
  r_raw : raw_panel
}.

Definition display (ss : App.session) : option results :=
  match App.extracted_df ss with
  | Some df =>
      if negb (Pandas.empty df) then
        Some (Results df (App.convert_df_to_excel df)
                (match App.extractor_instance ss with
                 | Some extractor_instance =>
                     if App.nonempty (App.text_content extractor_instance)
                     then TextArea (App.text_content extractor_instance)
                     else PanelInfo "Raw text was empty or not generated (check PDF readability)."
                 | None =>
                     PanelInfo "Upload a document and click 'Extract Data' to see the raw text."
                 end))
      else None
  | None => None
  end.

(** How a run ends: the page is drawn to its end, or [st.stop()] cut it
    short. *)
Inductive page_end :=
| Drawn (view : option results)
| Stopped.

(** The two conditions under which the button [Extract Data] calls
    [st.stop()]. *)
Definition extract_stops (api_key : option string) (ss : App.session) : bool :=
  match App.pdf_uploader ss with
  | None => true
  | Some _ => negb (App.check_api_key api_key) && App.use_ai_checkbox ss
  end.

(** The script from the main content area on: the extraction block and
    the display. *)
Definition main_area (svc : service) (ss : App.session) (o : App.out)
    : App.session * App.out * page_end :=
  let '(ss, o) := App.run_block svc ss o in
  (ss, o, Drawn (display ss)).

(** One run of the script, from its first line to its end or to
    [st.stop()]: a run that Streamlit does not cut short for a widget
    touched while it is under way. The widgets put their values into the
    session; a click on [Clear Results] ends in [st.rerun()], which runs
    the script again with no button clicked. *)
Definition script (api_key : option string) (svc : service) (ev : event)
    (ss : App.session) (o : App.out) : App.session * App.out * page_end :=
  let ss := App.Session (ev_file ev) (ev_use_ai ev) (App.run_extraction ss)
                        (App.extracted_df ss) (App.extractor_instance ss) in
  let o := App.page_top api_key o in
  match ev_button ev with
  | ExtractData =>
      let '(ss', o) := App.click_extract api_key ss o in
      if extract_stops api_key ss then (ss', o, Stopped)
      else main_area svc ss' o
  | ClearResults =>
      let '(ss, o) := App.click_clear ss o in
      main_area svc ss (App.page_top api_key o)
  | NoButton => main_area svc ss o
  end.

(** The session before the first run. *)
Definition new_session : App.session := App.Session None true None None None.


(** A PDF whose pages give the texts [texts] and whose next page fails
    with [e]. *)
Definition pages_then_failure (texts : list string) (e : exn) (later : list page) : pdf :=
  Pages (map PageText texts ++ PageFails e :: later).

(** *** Patterns read as phrases *)

(** The classes of characters the patterns of [document_extractor.py] are
    written with: [\w], [\d], [\s], [[A-Z]], a character itself, [[^x]],
    and [[\dx]]. *)
Inductive char_class :=
| Word
| Digit
| Space
| Capital
| Exactly (x : ascii)
| Not (x : ascii)
| DigitOr (x : ascii).

Definition in_class (c : char_class) (a : ascii) : bool :=
  match c with
  | Word => PyStr.is_word a
  | Digit => PyStr.is_digit a
  | Space => PyStr.is_space a
  | Capital => PyStr.is_upper_az a
  | Exactly x => Ascii.eqb a x
  | Not x => negb (Ascii.eqb a x)
  | DigitOr x => PyStr.is_digit a || Ascii.eqb a x
  end.

(** How many characters of a class: one, [?], [+], or [{n}]. *)
Inductive count :=
| One
| AtMostOne
| OneOrMore
| Times (n : nat).

Definition counted (q : count) (n : nat) : Prop :=
  match q with
  | One => n = 1
  | AtMostOne => n <= 1
  | OneOrMore => 1 <= n
  | Times k => n = k
  end.

(** A pattern, piece by piece: literal text, characters of a class, and
    the parentheses of a group. *)
Inductive piece :=
| Text (s : string)
| Chars (c : char_class) (q : count)
| GroupStart
| GroupEnd.

(** The text [u] is the pieces one after the other. *)
Fixpoint reads (ps : list piece) (u : string) : Prop :=
  match ps with
  | [] => u = ""
  | Text s :: ps' => exists w, u = s +:+ w /\ reads ps' w
  | Chars c q :: ps' =>
      exists v w, u = v +:+ w /\ all_chars (in_class c) v = true
                  /\ counted q (String.length v) /\ reads ps' w
  | GroupStart :: ps' => reads ps' u
  | GroupEnd :: ps' => reads ps' u
  end.

(** Some part of [text] is a phrase of the pattern. *)
Definition holds (ps : list piece) (text : string) : Prop :=
  exists before u rest, text = before +:+ u +:+ rest /\ reads ps u.

(** The rules of [document_extractor.py], each with its pattern piece by
    piece. *)
Definition rule_patterns : list ((string -> result (list entry)) * list piece) :=
  [(DocumentExtractor.name_rule,
    [GroupStart; Chars Word OneOrMore; Chars Space OneOrMore; Chars Word OneOrMore;
     GroupEnd; Chars Space OneOrMore; Text "was born"]);
   (DocumentExtractor.dob_rule,
    [Text "born on "; GroupStart; Chars Word OneOrMore; Text " ";
     Chars Digit OneOrMore; Text ", "; Chars Digit (Times 4); GroupEnd]);
   (DocumentExtractor.birth_rule,
    [Text "born on "; Chars (Not ",") OneOrMore; Text ", in "; GroupStart;
     Chars Word OneOrMore; GroupEnd; Text ", "; GroupStart; Chars Word OneOrMore;
     GroupEnd]);
   (DocumentExtractor.age_rule,
    [Text "making him "; GroupStart; Chars Digit OneOrMore; GroupEnd;
     Text " years old as of "; GroupStart; Chars Digit (Times 4); GroupEnd]);
   (DocumentExtractor.blood_rule,
    [Text "his "; GroupStart; Chars Capital One; Chars (Exactly "+") AtMostOne;
     GroupEnd; Text " blood group"]);
   (DocumentExtractor.nationality_rule,
    [Text "As an "; GroupStart; Chars Word OneOrMore; GroupEnd; Text " national"]);
   (DocumentExtractor.first_job_rule,
    [Text "professional journey began on "; GroupStart; Chars Word OneOrMore; Text " ";
     Chars Digit OneOrMore; Text ", "; Chars Digit (Times 4); GroupEnd;
     Text ", when he joined his first company as a "; GroupStart;
     Chars (Not "w") OneOrMore; GroupEnd; Text " with an annual salary of ";
     GroupStart; Chars (DigitOr ",") OneOrMore; GroupEnd; Text " INR"]);
   (DocumentExtractor.current_org_rule,
    [Text "his current role at "; GroupStart; Chars (Not "b") OneOrMore; GroupEnd;
     Text " beginning"]);
   (DocumentExtractor.current_join_rule,
    [Text "beginning on "; GroupStart; Chars Word OneOrMore; Text " ";
     Chars Digit OneOrMore; Text ", "; Chars Digit (Times 4); GroupEnd]);
   (DocumentExtractor.current_desig_rule,
    [Text "where he serves as a "; GroupStart; Chars (Not "e") OneOrMore; GroupEnd;
     Text " earning"]);
   (DocumentExtractor.current_sal_rule,
    [Text "earning "; GroupStart; Chars (DigitOr ",") OneOrMore; GroupEnd;
     Text " INR annually"]);
   (DocumentExtractor.prev_org_rule,
    [Text "he worked at "; GroupStart; Chars (Not "f") OneOrMore; GroupEnd;
     Text " from"]);
   (DocumentExtractor.prev_join_rule,
    [Text "from "; GroupStart; Chars Word OneOrMore; Text " "; Chars Digit OneOrMore;
     Text ", "; Chars Digit (Times 4); GroupEnd; Text ", to"]);
   (DocumentExtractor.prev_end_rule,
    [Text "from "; Chars (Not ",") OneOrMore; Text ", to "; GroupStart;
     Chars Digit (Times 4); GroupEnd]);
   (DocumentExtractor.prev_desig_rule,
    [Text "starting as a "; GroupStart; Chars (Not "a") OneOrMore; GroupEnd;
     Text " and earning a promotion"]);
   (DocumentExtractor.hs_rule,
    [Text "high school education at "; GroupStart; Chars (Not ",") OneOrMore; GroupEnd;
     Text ", Jaipur"]);
   (DocumentExtractor.year_12_rule,
    [Text "12th standard in "; GroupStart; Chars Digit (Times 4); GroupEnd]);
   (DocumentExtractor.score_12_rule,
    [Text "achieving an outstanding "; GroupStart; Chars (DigitOr ".") OneOrMore;
     GroupEnd; Text "% overall score"]);
   (DocumentExtractor.ug_degree_rule,
    [Text "He pursued his "; GroupStart; Text "B.Tech"; Chars (Not "a") OneOrMore;
     GroupEnd; Text " at"]);
   (DocumentExtractor.ug_college_rule,
    [Text "at the prestigious "; GroupStart; Chars (Not ",") OneOrMore; GroupEnd;
     Text ", graduating"]);
   (DocumentExtractor.ug_year_rule,
    [Text "graduating with honors in "; GroupStart; Chars Digit (Times 4); GroupEnd]);
   (DocumentExtractor.ug_cgpa_rule,
    [Text "with a CGPA of "; GroupStart; Chars (DigitOr ".") OneOrMore; GroupEnd;
     Text " on a 10-point scale"]);
   (DocumentExtractor.grad_degree_rule,
    [Text "earned his "; GroupStart; Text "M.Tech"; Chars (Not "i") OneOrMore;
     GroupEnd; Text " in"]);
   (DocumentExtractor.grad_college_rule,
    [Text "His academic excellence continued at "; GroupStart;
     Chars (Not ",") OneOrMore; GroupEnd; Text ", where he earned"]);
   (DocumentExtractor.grad_year_rule,
    [Text "Data Science in "; GroupStart; Chars Digit (Times 4); GroupEnd]);
   (DocumentExtractor.grad_cgpa_rule,
    [Text "achieving an exceptional CGPA of "; GroupStart;
     Chars (DigitOr ".") OneOrMore; GroupEnd; Text " and scoring "; GroupStart;
     Chars Digit OneOrMore; GroupEnd; Text " out of "; GroupStart;
     Chars Digit OneOrMore; GroupEnd]);
   (DocumentExtractor.pmp_rule,
    [Text "his Project Management Professional certification, obtained in ";
     GroupStart; Chars Digit (Times 4); GroupEnd;
     Text (", was achieved with an " +:+ dq); GroupStart;
     Chars (Not (ascii_of_nat 34)) OneOrMore; GroupEnd; Text (dq +:+ " rating")]);
   (DocumentExtractor.safe_rule,
    [Text "his SAFe Agilist certification earned him an outstanding "; GroupStart;
     Chars Digit OneOrMore; GroupEnd; Text "% score"])].

(** A rule emits nothing exactly when no part of the text is a phrase of
    its pattern. *)
Definition fires_on_its_phrase (text : string)
    (r : (string -> result (list entry)) * list piece) : Prop :=
  r.1 text = Ok [] <-> ~ holds r.2 text.

(** The tokens [Re.compile] makes of a pattern written piece by piece. *)
Definition class_set (c : char_class) : Re.cset :=
  match c with
  | Word => Re.CSet false [Re.CWord]
  | Digit => Re.CSet false [Re.CDigit]
  | Space => Re.CSet false [Re.CSpace]
  | Capital => Re.CSet false [Re.CRange "A" "Z"]
  | Exactly x => Re.CSet false [Re.CChar x]
  | Not x => Re.CSet true [Re.CChar x]
  | DigitOr x => Re.CSet false [Re.CDigit; Re.CChar x]
  end.

Definition count_quant (q : count) : Re.quant :=
  match q with
  | One => Re.QOne
  | AtMostOne => Re.QOpt
  | OneOrMore => Re.QPlus
  | Times n => Re.QRep n
  end.

Fixpoint tokens_of (ps : list piece) : list Re.tok :=
  match ps with
  | [] => []
  | Text s :: ps' => literal s ++ tokens_of ps'
  | Chars c q :: ps' => Re.TSet (class_set c) (count_quant q) :: tokens_of ps'
  | GroupStart :: ps' => Re.TOpen :: tokens_of ps'
  | GroupEnd :: ps' => Re.TClose :: tokens_of ps'
  end.

(** No parenthesis closes a group that is not open. *)
Fixpoint closes_ok (ps : list piece) (opened : bool) : bool :=
  match ps with
  | [] => true
  | GroupStart :: ps' => closes_ok ps' true
  | GroupEnd :: ps' => opened && closes_ok ps' false
  | _ :: ps' => closes_ok ps' opened
  end.

(** *** Answers of another shape *)

(** The answer is a list of dictionaries, some with a member, none with
    the field [k]. *)
Definition lacks_field (k : string) (dicts : list (list (string * json))) : Prop :=
  In k ["key"; "value"; "comments"]
  /\ Forall (fun d => Pandas.get k d = None) dicts
  /\ Exists (fun d => d <> []) dicts.

(* ===================================================================== *)
(** ** Strings and results *)
(* ===================================================================== *)

Lemma append_cons (x : ascii) (a b : string) : String x a +:+ b = String x (a +:+ b).
Proof. reflexivity. Qed.

Lemma append_nil_l (s : string) : "" +:+ s = s.
Proof. reflexivity. Qed.

Lemma append_assoc (a b c : string) : (a +:+ b) +:+ c = a +:+ (b +:+ c).
Proof.
  induction a as [|x a IH]; [reflexivity|].
  rewrite !append_cons. f_equal. exact IH.
Qed.

Lemma append_empty_r (a : string) : a +:+ "" = a.
Proof.
  induction a as [|x a IH]; [reflexivity|].
  rewrite append_cons. f_equal. exact IH.
Qed.

Lemma bind_ok {A B} (r : result A) (f : A -> result B) (b : B) :
  r ≫= f = Ok b -> exists a, r = Ok a /\ f a = Ok b.
Proof. destruct r as [a|e]; [eauto|discriminate]. Qed.

Lemma bind_ok_l {A B} (a : A) (f : A -> result B) : Ok a ≫= f = f a.
Proof. reflexivity. Qed.

Lemma bind_not_ok {A B} (r : result A) (f : A -> result B) :
  is_ok r = false -> is_ok (r ≫= f) = false.
Proof. destruct r; [discriminate|reflexivity]. Qed.

(* ===================================================================== *)
(** ** The record table builder *)
(* ===================================================================== *)



Lemma zip_numbered (data : list entry) (n : nat) :
  zip_with (fun v r => Pandas.CInt v :: r) (seq n (length data))
    (map (fun e => [Pandas.CStr (key e); Pandas.CStr (value e);
                    Pandas.CStr (comments e)]) data)
  = numbered n data.
Proof.
  revert n. induction data as [|e data IH]; intros n; simpl; [reflexivity|].
  now rewrite IH.
Qed.

Lemma range_from_one (n : nat) : Pandas.range 1 (n + 1) = seq 1 n.
Proof. unfold Pandas.range. f_equal. lia. Qed.

Lemma insert_numbers (data : list entry) :
  let df := Pandas.Frame ["key"; "value"; "comments"]
              (map (fun e => [Pandas.CStr (key e); Pandas.CStr (value e);
                              Pandas.CStr (comments e)]) data) in
  Pandas.insert0 "#" (Pandas.range 1 (Pandas.len df + 1)) df
  = Ok (Pandas.Frame ["#"; "key"; "value"; "comments"] (numbered 1 data)).
Proof.
  intros df. unfold Pandas.insert0.
  change (Pandas.has_column "#" df) with false. cbv iota.
  rewrite range_from_one. unfold Pandas.len, df. simpl Pandas.rows.
  rewrite length_seq, length_map, Nat.eqb_refl.
  simpl Pandas.columns. now rewrite zip_numbered.
Qed.

Lemma select_all (data : list entry) :
  let df := Pandas.Frame ["key"; "value"; "comments"]
              (map (fun e => [Pandas.CStr (key e); Pandas.CStr (value e);
                              Pandas.CStr (comments e)]) data) in
  Pandas.select ["key"; "value"; "comments"] df = Ok df.
Proof.
  intros df. unfold Pandas.select, df. simpl. f_equal. f_equal.
  induction data as [|e data IH]; simpl; [reflexivity|]. now rewrite IH.
Qed.

Lemma pattern_table_cons (e : entry) (data : list entry) :
  DocumentExtractor.build_table (e :: data)
  = Ok (Pandas.Frame header (numbered 1 (e :: data))).
Proof.
  unfold DocumentExtractor.build_table.
  change (Pandas.of_records (e :: data)) with
    (Pandas.Frame ["key"; "value"; "comments"]
       (map (fun e => [Pandas.CStr (key e); Pandas.CStr (value e);
                       Pandas.CStr (comments e)]) (e :: data))).
  rewrite insert_numbers. reflexivity.
Qed.

Lemma cli_table_cons (e : entry) (data : list entry) :
  AIExtractor.build_table (e :: data)
  = Ok (Pandas.Frame header (numbered 1 (e :: data))).
Proof.
  unfold AIExtractor.build_table, AIExtractor.finish_table.
  change (Pandas.of_records (e :: data)) with
    (Pandas.Frame ["key"; "value"; "comments"]
       (map (fun e => [Pandas.CStr (key e); Pandas.CStr (value e);
                       Pandas.CStr (comments e)]) (e :: data))).
  change (negb (Pandas.empty _)) with true. cbv iota.
  rewrite select_all. unfold mbind at 1, result_bind at 1.
  rewrite insert_numbers. reflexivity.
Qed.


Lemma cli_table_nil : AIExtractor.build_table [] = Ok no_table.
Proof. reflexivity. Qed.

(** On a list of records the model-backed builders never raise. *)
Lemma cli_table_total (data : list entry) :
  exists df, AIExtractor.build_table data = Ok df
             /\ Pandas.empty df = match data with [] => true | _ => false end.
Proof.
  destruct data as [|e data].
  - exists no_table. split; reflexivity.
  - eexists. split; [apply cli_table_cons|reflexivity].
Qed.





Lemma app_table_of_eq (svc : service) (answer : json) :
  App.table_of svc answer = AIExtractor.table_of svc answer.
Proof. reflexivity. Qed.

Lemma cli_table_of_nothing (svc : service) :
  AIExtractor.table_of svc (JArray []) = Ok no_table.
Proof. reflexivity. Qed.

(** The builder of the pattern variant applied to the empty list would
    raise; its caller never passes one (see [pattern_extractor_never_empty]). *)
Lemma pattern_table_nil :
  DocumentExtractor.build_table [] = Raise (Exn ValueError "Length mismatch").
Proof. reflexivity. Qed.



(* ===================================================================== *)
(** ** The text reader *)
(* ===================================================================== *)

Lemma cli_read_pages_joined (texts : list string) (acc : string) :
  AIExtractor.read_pages (map PageText texts) acc = Ok (acc +:+ pages_joined texts).
Proof.
  revert acc. induction texts as [|t texts IH]; intros acc; simpl.
  - now rewrite append_empty_r.
  - destruct t as [|c t]; [apply IH|].
    rewrite IH. f_equal. now rewrite !append_assoc.
Qed.

Lemma app_read_pages_eq (ps : list page) (acc : string) :
  App.read_pages ps acc = AIExtractor.read_pages ps acc.
Proof.
  revert acc. induction ps as [|p ps IH]; intros acc; simpl; [reflexivity|].
  destruct p as [t|e]; [|reflexivity]. destruct t; apply IH.
Qed.

Lemma pattern_read_pages_glued (texts : list string) (acc : string) :
  DocumentExtractor.read_pages (map PageText texts) acc = Ok (acc +:+ pages_glued texts).
Proof.
  revert acc. induction texts as [|t texts IH]; intros acc; simpl.
  - now rewrite append_empty_r.
  - rewrite IH. now rewrite append_assoc.
Qed.

(** The two model-backed readers do what C9 says of a readable PDF. *)
Lemma model_backed_readers_join_pages (texts : list string) :
  (forall path ai o,
      AIExtractor.extract_text_from_pdf (fun _ => Pages (map PageText texts))
        (AIExtractor.init path ai) o
      = (pages_joined texts, AIExtractor.Self path (pages_joined texts) ai, o))
  /\ (forall ai o,
      App.extract_text_from_pdf (App.init (Some (Pages (map PageText texts))) ai) o
      = (Ok (pages_joined texts),
         App.Self (Some (Pages (map PageText texts))) (pages_joined texts) ai, o)).
Proof.
  split; intros.
  - unfold AIExtractor.extract_text_from_pdf, AIExtractor.read_pdf. simpl.
    now rewrite cli_read_pages_joined.
  - unfold App.extract_text_from_pdf, App.read_pdf. simpl.
    now rewrite app_read_pages_eq, cli_read_pages_joined.
Qed.

(** On a read failure each of the three readers returns the empty string,
    reports the failure and leaves the object as it was. *)
Lemma readers_survive_failure (e : exn) :
  (forall fs s o, DocumentExtractor.read_pdf (fs (DocumentExtractor.pdf_path s)) = Raise e ->
      DocumentExtractor.extract_text_from_pdf fs s o
      = ("", s, DocumentExtractor.print ("Error reading PDF: " +:+ exn_detail e) o))
  /\ (forall fs s o, AIExtractor.read_pdf (fs (AIExtractor.pdf_path s)) = Raise e ->
      AIExtractor.extract_text_from_pdf fs s o
      = ("", s, AIExtractor.print ("Error reading PDF: " +:+ exn_detail e) o))
  /\ (forall file s o, App.uploaded_file s = Some file -> App.read_pdf file = Raise e ->
      App.extract_text_from_pdf s o
      = (Ok "", s, App.show (App.StError ("Error reading PDF: " +:+ exn_detail e)) o)).
Proof.
  repeat split; intros.
  - unfold DocumentExtractor.extract_text_from_pdf. now rewrite H.
  - unfold AIExtractor.extract_text_from_pdf. now rewrite H.
  - unfold App.extract_text_from_pdf. now rewrite H, H0.
Qed.

(** The reader of the pattern variant glues the pages together. *)
Lemma pattern_reader_glues_pages (texts : list string) (path : string)
    (o : DocumentExtractor.out) :
  DocumentExtractor.extract_text_from_pdf (fun _ => Pages (map PageText texts))
    (DocumentExtractor.init path) o
  = (pages_glued texts, DocumentExtractor.Self path (pages_glued texts), o).
Proof.
  unfold DocumentExtractor.extract_text_from_pdf, DocumentExtractor.read_pdf. simpl.
  now rewrite pattern_read_pages_glued.
Qed.

Lemma length_append (a b : string) :
  String.length (a +:+ b) = String.length a + String.length b.
Proof.
  induction a as [|x a IH]; [reflexivity|].
  rewrite append_cons. cbn [String.length]. now rewrite IH.
Qed.

(** The output C9 describes is longer than the glued pages by one
    character for each page that has text: the two differ on every PDF
    that has such a page. *)
Lemma glued_pages_lack_newlines (texts : list string) :
  String.length (pages_joined texts)
  = String.length (pages_glued texts) + pages_with_text texts
  /\ (pages_with_text texts <> 0 -> pages_glued texts <> pages_joined texts).
Proof.
  assert (String.length (pages_joined texts)
          = String.length (pages_glued texts) + pages_with_text texts) as H.
  { induction texts as [|t texts IH]; [reflexivity|].
    destruct t as [|c t].
    - cbn [pages_joined pages_glued pages_with_text]. now rewrite append_nil_l.
    - cbn [pages_joined pages_glued pages_with_text].
      rewrite !length_append, IH. change (String.length nl) with 1. lia. }
  split; [exact H|]. intros Hn E. rewrite E in H. lia.
Qed.

(** C9 (code at the failing input): on a readable PDF of two pages with
    the texts [A] and [B], the reader of [document_extractor.py] returns
    [AB]; the output C9 describes, and the one the other two readers
    return, is [A], newline, [B], newline. *)
Theorem pattern_reader_omits_newlines :
  let two_pages := fun _ : string => Pages [PageText "A"; PageText "B"] in
  (DocumentExtractor.extract_text_from_pdf two_pages
     (DocumentExtractor.init "Data Input.pdf") (DocumentExtractor.Out [] ∅)).1.1 = "AB"
  /\ (AIExtractor.extract_text_from_pdf two_pages
        (AIExtractor.init "Data Input.pdf" true) (AIExtractor.Out [] ∅ [])).1.1
     = pages_joined ["A"; "B"]
  /\ pages_joined ["A"; "B"] = "A" +:+ nl +:+ "B" +:+ nl
  /\ "AB" <> pages_joined ["A"; "B"].
Proof. repeat split; try reflexivity. vm_compute. discriminate. Qed.

(* ===================================================================== *)
(** ** When the model is called *)
(* ===================================================================== *)


(** So does the command-line variant while the flag is off. *)
Lemma cli_flag_off_makes_no_call (fs : string -> pdf) (svc : service)
    (s : AIExtractor.self) (o : AIExtractor.out) :
  AIExtractor.use_ai s = false ->
  let '(_, s1, o1) := AIExtractor.extract_text_from_pdf fs s o in
  AIExtractor.process_document fs svc s o = (Ok no_table, s1, o1)
  /\ AIExtractor.calls o1 = AIExtractor.calls o
  /\ AIExtractor.files o1 = AIExtractor.files o.
Proof.
  intros Hoff. unfold AIExtractor.process_document.
  destruct (AIExtractor.extract_text_from_pdf fs s o) as [[t s1] o1] eqn:E.
  assert (AIExtractor.use_ai s1 = false /\ AIExtractor.calls o1 = AIExtractor.calls o
          /\ AIExtractor.files o1 = AIExtractor.files o) as (-> & Hc & Hf).
  { unfold AIExtractor.extract_text_from_pdf in E.
    destruct (AIExtractor.read_pdf _); injection E as <- <- <-; auto. }
  auto.
Qed.

(** C4 (code at the failing input): the command-line variant run with the
    flag on over a PDF without pages reads the empty text and still calls
    the service: it creates the client and sends the prompt built around
    the empty text. C4 asks for no call when the text is empty, which is
    what [app.py] does ([form_guard_makes_no_call]). *)
Theorem cli_calls_model_on_empty_text
    (generate : string -> string -> result string)
    (loads : string -> result json)
    (frames : json -> result Pandas.DataFrame) (path : string) :
  let svc := Service (Ok ()) generate loads frames in
  let fs := fun _ : string => Pages [] in
  let start := AIExtractor.Out [] ∅ [] in
  (AIExtractor.extract_text_from_pdf fs (AIExtractor.init path true) start).1.1 = ""
  /\ AIExtractor.calls (AIExtractor.process_document fs svc (AIExtractor.init path true) start).2
     = [ClientCreated; GenerateContent "gemini-2.5-pro" (AIExtractor.prompt "")].
Proof.
  split; [reflexivity|].
  unfold AIExtractor.process_document. cbn.
  unfold AIExtractor.extract_with_gemini. cbn.
  destruct (generate _ _) as [t|e]; cbn; [|reflexivity].
  destruct (loads t); reflexivity.
Qed.

(* ===================================================================== *)
(** ** The command-line variant without the model *)
(* ===================================================================== *)

(** C10: in [ai_extractor.py], with the flag off, the fallback
    [rule_based_extraction] returns the empty list whatever the document
    is; [process_document] returns the table without rows, the service is
    not called, and [save_to_excel] reports that nothing was extracted and
    writes no file. *)
Theorem cli_without_ai_extracts_nothing (writer : string -> workbook -> written)
    (fs : string -> pdf) (svc : service)
    (path output_path : string) (o : AIExtractor.out) :
  let s := AIExtractor.init path false in
  let '(_, s1, o1) := AIExtractor.extract_text_from_pdf fs s o in
  AIExtractor.rule_based_extraction s1 = JArray []
  /\ AIExtractor.process_document fs svc s o = (Ok no_table, s1, o1)
  /\ Pandas.len no_table = 0
  /\ AIExtractor.save_to_excel writer fs svc output_path s o
     = (Ok no_table, s1, AIExtractor.print "No data extracted. Skipping Excel save." o1)
  /\ AIExtractor.files (AIExtractor.save_to_excel writer fs svc output_path s o).2
     = AIExtractor.files o
  /\ AIExtractor.calls (AIExtractor.save_to_excel writer fs svc output_path s o).2
     = AIExtractor.calls o.
Proof.
  intros s.
  pose proof (cli_flag_off_makes_no_call fs svc s o eq_refl) as H.
  destruct (AIExtractor.extract_text_from_pdf fs s o) as [[t s1] o1].
  destruct H as (Hp & Hc & Hf).
  split; [reflexivity|]. split; [exact Hp|]. split; [reflexivity|].
  unfold AIExtractor.save_to_excel. rewrite Hp. cbn.
  repeat split; assumption.
Qed.

(* ===================================================================== *)
(** ** Export *)
(* ===================================================================== *)

(** Whatever the text, the list of the pattern variant ends with the
    fixed technical-proficiency record: it is never empty. *)
Lemma pattern_extractor_never_empty (text : string) (all_data : list entry) :
  DocumentExtractor.extract_all text = Ok all_data -> all_data <> [].
Proof.
  unfold DocumentExtractor.extract_all. intros H.
  apply bind_ok in H as (personal & _ & H).
  apply bind_ok in H as (professional & _ & H).
  apply bind_ok in H as (education & _ & H).
  apply bind_ok in H as (cert & _ & H).
  apply bind_ok in H as (tech & Ht & H).
  injection Ht as <-. injection H as <-.
  intros Hnil. apply (f_equal (@length entry)) in Hnil.
  rewrite !length_app in Hnil. simpl in Hnil. lia.
Qed.

Lemma pattern_table_never_empty (fs : string -> pdf) (s : DocumentExtractor.self)
    (o : DocumentExtractor.out) (df : Pandas.DataFrame) :
  (DocumentExtractor.process_document fs s o).1.1 = Ok df -> Pandas.empty df = false.
Proof.
  unfold DocumentExtractor.process_document.
  destruct (DocumentExtractor.extract_text_from_pdf fs s o) as [[t s1] o1]. simpl.
  intros H. apply bind_ok in H as (all_data & Ha & H).
  apply pattern_extractor_never_empty in Ha.
  destruct all_data as [|e data]; [congruence|].
  rewrite pattern_table_cons in H. injection H as <-. reflexivity.
Qed.

(** [extract_text_from_pdf] and [process_document] write no file. *)
Lemma cli_extractor_keeps_files (svc : service) (s : AIExtractor.self)
    (o : AIExtractor.out) :
  AIExtractor.files (AIExtractor.extract_with_gemini svc s o).2 = AIExtractor.files o.
Proof.
  unfold AIExtractor.extract_with_gemini.
  destruct (new_client svc); [|reflexivity]. cbn.
  destruct (generate_content svc _ _) as [t|]; cbn; [|reflexivity].
  destruct (json_loads svc t); reflexivity.
Qed.

Lemma cli_process_keeps_files (fs : string -> pdf) (svc : service)
    (s : AIExtractor.self) (o : AIExtractor.out) :
  AIExtractor.files (AIExtractor.process_document fs svc s o).2 = AIExtractor.files o.
Proof.
  unfold AIExtractor.process_document.
  assert (AIExtractor.files (AIExtractor.extract_text_from_pdf fs s o).2
          = AIExtractor.files o) as Hf.
  { unfold AIExtractor.extract_text_from_pdf. destruct (AIExtractor.read_pdf _); reflexivity. }
  destruct (AIExtractor.extract_text_from_pdf fs s o) as [[t s1] o1]. cbn [snd] in Hf.
  destruct (AIExtractor.use_ai s1); [|exact Hf].
  pose proof (cli_extractor_keeps_files svc s1 o1) as Hg.
  destruct (AIExtractor.extract_with_gemini svc s1 o1) as [data o2]. cbn [snd] in *.
  congruence.
Qed.

Lemma pattern_process_keeps_files (fs : string -> pdf) (s : DocumentExtractor.self)
    (o : DocumentExtractor.out) :
  DocumentExtractor.files (DocumentExtractor.process_document fs s o).2
  = DocumentExtractor.files o.
Proof.
  unfold DocumentExtractor.process_document, DocumentExtractor.extract_text_from_pdf.
  destruct (DocumentExtractor.read_pdf _); reflexivity.
Qed.

(** What the files are after an attempt to write [wb] at [path]. *)
Lemma cli_write_files (writer : string -> workbook -> written) (path : string)
    (df : Pandas.DataFrame) (o : AIExtractor.out) :
  match writer path (AIExtractor.sheet df) with
  | Saved =>
      AIExtractor.write_excel writer path df o
      = (Ok (), AIExtractor.Out (AIExtractor.stdout o)
                  (<[path := AIExtractor.sheet df]> (AIExtractor.files o))
                  (AIExtractor.calls o))
  | WriteFails e remains =>
      (AIExtractor.write_excel writer path df o).1 = Raise e
      /\ AIExtractor.stdout (AIExtractor.write_excel writer path df o).2 = AIExtractor.stdout o
      /\ AIExtractor.calls (AIExtractor.write_excel writer path df o).2 = AIExtractor.calls o
      /\ AIExtractor.files (AIExtractor.write_excel writer path df o).2
         = match remains with
           | Some wb => <[path := wb]> (AIExtractor.files o)
           | None => AIExtractor.files o
           end
  end.
Proof.
  unfold AIExtractor.write_excel.
  destruct (writer path (AIExtractor.sheet df)) as [|e [wb|]]; auto.
Qed.

(** C8: [save_to_excel] of [ai_extractor.py] tests the table that
    [process_document] returned. When the table is empty it returns it,
    writes no file, and its last printed line says that no data was
    extracted. Only for a table that is not empty does it call the
    writer, with that table as the sheet [Extracted Data] and the output
    path: when the writer saves, the file is at the path; when the writer
    raises, the exception leaves [save_to_excel], and the path holds what
    the writer left there. When [process_document] raises (the answer of
    the service was not a list of records), nothing is written. In every
    case the files differ from before only after a table with rows.
    [save_to_excel] of [document_extractor.py] has no test of the table,
    and needs none: its table always has rows; it calls the writer with
    the table as the sheet [Sheet1], and writes nothing when the
    extraction raises. The form variant offers a download only for a
    table with rows. *)
Theorem export_only_of_non_empty_table :
  (forall writer fs svc output_path s o,
      let run := AIExtractor.process_document fs svc s o in
      let done := AIExtractor.save_to_excel writer fs svc output_path s o in
      match run.1.1 with
      | Ok df =>
          if Pandas.empty df then
            done.1.1 = Ok df
            /\ AIExtractor.files done.2 = AIExtractor.files o
            /\ last (AIExtractor.stdout done.2)
               = Some "No data extracted. Skipping Excel save."
          else
            match writer output_path (AIExtractor.sheet df) with
            | Saved =>
                done.1.1 = Ok df
                /\ AIExtractor.files done.2
                   = <[output_path := AIExtractor.sheet df]> (AIExtractor.files o)
            | WriteFails e remains =>
                done.1.1 = Raise e
                /\ AIExtractor.files done.2
                   = match remains with
                     | Some wb => <[output_path := wb]> (AIExtractor.files o)
                     | None => AIExtractor.files o
                     end
            end
      | Raise e =>
          done.1.1 = Raise e /\ AIExtractor.files done.2 = AIExtractor.files o
      end)
  /\ (forall writer fs svc output_path s o,
        AIExtractor.files (AIExtractor.save_to_excel writer fs svc output_path s o).2
        <> AIExtractor.files o ->
        exists df, (AIExtractor.process_document fs svc s o).1.1 = Ok df
                   /\ Pandas.empty df = false)
  /\ (forall writer fs output_path s o,
        let done := DocumentExtractor.save_to_excel writer fs output_path s o in
        match (DocumentExtractor.process_document fs s o).1.1 with
        | Ok df =>
            Pandas.empty df = false
            /\ match writer output_path (Workbook "Sheet1" df [] []) with
               | Saved =>
                   done.1.1 = Ok df
                   /\ DocumentExtractor.files done.2
                      = <[output_path := Workbook "Sheet1" df [] []]>
                          (DocumentExtractor.files o)
               | WriteFails e remains =>
                   done.1.1 = Raise e
                   /\ DocumentExtractor.files done.2
                      = match remains with
                        | Some wb => <[output_path := wb]> (DocumentExtractor.files o)
                        | None => DocumentExtractor.files o
                        end
               end
        | Raise e =>
            done.1.1 = Raise e
            /\ DocumentExtractor.files done.2 = DocumentExtractor.files o
        end)
  /\ (forall ss wb,
        App.download ss = Some wb ->
        exists df, App.extracted_df ss = Some df /\ Pandas.empty df = false
                   /\ wb = Workbook "Extracted Data" df [] []).
Proof.
  assert (forall writer fs svc output_path s o,
      let run := AIExtractor.process_document fs svc s o in
      let done := AIExtractor.save_to_excel writer fs svc output_path s o in
      match run.1.1 with
      | Ok df =>
          if Pandas.empty df then
            done.1.1 = Ok df
            /\ AIExtractor.files done.2 = AIExtractor.files o
            /\ last (AIExtractor.stdout done.2)
               = Some "No data extracted. Skipping Excel save."
          else
            match writer output_path (AIExtractor.sheet df) with
            | Saved =>
                done.1.1 = Ok df
                /\ AIExtractor.files done.2
                   = <[output_path := AIExtractor.sheet df]> (AIExtractor.files o)
            | WriteFails e remains =>
                done.1.1 = Raise e
                /\ AIExtractor.files done.2
                   = match remains with
                     | Some wb => <[output_path := wb]> (AIExtractor.files o)
                     | None => AIExtractor.files o
                     end
            end
      | Raise e =>
          done.1.1 = Raise e /\ AIExtractor.files done.2 = AIExtractor.files o
      end) as Hcli.
  { intros writer fs svc output_path s o. cbv zeta.
    pose proof (cli_process_keeps_files fs svc s o) as Hfiles.
    unfold AIExtractor.save_to_excel.
    destruct (AIExtractor.process_document fs svc s o) as [[[df|e] s1] o1];
      cbn [fst snd] in *; [|auto].
    destruct (Pandas.empty df) eqn:He.
    - cbn. repeat split; try assumption. apply last_snoc.
    - pose proof (cli_write_files writer output_path df o1) as Hw.
      destruct (writer output_path (AIExtractor.sheet df)) as [|e remains].
      + rewrite Hw. cbn. now rewrite Hfiles.
      + destruct Hw as (Hr & _ & _ & Hf).
        destruct (AIExtractor.write_excel writer output_path df o1) as [[u|e'] o2];
          cbn [fst snd] in *; [discriminate|].
        injection Hr as ->. split; [reflexivity|]. now rewrite Hf, Hfiles. }
  split; [exact Hcli|]. split; [|split].
  - intros writer fs svc output_path s o Hne.
    specialize (Hcli writer fs svc output_path s o). cbv zeta in Hcli.
    destruct (AIExtractor.process_document fs svc s o).1.1 as [df|e];
      [|now destruct Hcli].
    exists df. split; [reflexivity|].
    destruct (Pandas.empty df); [|reflexivity]. now destruct Hcli as (_ & ? & _).
  - intros writer fs output_path s o. cbv zeta.
    pose proof (pattern_table_never_empty fs s o) as Hne.
    pose proof (pattern_process_keeps_files fs s o) as Hfiles.
    unfold DocumentExtractor.save_to_excel, DocumentExtractor.to_excel.
    destruct (DocumentExtractor.process_document fs s o) as [[[df|e] s1] o1];
      cbn [fst snd] in *; [|auto].
    split; [now apply Hne|].
    destruct (writer output_path (Workbook "Sheet1" df [] [])) as [|e [wb|]];
      cbn; rewrite ?Hfiles; auto.
  - intros ss wb. unfold App.download.
    destruct (App.extracted_df ss) as [df|]; [|discriminate].
    destruct (Pandas.empty df) eqn:He; [discriminate|].
    cbn. intros H. injection H as <-. eauto.
Qed.

(* ===================================================================== *)
(** ** Failures of the model-backed extractors *)
(* ===================================================================== *)

Lemma requests_app (a b : list api_call) : requests (a ++ b) = requests a + requests b.
Proof. unfold requests. now rewrite List.filter_app, length_app. Qed.

Lemma cli_failure (svc : service) (s : AIExtractor.self) (o : AIExtractor.out)
    (mode : failure_mode) (e : exn) :
  fails svc AIExtractor.model (AIExtractor.prompt (AIExtractor.text_content s)) mode e ->
  exists o',
    AIExtractor.extract_with_gemini svc s o = (JArray [], o')
    /\ AIExtractor.stdout o' = AIExtractor.stdout o ++ cli_report mode e
    /\ AIExtractor.files o' = AIExtractor.files o
    /\ requests (AIExtractor.calls o') <= requests (AIExtractor.calls o) + 1.
Proof.
  unfold AIExtractor.extract_with_gemini.
  destruct mode; cbn [fails].
  - intros ->. eexists. split; [reflexivity|].
    cbn -[requests]. rewrite <- app_assoc, requests_app. repeat split. cbn. lia.
  - intros (-> & ->). eexists. split; [reflexivity|].
    cbn -[requests]. rewrite !requests_app. repeat split. cbn. lia.
  - intros (-> & response & -> & H). cbn -[requests]. rewrite H.
    eexists. split; [reflexivity|].
    cbn -[requests]. rewrite !requests_app. repeat split. cbn. lia.
Qed.

Lemma form_failure (svc : service) (s : App.self) (o : App.out)
    (mode : failure_mode) (e : exn) :
  App.cache o !! App.cache_key (App.extract_with_gemini_params s) = None ->
  fails svc App.model (App.prompt (App.text_content s)) mode e ->
  exists o',
    App.extract_with_gemini svc s o = (JArray [], o')
    /\ App.shown o' = App.shown o ++ form_report mode e
    /\ requests (App.calls o') <= requests (App.calls o) + 1.
Proof.
  unfold App.extract_with_gemini. intros ->.
  unfold App.extract_with_gemini_body.
  destruct mode; cbn [fails].
  - intros ->. eexists. split; [reflexivity|].
    cbn -[requests]. rewrite requests_app. repeat split. cbn. lia.
  - intros (-> & ->). eexists. split; [reflexivity|].
    cbn -[requests]. rewrite !requests_app. repeat split. cbn. lia.
  - intros (-> & response & -> & H). cbn -[requests]. rewrite H.
    eexists. split; [reflexivity|].
    cbn -[requests]. rewrite !requests_app. repeat split. cbn. lia.
Qed.

(** After a failure the pipeline goes on: [process_document] returns the
    empty table, and [save_to_excel] of the command-line variant writes no
    file. *)
Lemma cli_failure_pipeline (writer : string -> workbook -> written)
    (fs : string -> pdf) (svc : service)
    (s : AIExtractor.self) (o : AIExtractor.out) (mode : failure_mode) (e : exn)
    (output_path : string) :
  AIExtractor.use_ai s = true ->
  fails svc AIExtractor.model
    (AIExtractor.prompt
       (AIExtractor.text_content (AIExtractor.extract_text_from_pdf fs s o).1.2))
    mode e ->
  (AIExtractor.process_document fs svc s o).1.1 = Ok no_table
  /\ (AIExtractor.save_to_excel writer fs svc output_path s o).1.1 = Ok no_table
  /\ AIExtractor.files (AIExtractor.save_to_excel writer fs svc output_path s o).2
     = AIExtractor.files o.
Proof.
  intros Hai Hf.
  assert ((AIExtractor.process_document fs svc s o).1.1 = Ok no_table) as Hp.
  { unfold AIExtractor.process_document.
    destruct (AIExtractor.extract_text_from_pdf fs s o) as [[t s1] o1] eqn:E.
    cbn [fst snd] in Hf.
    assert (AIExtractor.use_ai s1 = true) as ->.
    { unfold AIExtractor.extract_text_from_pdf in E.
      destruct (AIExtractor.read_pdf _); injection E as <- <- <-; assumption. }
    destruct (cli_failure svc s1 o1 mode e Hf) as (o' & -> & _). reflexivity. }
  pose proof (cli_process_keeps_files fs svc s o) as Hfiles.
  unfold AIExtractor.save_to_excel.
  destruct (AIExtractor.process_document fs svc s o) as [[r s1] o1].
  cbn [fst snd] in Hp, Hfiles. subst r. cbn. auto.
Qed.

Lemma form_failure_pipeline (svc : service) (s : App.self) (o : App.out)
    (file : pdf) (mode : failure_mode) (e : exn) :
  App.uploaded_file s = Some file ->
  App.cache o !! [] = None ->
  fails svc App.model
    (App.prompt (App.text_content (App.extract_text_from_pdf s o).1.2)) mode e ->
  (App.process_document svc s o).1.1 = Ok no_table.
Proof.
  intros Hfile Hmiss Hf. unfold App.process_document.
  destruct (App.extract_text_from_pdf s o) as [[r s1] o1] eqn:E.
  cbn [fst snd] in Hf.
  assert (App.cache o1 = App.cache o /\ exists t, r = Ok t) as (Hc & t & ->).
  { unfold App.extract_text_from_pdf in E. rewrite Hfile in E.
    destruct (App.read_pdf file); injection E as <- <- <-; eauto. }
  destruct (App.use_ai s1 && App.nonempty (App.text_content s1)); [|reflexivity].
  rewrite <- Hc in Hmiss.
  destruct (form_failure svc s1 o1 mode e Hmiss Hf) as (o' & -> & _). reflexivity.
Qed.

(** C7, as stated, fails in the form variant: when constructing the client
    fails, [extract_with_gemini] of [app.py] returns the empty list and
    shows nothing (its handler is [except Exception: return []], with the
    comment that the case is handled by the page's key check). *)
Lemma form_client_failure_is_silent :
  let svc := Service (Raise (Exn ValueError "Missing key inputs argument"))
                     (fun _ _ => Ok "[]") (fun _ => Ok (JArray []))
                     (fun _ => Ok no_table) in
  let s := App.Self (Some (Pages [PageText "text"])) ("text" +:+ nl) true in
  let start := App.Out [] [] ∅ in
  fails svc App.model (App.prompt (App.text_content s)) ClientConstruction
        (Exn ValueError "Missing key inputs argument")
  /\ (App.extract_with_gemini svc s start).1 = JArray []
  /\ App.shown (App.extract_with_gemini svc s start).2 = []
  /\ App.shown (App.process_document svc
                  (App.init (Some (Pages [PageText "text"])) true) start).2 = [].
Proof. repeat split. Qed.

(** C7 (amended): when the service fails in one of the three modes on the
    request a variant sends for the document text, the extractor of that
    variant returns the empty list and sends at most one request (nothing
    is retried), and the table built from its result is the empty table.
    Each variant is taken by itself: the failure is that of its own
    request, with its own model. The command-line extractor prints the
    error (two lines for a client that cannot be constructed, one line
    with the detail otherwise), and [save_to_excel] then writes no file.
    The form extractor, when it finds nothing cached, shows the error of
    a failed request or of a response that does not parse, and shows
    nothing when the client cannot be constructed; a missing key is
    reported by the page instead: with the model enabled, the extract
    button shows an error and does not start the run. *)
Theorem model_failure_gives_empty_table :
  (forall svc text mode e path ai o,
      fails svc AIExtractor.model (AIExtractor.prompt text) mode e ->
      exists o',
        AIExtractor.extract_with_gemini svc (AIExtractor.Self path text ai) o
        = (JArray [], o')
        /\ AIExtractor.stdout o' = AIExtractor.stdout o ++ cli_report mode e
        /\ AIExtractor.files o' = AIExtractor.files o
        /\ requests (AIExtractor.calls o') <= requests (AIExtractor.calls o) + 1)
  /\ (forall svc text mode e file ai o,
        fails svc App.model (App.prompt text) mode e ->
        App.cache o !! [] = None ->
        exists o',
          App.extract_with_gemini svc (App.Self file text ai) o = (JArray [], o')
          /\ App.shown o' = App.shown o ++ form_report mode e
          /\ requests (App.calls o') <= requests (App.calls o) + 1)
  /\ (forall svc mode e writer fs s o output_path,
        AIExtractor.use_ai s = true ->
        fails svc AIExtractor.model
          (AIExtractor.prompt
             (AIExtractor.text_content (AIExtractor.extract_text_from_pdf fs s o).1.2))
          mode e ->
        (AIExtractor.process_document fs svc s o).1.1 = Ok no_table
        /\ (AIExtractor.save_to_excel writer fs svc output_path s o).1.1 = Ok no_table
        /\ AIExtractor.files (AIExtractor.save_to_excel writer fs svc output_path s o).2
           = AIExtractor.files o)
  /\ (forall svc mode e s o file,
        App.uploaded_file s = Some file -> App.cache o !! [] = None ->
        fails svc App.model
          (App.prompt (App.text_content (App.extract_text_from_pdf s o).1.2)) mode e ->
        (App.process_document svc s o).1.1 = Ok no_table)
  /\ Pandas.len no_table = 0
  /\ (forall ss o file,
        App.pdf_uploader ss = Some file -> App.use_ai_checkbox ss = true ->
        App.click_extract None ss o
        = (ss, App.show (App.StError "Cannot run AI extraction without the GEMINI_API_KEY.") o)).
Proof.
  split; [|split; [|split; [|split; [|split]]]]; try reflexivity.
  - intros svc text mode e path ai o H. now apply cli_failure.
  - intros svc text mode e file ai o H Hmiss. now apply form_failure.
  - intros svc mode e writer fs s o output_path Hai H.
    now apply (cli_failure_pipeline _ _ _ _ _ mode e).
  - intros svc mode e s o file Hfile Hmiss H.
    now apply (form_failure_pipeline _ _ _ file mode e).
  - intros ss o file Hf Hai. unfold App.click_extract. now rewrite Hf, Hai.
Qed.

(** A service whose requests for the model of the command line fail with
    an API error, while those for any other model are answered: the
    command-line extractor prints the error and returns the empty list. *)
Lemma model_failure_gives_empty_table_witness :
  let svc := Service (Ok ())
                     (fun model _ =>
                        if String.eqb model "gemini-2.5-pro"
                        then Raise (Exn APIError "503 UNAVAILABLE") else Ok "[]")
                     (fun _ => Ok (JArray [])) (fun _ => Ok no_table) in
  fails svc AIExtractor.model (AIExtractor.prompt "text") RemoteCall
        (Exn APIError "503 UNAVAILABLE")
  /\ (AIExtractor.extract_with_gemini svc (AIExtractor.Self "Data Input.pdf" "text" true)
        (AIExtractor.Out [] ∅ [])).1 = JArray []
  /\ AIExtractor.stdout
       (AIExtractor.extract_with_gemini svc (AIExtractor.Self "Data Input.pdf" "text" true)
          (AIExtractor.Out [] ∅ [])).2
     = ["Error with Gemini API: 503 UNAVAILABLE"].
Proof.
  intros svc.
  assert (fails svc AIExtractor.model (AIExtractor.prompt "text") RemoteCall
            (Exn APIError "503 UNAVAILABLE")) as Hf by (split; reflexivity).
  split; [exact Hf|].
  destruct model_failure_gives_empty_table as (Hcli & _).
  destruct (Hcli svc "text" RemoteCall (Exn APIError "503 UNAVAILABLE")
              "Data Input.pdf" true (AIExtractor.Out [] ∅ []) Hf) as (o' & H1 & H2 & _).
  rewrite H1. split; [reflexivity|]. exact H2.
Defined.

(* ===================================================================== *)
(** ** The cache around the model call *)
(* ===================================================================== *)

(** The only parameter of the cached method is [_self]: no value enters
    the key, which is the same for every extractor object. *)
Lemma cache_key_is_constant (s : App.self) :
  App.cache_key (App.extract_with_gemini_params s) = [].
Proof. reflexivity. Qed.

(** C5 (what the code does instead): once [extract_with_gemini] of
    [app.py] has run for one extractor, a run for any other extractor, with
    whatever document text, returns the records of the first run and makes
    no call: the decorator leaves [_self] out of the key, so the text is no
    part of it. *)
Theorem cache_ignores_the_document (svc : service) (s1 s2 : App.self) (o : App.out) :
  let first := App.extract_with_gemini svc s1 o in
  let second := App.extract_with_gemini svc s2 first.2 in
  second.1 = first.1
  /\ App.calls second.2 = App.calls first.2
  /\ App.cache second.2 = App.cache first.2.
Proof.
  unfold App.extract_with_gemini. rewrite !cache_key_is_constant.
  destruct (App.cache o !! []) as [hit|] eqn:E; cbn [fst snd App.cache].
  - rewrite E. auto.
  - destruct (App.extract_with_gemini_body svc s1) as [[data msgs] made].
    cbn [fst snd App.cache]. rewrite lookup_insert_eq. auto.
Qed.

(** The body of the extractor depends on the object through its text
    only. *)
Lemma body_depends_on_text (svc : service) (s1 s2 : App.self) :
  App.text_content s1 = App.text_content s2 ->
  App.extract_with_gemini_body svc s1 = App.extract_with_gemini_body svc s2.
Proof. unfold App.extract_with_gemini_body. now intros ->. Qed.

(** A cache keyed by the text, as C5 describes it, returns what the
    extractor returns, and stays sound. *)
Lemma keyed_cache_agrees (svc : service) (s : App.self)
    (memo : gmap string json) :
  memo_sound svc memo ->
  (extract_keyed_by_text svc s memo).1 = (App.extract_with_gemini_body svc s).1.1
  /\ memo_sound svc (extract_keyed_by_text svc s memo).2.
Proof.
  intros Hm. unfold extract_keyed_by_text.
  destruct (memo !! App.text_content s) as [data|] eqn:E; cbn [fst snd].
  - split; [exact (Hm s data E)|exact Hm].
  - split; [reflexivity|]. intros s' data.
    destruct (decide (App.text_content s = App.text_content s')) as [Heq|Hne].
    + rewrite <- Heq, lookup_insert_eq. intros [= <-].
      now rewrite (body_depends_on_text svc s s' Heq).
    + rewrite lookup_insert_ne by exact Hne. apply Hm.
Qed.

(** The button [Clear Results] empties the store: the next run calls the
    body again. *)
Lemma clear_results_empties_cache (svc : service) (ss : App.session)
    (s : App.self) (o : App.out) :
  let o' := (App.click_clear ss o).2 in
  App.cache o' = ∅
  /\ (App.extract_with_gemini svc s o').1 = (App.extract_with_gemini_body svc s).1.1.
Proof.
  split; [reflexivity|]. unfold App.extract_with_gemini. cbn [App.click_clear snd App.cache].
  rewrite lookup_empty.
  destruct (App.extract_with_gemini_body svc s) as [[data msgs] made]. reflexivity.
Qed.

(** Two documents in one session of the form: the second run returns the
    table of the first document, where the body of the extractor, and a
    cache keyed by the text, return the records of the second. *)
Lemma second_document_gets_first_answer :
  let doc_a := App.init (Some (Pages [PageText "Document A"])) true in
  let doc_b := App.init (Some (Pages [PageText "Document B"])) true in
  let start := App.Out [] [] ∅ in
  let run_a := App.process_document echo_service doc_a start in
  let run_b := App.process_document echo_service doc_b run_a.2 in
  App.text_content run_a.1.2 <> App.text_content run_b.1.2
  /\ run_b.1.1 = run_a.1.1
  /\ run_b.1.1
     <> App.table_of echo_service (App.extract_with_gemini_body echo_service run_b.1.2).1.1
  /\ (extract_keyed_by_text echo_service run_b.1.2
        (extract_keyed_by_text echo_service run_a.1.2 ∅).2).1
     = (App.extract_with_gemini_body echo_service run_b.1.2).1.1
  /\ requests (App.calls run_b.2) = 1.
Proof.
  vm_compute. repeat split; discriminate.
Qed.

(* ===================================================================== *)
(** ** Date normalisation *)
(* ===================================================================== *)

Lemma first_some_inv {A B} (f : B -> option A) (l : list B) (x : A) :
  PyDate.first_some f l = Some x -> exists b, In b l /\ f b = Some x.
Proof.
  induction l as [|b l IH]; simpl; [discriminate|].
  unfold PyDate.or_else. destruct (f b) eqn:E.
  - intros [= <-]. eauto.
  - intros H. destruct (IH H) as (b' & ? & ?). eauto.
Qed.

Lemma imatch_inv (name data B r : string) :
  PyDate.imatch name data = Some (B, r) ->
  data = B +:+ r /\ PyStr.lower B = name.
Proof.
  revert data B r. induction name as [|a name IH]; intros data B r; simpl.
  - intros [= <- <-]. split; reflexivity.
  - destruct data as [|b data]; [discriminate|].
    destruct (Ascii.eqb a (PyStr.lower_az b)) eqn:E; [|discriminate].
    destruct (PyDate.imatch name data) as [[m r']|] eqn:Em; [|discriminate].
    intros [= <- <-]. destruct (IH _ _ _ Em) as (-> & <-).
    apply Ascii.eqb_eq in E. subst a. split; reflexivity.
Qed.

Lemma ws_plus_inv {A} (k : string -> option A) (s : string) (x : A) :
  PyDate.ws_plus k s = Some x ->
  exists ws r, s = ws +:+ r /\ blank ws /\ k r = Some x.
Proof.
  induction s as [|a s IH]; simpl; [discriminate|].
  destruct (PyStr.is_space a) eqn:Ea; [|discriminate].
  unfold PyDate.or_else. destruct (PyDate.ws_plus k s) eqn:E.
  - intros [= <-]. destruct (IH eq_refl) as (ws & r & -> & (_ & Hws) & Hk).
    exists (String a ws), r. repeat split; try assumption; [discriminate|].
    simpl. now rewrite Ea, Hws.
  - intros Hk. exists (String a ""), s. repeat split; try assumption; [discriminate|].
    simpl. now rewrite Ea.
Qed.

Lemma digit_value (a : ascii) (lo hi : N) :
  PyStr.in_range lo hi a = true ->
  (48 <= lo)%N -> (hi <= 57)%N ->
  PyStr.is_digit a = true
  /\ N.to_nat lo - 48 <= nat_of_ascii a - 48 <= N.to_nat hi - 48
  /\ 48 <= nat_of_ascii a.
Proof.
  unfold PyStr.is_digit, PyStr.in_range, PyStr.code. intros H Hlo Hhi.
  apply andb_prop in H as (H1 & H2).
  apply N.leb_le in H1, H2. unfold nat_of_ascii.
  split; [|lia].
  apply andb_true_intro. split; apply N.leb_le; lia.
Qed.

Lemma digit_not_space (a : ascii) : PyStr.is_digit a = true -> PyStr.is_space a = false.
Proof.
  unfold PyStr.is_digit, PyStr.is_space, PyStr.in_range. intros H.
  apply andb_prop in H as (H1 & H2). apply N.leb_le in H1, H2.
  repeat (apply orb_false_intro);
    first [ apply andb_false_iff; rewrite !N.leb_gt; lia | apply N.eqb_neq; lia ].
Qed.

Lemma strip_two_digits (a b : ascii) :
  PyStr.is_digit a = true -> PyStr.is_digit b = true ->
  PyStr.strip (String a (String b "")) = String a (String b "").
Proof.
  intros Ha Hb. unfold PyStr.strip, PyStr.rev. simpl.
  rewrite (digit_not_space a Ha). simpl.
  now rewrite (digit_not_space b Hb).
Qed.

Lemma strip_one_digit (a : ascii) :
  PyStr.is_digit a = true -> PyStr.strip (String a "") = String a "".
Proof.
  intros Ha. unfold PyStr.strip, PyStr.rev. simpl.
  rewrite (digit_not_space a Ha). simpl.
  now rewrite (digit_not_space a Ha).
Qed.

Lemma strip_space_digit (a : ascii) :
  PyStr.is_digit a = true -> PyStr.strip (String " " (String a "")) = String a "".
Proof.
  intros Ha. unfold PyStr.strip, PyStr.rev. simpl.
  rewrite (digit_not_space a Ha). simpl.
  now rewrite (digit_not_space a Ha).
Qed.

Lemma int_two_digits (a b : ascii) :
  PyStr.is_digit a = true -> PyStr.is_digit b = true ->
  PyStr.int (String a (String b ""))
  = Some (10 * (nat_of_ascii a - 48) + (nat_of_ascii b - 48)).
Proof.
  intros Ha Hb. cbn [PyStr.int PyStr.int_go]. rewrite Ha, Hb. f_equal; lia.
Qed.

Lemma int_one_digit (a : ascii) :
  PyStr.is_digit a = true -> PyStr.int (String a "") = Some (nat_of_ascii a - 48).
Proof.
  intros Ha. cbn [PyStr.int PyStr.int_go]. now rewrite Ha.
Qed.

Lemma two_inv {A} (p q : ascii -> bool) (k : string -> string -> option A)
    (s : string) (x : A) :
  PyDate.two p q k s = Some x ->
  exists a b r, s = String a (String b r) /\ p a = true /\ q b = true
                /\ k (String a (String b "")) r = Some x.
Proof.
  unfold PyDate.two. destruct s as [|a [|b r]]; try discriminate.
  destruct (p a) eqn:Ea, (q b) eqn:Eb; try discriminate.
  intros H. exists a, b, r. auto.
Qed.

Lemma one_inv {A} (p : ascii -> bool) (k : string -> string -> option A)
    (s : string) (x : A) :
  PyDate.one p k s = Some x ->
  exists a r, s = String a r /\ p a = true /\ k (String a "") r = Some x.
Proof.
  unfold PyDate.one. destruct s as [|a r]; try discriminate.
  destruct (p a) eqn:Ea; try discriminate.
  intros H. exists a, r. auto.
Qed.

Lemma or_else_inv {A} (x y : option A) (v : A) :
  PyDate.or_else x y = Some v -> x = Some v \/ y = Some v.
Proof. unfold PyDate.or_else. destruct x; auto. Qed.

Lemma day_group_inv {A} (k : string -> string -> option A) (s : string) (x : A) :
  PyDate.day_group k s = Some x ->
  exists d r, s = d +:+ r /\ day_text d /\ k d r = Some x.
Proof.
  unfold PyDate.day_group. intros H.
  apply or_else_inv in H as [H|H]; [|apply or_else_inv in H as [H|H];
    [|apply or_else_inv in H as [H|H]; [|apply or_else_inv in H as [H|H]]]].
  - apply two_inv in H as (a & b & r & -> & Ha & Hb & Hk).
    apply Ascii.eqb_eq in Ha. subst a.
    destruct (digit_value b 48 49 Hb) as (Db & Vb & _); [lia..|].
    exists (String "3" (String b "")), r. split; [reflexivity|]. split; [|exact Hk].
    exists (10 * 3 + (nat_of_ascii b - 48)). split; [|simpl in Vb; lia].
    rewrite strip_two_digits, int_two_digits; auto.
  - apply two_inv in H as (a & b & r & -> & Ha & Hb & Hk).
    destruct (digit_value a 49 50 Ha) as (Da & Va & _); [lia..|].
    destruct (digit_value b 48 57 Hb) as (Db & Vb & _); [lia..|].
    exists (String a (String b "")), r. split; [reflexivity|]. split; [|exact Hk].
    exists (10 * (nat_of_ascii a - 48) + (nat_of_ascii b - 48)).
    split; [|simpl in Va, Vb; lia].
    rewrite strip_two_digits, int_two_digits; auto.
  - apply two_inv in H as (a & b & r & -> & Ha & Hb & Hk).
    apply Ascii.eqb_eq in Ha. subst a.
    destruct (digit_value b 49 57 Hb) as (Db & Vb & _); [lia..|].
    exists (String "0" (String b "")), r. split; [reflexivity|]. split; [|exact Hk].
    exists (10 * 0 + (nat_of_ascii b - 48)). split; [|simpl in Vb; lia].
    rewrite strip_two_digits, int_two_digits; auto.
  - apply one_inv in H as (a & r & -> & Ha & Hk).
    destruct (digit_value a 49 57 Ha) as (Da & Va & _); [lia..|].
    exists (String a ""), r. split; [reflexivity|]. split; [|exact Hk].
    exists (nat_of_ascii a - 48). split; [|simpl in Va; lia].
    rewrite strip_one_digit, int_one_digit; auto.
  - apply two_inv in H as (a & b & r & -> & Ha & Hb & Hk).
    apply Ascii.eqb_eq in Ha. subst a.
    destruct (digit_value b 49 57 Hb) as (Db & Vb & _); [lia..|].
    exists (String " " (String b "")), r. split; [reflexivity|]. split; [|exact Hk].
    exists (nat_of_ascii b - 48). split; [|simpl in Vb; lia].
    rewrite strip_space_digit, int_one_digit; auto.
Qed.

Lemma comma_inv {A} (k : string -> option A) (s : string) (x : A) :
  PyDate.comma k s = Some x -> exists r, s = String "," r /\ k r = Some x.
Proof.
  unfold PyDate.comma. destruct s as [|a r]; [discriminate|].
  destruct (Ascii.eqb a ",") eqn:E.
  - apply Ascii.eqb_eq in E. subst a. eauto.
  - intros H. exfalso. revert H E.
    destruct a as [[] [] [] [] [] [] [] []]; try discriminate.
Qed.

Lemma year_group_inv (s Y r : string) :
  PyDate.year_group s = Some (Y, r) -> s = Y +:+ r /\ String.length Y = 4.
Proof.
  unfold PyDate.year_group.
  destruct s as [|a [|b [|c [|d s]]]]; try discriminate.
  destruct (_ && _); [|discriminate]. intros [= <- <-]. split; reflexivity.
Qed.

Lemma format_match_inv (data B d Y rest : string) :
  PyDate.format_match data = Some (B, d, Y, rest) ->
  exists ws1 ws2,
    data = B +:+ ws1 +:+ d +:+ "," +:+ ws2 +:+ Y +:+ rest
    /\ In (PyStr.lower B) PyDate.month_alternatives
    /\ blank ws1 /\ blank ws2 /\ day_text d /\ String.length Y = 4.
Proof.
  unfold PyDate.format_match. intros H.
  apply first_some_inv in H as (name & Hin & H).
  destruct (PyDate.imatch name data) as [[B' r]|] eqn:Em; [|discriminate].
  apply imatch_inv in Em as (-> & <-).
  apply ws_plus_inv in H as (ws1 & r1 & -> & Hws1 & H).
  apply day_group_inv in H as (d' & r2 & -> & Hd & H).
  apply comma_inv in H as (r3 & -> & H).
  apply ws_plus_inv in H as (ws2 & r4 & -> & Hws2 & H).
  destruct (PyDate.year_group r4) as [[Y' rest']|] eqn:Ey; [|discriminate].
  injection H as <- <- <- <-.
  apply year_group_inv in Ey as (-> & Hy).
  exists ws1, ws2. repeat split; try assumption; try apply Hws1; try apply Hws2.
Qed.

Lemma index_of_inv (x : string) (l : list string) (i m : nat) :
  PyDate.index_of x l i = Some m ->
  i <= m < i + length l /\ nth_error l (m - i) = Some x.
Proof.
  revert i. induction l as [|y l IH]; intros i; simpl; [discriminate|].
  destruct (String.eqb x y) eqn:E.
  - intros [= <-]. apply String.eqb_eq in E. subst y.
    rewrite Nat.sub_diag. split; [lia|reflexivity].
  - intros H. apply IH in H as (Hb & Hn). split; [lia|].
    replace (m - i) with (S (m - S i)) by lia. exact Hn.
Qed.

(** A date that [strptime] accepts is spelt by the data and exists. *)
Lemma strptime_inv (data : string) (dt : PyDate.datetime) :
  PyDate.strptime data = Ok dt -> spells dt data /\ valid_date dt.
Proof.
  unfold PyDate.strptime.
  destruct (PyDate.format_match data) as [[[[B d] Y] rest]|] eqn:Ef; [|discriminate].
  destruct rest; [|discriminate].
  destruct (PyDate.index_of _ _ _) as [m|] eqn:Em; [|discriminate].
  destruct (PyStr.int (PyStr.strip d)) as [dd|] eqn:Ed; [|discriminate].
  destruct (PyStr.int Y) as [y|] eqn:Ey; [|discriminate].
  destruct (Nat.eqb y 0) eqn:Ey0; [discriminate|].
  destruct (Nat.leb 1 dd && Nat.leb dd (PyDate.days_in_month y m)) eqn:Eb; [|discriminate].
  intros [= <-].
  apply format_match_inv in Ef as (ws1 & ws2 & -> & _ & Hws1 & Hws2 & _ & Hy).
  apply index_of_inv in Em as (Hm & Hnth). simpl in Hm.
  apply andb_prop in Eb as (E1 & E2).
  apply Nat.leb_le in E1, E2. apply Nat.eqb_neq in Ey0.
  split.
  - exists B, ws1, d, ws2, Y. cbn [PyDate.year PyDate.month PyDate.day].
    rewrite append_empty_r. repeat split; try assumption;
      try apply Hws1; try apply Hws2.
  - unfold valid_date. cbn [PyDate.year PyDate.month PyDate.day]. lia.
Qed.

Lemma digit_char_is_digit (k : nat) : k < 10 -> PyStr.is_digit (PyStr.digit_char k) = true.
Proof.
  intros H. do 10 (destruct k as [|k]; [reflexivity|]). lia.
Qed.

(** What [strftime] writes for a month between 1 and 12 has the shape
    DD-Mon-YY. *)
Lemma strftime_shape (dt : PyDate.datetime) :
  1 <= PyDate.month dt <= 12 -> dd_mon_yy (PyDate.strftime dt) = true.
Proof.
  intros Hm. unfold PyDate.strftime, PyStr.two_digits.
  assert (forall n, PyStr.is_digit (PyStr.digit_char (n mod 10)) = true) as Hd.
  { intros n. apply digit_char_is_digit. apply Nat.mod_upper_bound. lia. }
  generalize (Hd (PyDate.day dt / 10)) (Hd (PyDate.day dt))
             (Hd (PyDate.year dt mod 100 / 10)) (Hd (PyDate.year dt mod 100)).
  generalize (PyStr.digit_char ((PyDate.day dt / 10) mod 10))
             (PyStr.digit_char (PyDate.day dt mod 10))
             (PyStr.digit_char ((PyDate.year dt mod 100 / 10) mod 10))
             (PyStr.digit_char ((PyDate.year dt mod 100) mod 10)).
  intros d1 d2 y1 y2 H1 H2 H3 H4.
  destruct (PyDate.month dt) as [|m]; [lia|].
  do 12 (destruct m as [|m];
    [cbn [Nat.sub nth PyDate.a_month];
     repeat (rewrite append_cons || rewrite append_nil_l);
     cbn [dd_mon_yy]; rewrite H1, H2, H3, H4; reflexivity|]).
  lia.
Qed.

Lemma strptime_raises_value_error (data : string) (e : exn) :
  PyDate.strptime data = Raise e -> exn_cls e = ValueError.
Proof.
  unfold PyDate.strptime.
  repeat match goal with
         | |- context [match ?x with _ => _ end] => destruct x
         end; intros [= <-]; reflexivity.
Qed.

Lemma run_rules_raise (rules : list (string -> result (list entry)))
    (rule : string -> result (list entry)) (text : string) (e : exn) :
  In rule rules -> rule text = Raise e ->
  is_ok (DocumentExtractor.run_rules rules text) = false.
Proof.
  induction rules as [|r rules IH]; intros Hin Hr; [destruct Hin|].
  simpl. destruct Hin as [->|Hin].
  - now rewrite Hr.
  - destruct (r text); [|reflexivity]. cbn.
    specialize (IH Hin Hr). destruct (DocumentExtractor.run_rules rules text);
      [discriminate|reflexivity].
Qed.

Lemma extract_all_raise (rule : string -> result (list entry)) (text : string) (e : exn) :
  In rule (DocumentExtractor.personal_rules ++ DocumentExtractor.professional_rules) ->
  rule text = Raise e ->
  is_ok (DocumentExtractor.extract_all text) = false.
Proof.
  intros Hin Hr. unfold DocumentExtractor.extract_all.
  apply in_app_or in Hin as [Hin|Hin].
  - apply bind_not_ok. exact (run_rules_raise _ _ _ _ Hin Hr).
  - destruct (DocumentExtractor.extract_personal_info text); [|reflexivity].
    rewrite bind_ok_l. apply bind_not_ok. exact (run_rules_raise _ _ _ _ Hin Hr).
Qed.

Lemma process_document_raise (fs : string -> pdf) (s : DocumentExtractor.self)
    (o : DocumentExtractor.out) :
  is_ok (DocumentExtractor.extract_all (text_read fs s o)) = false ->
  is_ok (DocumentExtractor.process_document fs s o).1.1 = false.
Proof.
  unfold text_read, DocumentExtractor.process_document.
  destruct (DocumentExtractor.extract_text_from_pdf fs s o) as [[t s1] o1].
  cbn [fst snd]. apply bind_not_ok.
Qed.

Lemma ws_plus_one_space {A} (k : string -> option A) (a : ascii) (s : string) :
  PyStr.is_space a = false ->
  PyDate.ws_plus k (String " " (String a s)) = k (String a s).
Proof.
  intros Ha. cbn [PyDate.ws_plus].
  change (PyStr.is_space " ") with true. cbv iota. rewrite Ha. reflexivity.
Qed.

Ltac concrete_day :=
  match goal with
  | |- context [day_number ?n] =>
      let t := eval vm_compute in (day_number n) in
      change (day_number n) with t in *
  end;
  repeat (rewrite append_cons || rewrite append_nil_l).

Lemma day_group_accepts {A} (k : string -> string -> option A) (d : nat)
    (rest : string) (x : A) :
  1 <= d <= 31 ->
  k (day_number d) (String "," rest) = Some x ->
  PyDate.day_group k (day_number d +:+ String "," rest) = Some x.
Proof.
  intros Hd Hk.
  destruct d as [|d]; [lia|].
  do 31 (destruct d as [|d];
    [concrete_day; unfold PyDate.day_group, PyDate.two, PyDate.one;
     cbn; rewrite ?Hk; reflexivity|]).
  lia.
Qed.

Lemma day_number_starts (d : nat) :
  1 <= d <= 31 ->
  exists a s, day_number d = String a s /\ PyStr.is_space a = false
              /\ PyStr.int (PyStr.strip (day_number d)) = Some d.
Proof.
  intros Hd. destruct d as [|d]; [lia|].
  do 31 (destruct d as [|d]; [concrete_day; eexists _, _; repeat split|]).
  lia.
Qed.

Lemma month_accepts {A} (k : string -> string -> string -> option A)
    (m d : nat) (rest : string) (x : A) :
  1 <= m <= 12 -> 1 <= d <= 31 ->
  k (nth (m - 1) month_names "") (day_number d) (String "," rest) = Some x ->
  month_then k (nth (m - 1) month_names "" +:+ " " +:+ day_number d +:+ String "," rest)
  = Some x.
Proof.
  intros Hm Hd Hk.
  destruct (day_number_starts d Hd) as (a & s & Hs & Ha & _).
  pose proof (day_group_accepts (k (nth (m - 1) month_names "")) d rest x Hd Hk) as Hday.
  rewrite Hs in Hday |- *. clear Hs Hk.
  rewrite append_cons in Hday.
  repeat (rewrite append_cons || rewrite append_nil_l).
  revert Hday. generalize (s +:+ String "," rest). intros t Hday.
  destruct m as [|m]; [lia|].
  do 12 (destruct m as [|m];
    [cbn [Nat.sub nth month_names] in *;
     repeat (rewrite append_cons || rewrite append_nil_l);
     unfold month_then; cbn [PyDate.first_some PyDate.month_alternatives];
     repeat match goal with
            | |- context [PyDate.imatch ?n ?data] =>
                let v := eval vm_compute in (PyDate.imatch n data) in
                change (PyDate.imatch n data) with v
            end;
     cbv beta iota;
     rewrite (ws_plus_one_space _ a _ Ha), Hday; reflexivity|]).
  lia.
Qed.

Lemma digit_of_char (a : ascii) :
  PyStr.is_digit a = true -> PyStr.digit_char (digit_of a) = a /\ digit_of a <= 9.
Proof.
  intros H. destruct (digit_value a 48 57 H) as (_ & Hv & Hge); [lia..|].
  unfold PyStr.digit_char, digit_of. split; [|simpl in Hv; lia].
  replace (48 + (nat_of_ascii a - 48)) with (nat_of_ascii a) by lia.
  apply ascii_nat_embedding.
Qed.

Lemma year_text_value (a b c e : ascii) :
  PyStr.is_digit a = true -> PyStr.is_digit b = true ->
  PyStr.is_digit c = true -> PyStr.is_digit e = true ->
  PyDate.year_group (year_text a b c e) = Some (year_text a b c e, "")
  /\ PyStr.int (year_text a b c e) = Some (year_value a b c e).
Proof.
  intros Ha Hb Hc He. unfold PyDate.year_group, year_text.
  rewrite Ha, Hb, Hc, He. split; [reflexivity|].
  cbn [PyStr.int PyStr.int_go]. rewrite Ha, Hb, Hc, He.
  unfold year_value, digit_of. f_equal. lia.
Qed.

Lemma format_match_accepts (m d : nat) (a b c e : ascii) :
  1 <= m <= 12 -> 1 <= d <= 31 ->
  PyStr.is_digit a = true -> PyStr.is_digit b = true ->
  PyStr.is_digit c = true -> PyStr.is_digit e = true ->
  PyDate.format_match (written_date m d (year_text a b c e))
  = Some (nth (m - 1) month_names "", day_number d, year_text a b c e, "").
Proof.
  intros Hm Hd Ha Hb Hc He. unfold written_date.
  change (", " +:+ year_text a b c e) with (String "," (String " " (year_text a b c e))).
  apply (month_accepts (fun B d r1 =>
           PyDate.comma (PyDate.ws_plus (fun r2 =>
             match PyDate.year_group r2 with
             | Some (Y, rest) => Some (B, d, Y, rest)
             | None => None
             end)) r1)); [assumption..|].
  cbn [PyDate.comma]. unfold year_text at 1.
  rewrite ws_plus_one_space by (now apply digit_not_space).
  fold (year_text a b c e).
  now destruct (year_text_value a b c e Ha Hb Hc He) as (-> & _).
Qed.

Lemma last_two_digits (p q r s : nat) :
  r <= 9 -> s <= 9 ->
  ((1000 * p + 100 * q + 10 * r + s) mod 100 / 10) mod 10 = r
  /\ ((1000 * p + 100 * q + 10 * r + s) mod 100) mod 10 = s.
Proof.
  intros Hr Hs.
  assert ((1000 * p + 100 * q + 10 * r + s) mod 100 = 10 * r + s) as ->.
  { symmetry. apply (Nat.mod_unique _ 100 (10 * p + q)); lia. }
  assert ((10 * r + s) / 10 = r) as ->.
  { symmetry. apply (Nat.div_unique _ 10 r s); lia. }
  split.
  - apply Nat.mod_small. lia.
  - symmetry. apply (Nat.mod_unique _ 10 r); lia.
Qed.

Lemma month_index (m : nat) :
  1 <= m <= 12 ->
  PyDate.index_of (PyStr.lower (nth (m - 1) month_names "")) PyDate.f_month 1 = Some m.
Proof.
  intros Hm. destruct m as [|m]; [lia|].
  do 12 (destruct m as [|m]; [vm_compute; reflexivity|]). lia.
Qed.

Lemma strptime_accepts (m d : nat) (a b c e : ascii) :
  1 <= m <= 12 ->
  PyStr.is_digit a = true -> PyStr.is_digit b = true ->
  PyStr.is_digit c = true -> PyStr.is_digit e = true ->
  1 <= year_value a b c e ->
  1 <= d <= PyDate.days_in_month (year_value a b c e) m ->
  PyDate.strptime (written_date m d (year_text a b c e))
  = Ok (PyDate.DateTime (year_value a b c e) m d).
Proof.
  intros Hm Ha Hb Hc He Hy Hd.
  assert (1 <= d <= 31) as Hd31.
  { split; [lia|]. etransitivity; [apply Hd|].
    unfold PyDate.days_in_month.
    repeat match goal with |- context [match ?x with _ => _ end] => destruct x end; lia. }
  unfold PyDate.strptime.
  rewrite (format_match_accepts m d a b c e) by assumption.
  rewrite month_index by assumption.
  destruct (day_number_starts d Hd31) as (_ & _ & _ & _ & ->).
  destruct (year_text_value a b c e Ha Hb Hc He) as (_ & ->).
  destruct (Nat.eqb_spec (year_value a b c e) 0) as [E|_]; [lia|].
  destruct Hd as (Hd1 & Hd2).
  apply Nat.leb_le in Hd1, Hd2. now rewrite Hd1, Hd2.
Qed.

(** A date written in the grammar is accepted and reformatted. *)
Lemma written_date_is_reformatted (m d : nat) (a b c e : ascii) :
  1 <= m <= 12 ->
  PyStr.is_digit a = true -> PyStr.is_digit b = true ->
  PyStr.is_digit c = true -> PyStr.is_digit e = true ->
  1 <= year_value a b c e ->
  1 <= d <= PyDate.days_in_month (year_value a b c e) m ->
  DocumentExtractor.reformat_date (written_date m d (year_text a b c e))
  = Ok (PyStr.two_digits d +:+ "-" +:+ nth (m - 1) PyDate.a_month "" +:+ "-"
        +:+ String c (String e "")).
Proof.
  intros Hm Ha Hb Hc He Hy Hd. unfold DocumentExtractor.reformat_date.
  rewrite strptime_accepts by assumption. rewrite bind_ok_l.
  unfold PyDate.strftime. cbn [PyDate.day PyDate.month PyDate.year].
  do 4 f_equal. unfold PyStr.two_digits, year_value.
  destruct (digit_of_char c Hc) as (Ec & Lc).
  destruct (digit_of_char e He) as (Ee & Le).
  destruct (last_two_digits (digit_of a) (digit_of b) (digit_of c) (digit_of e) Lc Le)
    as (-> & ->).
  now rewrite Ec, Ee.
Qed.

(** The abbreviation of a month is the first three letters of its name. *)
Lemma month_abbreviation (m : nat) :
  nth (m - 1) PyDate.a_month "" = substring 0 3 (nth (m - 1) month_names "").
Proof.
  change PyDate.a_month with (map (substring 0 3) month_names).
  change "" with (substring 0 3 "") at 1. apply map_nth.
Qed.

Lemma date_rule_cases (text pattern key : string)
    (rule : string -> result (list entry))
    (tail : Re.rmatch -> list entry) :
  In rule (DocumentExtractor.personal_rules ++ DocumentExtractor.professional_rules) ->
  rule text
  = DocumentExtractor.on_match pattern text (fun m =>
      d ← DocumentExtractor.reformat_date (Re.group 1 text m);
      Ok (Entry key d "" :: tail m)) ->
  date_rule_behaviour text (pattern, key, rule).
Proof.
  intros Hin Hrule. unfold date_rule_behaviour.
  unfold DocumentExtractor.on_match in Hrule.
  destruct (Re.search pattern text) as [m|]; [|exact Hrule].
  cbv zeta. unfold DocumentExtractor.reformat_date in Hrule.
  destruct (PyDate.strptime (Re.group 1 text m)) as [dt|e] eqn:Ed.
  - destruct (strptime_inv _ _ Ed) as (Hs & Hv).
    split; [exact Hs|]. split; [exact Hv|].
    split; [apply strftime_shape, Hv|].
    exists (tail m). exact Hrule.
  - assert (rule text = Raise e) as Hr by exact Hrule.
    split; [exact (strptime_raises_value_error _ _ Ed)|].
    split; [exact Hr|].
    pose proof (extract_all_raise rule text e Hin Hr) as Hall.
    split; [exact Hall|].
    intros fs s o <-. now apply process_document_raise.
Qed.

(** The example of the specification. *)
Lemma march_15_1989 :
  DocumentExtractor.reformat_date "March 15, 1989" = Ok "15-Mar-89".
Proof. reflexivity. Qed.

(** C2, as stated, fails: a matched date that is not in the grammar (here a
    month abbreviation) does not make the rule contribute nothing; the
    [ValueError] of [strptime] leaves the rule, [extract_personal_info] and
    [process_document], so the run ends without a table. *)
Lemma abbreviated_month_raises :
  let text := "Vijay Kumar was born on Sept 15, 1989, in Jaipur, Rajasthan" in
  let fs := fun _ : string => Pages [PageText text] in
  option_map (Re.group 1 text) (Re.search "born on (\w+ \d+, \d{4})" text)
    = Some "Sept 15, 1989"
  /\ DocumentExtractor.dob_rule text
     = Raise (Exn ValueError "time data does not match format")
  /\ DocumentExtractor.extract_personal_info text
     = Raise (Exn ValueError "time data does not match format")
  /\ (DocumentExtractor.process_document fs (DocumentExtractor.init "Data Input.pdf")
        (DocumentExtractor.Out [] ∅)).1.1
     = Raise (Exn ValueError "time data does not match format")
  /\ DocumentExtractor.dob_rule text <> Ok [].
Proof. vm_compute. repeat split; discriminate. Qed.

(** What each date-bearing rule does, by what [strptime] says of the date
    it read; and a date written with the month name capitalised and the
    day without padding is accepted and reformatted. *)
Lemma date_rules_reformat_or_raise (text : string) :
  Forall (date_rule_behaviour text) date_rules
  /\ (forall m d a b c e,
        conforming m d a b c e ->
        DocumentExtractor.reformat_date (written_date m d (year_text a b c e))
        = Ok (as_dd_mon_yy m d c e)).
Proof.
  split; [|intros m d a b c e (Hm & Ha & Hb & Hc & He & Hy & Hd);
           unfold as_dd_mon_yy; rewrite <- month_abbreviation;
           now apply written_date_is_reformatted].
  unfold date_rules.
  apply List.Forall_cons; [|apply List.Forall_cons; [|apply List.Forall_cons;
    [|apply List.Forall_cons; [|apply List.Forall_nil]]]].
  - apply (date_rule_cases text _ _ _ (fun _ => [])); [|reflexivity].
    apply in_or_app. left. unfold DocumentExtractor.personal_rules. simpl. tauto.
  - apply (date_rule_cases text _ _ _ (fun m =>
      [Entry "Designation of first professional role"
             (PyStr.strip (Re.group 2 text m)) "";
       Entry "Salary of first professional role"
             (PyStr.replace "," "" (Re.group 3 text m)) "";
       Entry "Salary currency of first professional role" "INR" ""]));
      [|reflexivity].
    apply in_or_app. right. unfold DocumentExtractor.professional_rules. simpl. tauto.
  - apply (date_rule_cases text _ _ _ (fun _ => [])); [|reflexivity].
    apply in_or_app. right. unfold DocumentExtractor.professional_rules. simpl. tauto.
  - apply (date_rule_cases text _ _ _ (fun _ => [])); [|reflexivity].
    apply in_or_app. right. unfold DocumentExtractor.professional_rules. simpl. tauto.
Qed.

(* ===================================================================== *)
(** ** The empty document *)
(* ===================================================================== *)

(** Every rule with a pattern is silent on the empty text; what is left
    are the fixed records. *)
Lemma rules_on_empty_text :
  DocumentExtractor.extract_personal_info "" = Ok []
  /\ DocumentExtractor.extract_professional_info "" = Ok []
  /\ DocumentExtractor.extract_education_info "" = Ok []
  /\ DocumentExtractor.run_rules
       [DocumentExtractor.pmp_rule; DocumentExtractor.safe_rule] "" = Ok []
  /\ DocumentExtractor.extract_all "" = Ok fixed_entries.
Proof. vm_compute. repeat split. Qed.





(* ===================================================================== *)
(** ** The example sentence *)
(* ===================================================================== *)

Lemma not_emitted (records : list entry) (k v : string) :
  forallb (fun e => negb (String.eqb (key e) k && String.eqb (value e) v)) records = true ->
  ~ emits (Ok records) k v.
Proof.
  intros H (records' & c & [= <-] & Hin).
  rewrite forallb_forall in H. specialize (H _ Hin). cbn in H.
  now rewrite !String.eqb_refl in H.
Qed.

(** C1, as stated, fails: this text contains the sentence, and none of the
    five records is emitted. [re.search] returns the leftmost match, which
    is in the earlier sentence, and the birth-place pattern matches
    neither sentence. *)
Lemma earlier_sentence_wins :
  contains vijay_sentence two_births = true
  /\ DocumentExtractor.extract_personal_info two_births
     = Ok [Entry "First Name" "Asha" ""; Entry "Last Name" "Rao" "";
           Entry "Date of Birth" "02-Jan-90" ""]
  /\ ~ emits (DocumentExtractor.extract_personal_info two_births) "First Name" "Vijay"
  /\ ~ emits (DocumentExtractor.extract_personal_info two_births) "Last Name" "Kumar"
  /\ ~ emits (DocumentExtractor.extract_personal_info two_births) "Date of Birth" "15-Mar-89"
  /\ ~ emits (DocumentExtractor.extract_personal_info two_births) "Birth City" "Jaipur"
  /\ ~ emits (DocumentExtractor.extract_personal_info two_births) "Birth State" "Rajasthan".
Proof.
  assert (DocumentExtractor.extract_personal_info two_births
          = Ok [Entry "First Name" "Asha" ""; Entry "Last Name" "Rao" "";
                Entry "Date of Birth" "02-Jan-90" ""]) as E by (vm_compute; reflexivity).
  rewrite E.
  split; [vm_compute; reflexivity|]. split; [reflexivity|].
  repeat split; apply not_emitted; reflexivity.
Qed.

(** On the sentence alone the birth-place rule finds nothing: its pattern
    [born on [^,]+, in ...] cannot pass the comma inside the date, which
    the date-of-birth pattern of the same function requires. *)
Lemma birth_place_rule_misses_the_sentence :
  Re.search "born on [^,]+, in (\w+), (\w+)" vijay_sentence = None
  /\ DocumentExtractor.birth_rule vijay_sentence = Ok []
  /\ DocumentExtractor.extract_personal_info vijay_sentence
     = Ok [Entry "First Name" "Vijay" ""; Entry "Last Name" "Kumar" "";
           Entry "Date of Birth" "15-Mar-89" ""].
Proof. vm_compute. repeat split. Qed.

(** The rules without a date or an index never raise. *)
Lemma later_personal_rules_total (text : string) :
  (exists found, DocumentExtractor.birth_rule text = Ok found)
  /\ (exists found, DocumentExtractor.age_rule text = Ok found)
  /\ (exists found, DocumentExtractor.blood_rule text = Ok found)
  /\ (exists found, DocumentExtractor.nationality_rule text = Ok found).
Proof.
  unfold DocumentExtractor.birth_rule, DocumentExtractor.age_rule,
    DocumentExtractor.blood_rule, DocumentExtractor.nationality_rule,
    DocumentExtractor.on_match.
  repeat split;
    match goal with
    | |- context [match Re.search ?p text with _ => _ end] =>
        destruct (Re.search p text); eauto
    end.
Qed.

Lemma plus_inv (c : Re.cset) (k : Re.cont) (s : string) (pos : nat)
    (st : Re.mstate) (r : nat * Re.mstate) :
  Re.plus c k s pos st = Some r ->
  exists u s', s = u +:+ s' /\ u <> ""
               /\ all_chars (Re.mem c) u = true
               /\ k s' (String.length u + pos) st = Some r.
Proof.
  revert pos. induction s as [|a s IH]; intros pos; simpl; [discriminate|].
  destruct (Re.mem c a) eqn:Ea; [|discriminate].
  destruct (Re.plus c k s (S pos) st) as [r'|] eqn:E.
  - intros [= <-]. destruct (IH _ E) as (u & s' & -> & _ & Hu & Hk).
    exists (String a u), s'. simpl. rewrite Ea, Hu.
    repeat split; try reflexivity; [discriminate|]. now rewrite <- Nat.add_succ_r.
  - intros Hk. exists (String a ""), s. simpl. rewrite Ea.
    repeat split; try reflexivity; [discriminate|exact Hk].
Qed.

Lemma space_not_word (a : ascii) : PyStr.is_space a = true -> PyStr.is_word a = false.
Proof.
  destruct a as [[] [] [] [] [] [] [] []]; vm_compute; congruence.
Qed.

Lemma word_not_space (a : ascii) : PyStr.is_word a = true -> PyStr.is_space a = false.
Proof.
  destruct a as [[] [] [] [] [] [] [] []]; vm_compute; congruence.
Qed.

(** A run of characters of a class, followed by a text that does not go
    on with the class, is what [drop_while] removes. *)
Lemma drop_while_run (p : ascii -> bool) (u rest : string) :
  all_chars p u = true ->
  match rest with String a _ => p a = false | EmptyString => True end ->
  PyStr.drop_while p (u +:+ rest) = rest.
Proof.
  intros Hu Hr. induction u as [|a u IH].
  - rewrite append_nil_l. destruct rest as [|a rest]; cbn [PyStr.drop_while];
      [reflexivity|]. now rewrite Hr.
  - cbn [all_chars] in Hu. apply andb_prop in Hu as (Ha & Hu).
    rewrite append_cons. cbn [PyStr.drop_while]. rewrite Ha. auto.
Qed.

Ltac next_char q E :=
  let c := fresh "c" in
  let Ec := fresh "Ec" in
  destruct q as [|c q];
  [rewrite ?append_nil_l in E; vm_compute in E; discriminate E
  |rewrite append_cons in E; cbn [PyStr.starts_with] in E;
   apply andb_prop in E as (Ec & E); apply Ascii.eqb_eq in Ec; subst c].

(** A text that starts before the sentence, in a prefix that does not
    mention [born], does not start with [was born], nor with [born]. *)
Lemma no_birth_before (q suffix : string) :
  contains "born" q = false ->
  q <> "" ->
  PyStr.starts_with "was born" (q +:+ vijay_sentence +:+ suffix) = false
  /\ PyStr.starts_with "born" (q +:+ vijay_sentence +:+ suffix) = false.
Proof.
  intros Hq Hne. unfold vijay_sentence. split.
  - destruct (PyStr.starts_with "was born" _) eqn:E; [exfalso|reflexivity].
    destruct q as [|c q]; [congruence|].
    rewrite append_cons in E; cbn [PyStr.starts_with] in E.
    apply andb_prop in E as (Ec & E); apply Ascii.eqb_eq in Ec; subst c.
    do 7 (next_char q E).
    vm_compute in Hq. discriminate Hq.
  - destruct (PyStr.starts_with "born" _) eqn:E; [exfalso|reflexivity].
    destruct q as [|c q]; [congruence|].
    rewrite append_cons in E; cbn [PyStr.starts_with] in E.
    apply andb_prop in E as (Ec & E); apply Ascii.eqb_eq in Ec; subst c.
    do 3 (next_char q E).
    vm_compute in Hq. discriminate Hq.
Qed.

Lemma contains_tail (sub : string) (c : ascii) (q : string) :
  contains sub (String c q) = false -> contains sub q = false.
Proof.
  cbn [contains]. intros H. apply orb_false_elim in H as (_ & H). exact H.
Qed.

Lemma ends_clean_tail (c : ascii) (q : string) :
  ends_clean (String c q) = true -> ends_clean q = true.
Proof. destruct q; [reflexivity|]. cbn [ends_clean]. auto. Qed.

Lemma ends_clean_word (c : ascii) (q : string) :
  ends_clean (String c q) = true -> PyStr.is_word c = true -> q <> "".
Proof.
  intros H Hw ->. cbn [ends_clean] in H. rewrite Hw in H. discriminate.
Qed.

Section Before.
Variable suffix : string.
Let tail := vijay_sentence +:+ suffix.

Lemma starts_at_sentence :
  PyStr.starts_with "was born" tail = false
  /\ PyStr.starts_with "was born" (skip_space tail) = false
  /\ PyStr.starts_with "was born" (skip_space (skip_word tail)) = false
  /\ PyStr.starts_with "was born" (skip_space (skip_word (skip_space tail))) = false.
Proof. vm_compute. repeat split. Qed.

Lemma phase0 (q : string) :
  contains "born" q = false ->
  PyStr.starts_with "was born" (q +:+ tail) = false.
Proof.
  intros Hq. destruct q as [|c q].
  - rewrite append_nil_l. apply starts_at_sentence.
  - apply (no_birth_before (String c q) suffix Hq). discriminate.
Qed.

Lemma phase1 (q : string) :
  contains "born" q = false ->
  PyStr.starts_with "was born" (skip_space (q +:+ tail)) = false.
Proof.
  intros Hq. induction q as [|c q IH].
  - rewrite append_nil_l. apply starts_at_sentence.
  - rewrite append_cons. unfold skip_space. cbn [PyStr.drop_while].
    destruct (PyStr.is_space c).
    + apply IH. exact (contains_tail _ _ _ Hq).
    + rewrite <- append_cons. now apply phase0.
Qed.

Lemma phase2 (q : string) :
  contains "born" q = false -> ends_clean q = true ->
  PyStr.starts_with "was born" (skip_space (skip_word (q +:+ tail))) = false.
Proof.
  intros Hq Hc. induction q as [|c q IH].
  - rewrite append_nil_l. apply starts_at_sentence.
  - rewrite append_cons. unfold skip_word at 1. cbn [PyStr.drop_while].
    destruct (PyStr.is_word c) eqn:Ew.
    + apply IH; [exact (contains_tail _ _ _ Hq)|exact (ends_clean_tail _ _ Hc)].
    + rewrite <- append_cons. now apply phase1.
Qed.

Lemma phase3 (q : string) :
  contains "born" q = false -> ends_clean q = true ->
  PyStr.starts_with "was born" (skip_space (skip_word (skip_space (q +:+ tail)))) = false.
Proof.
  intros Hq Hc. induction q as [|c q IH].
  - rewrite append_nil_l. apply starts_at_sentence.
  - rewrite append_cons. unfold skip_space at 2. cbn [PyStr.drop_while].
    destruct (PyStr.is_space c) eqn:Ew.
    + apply IH; [exact (contains_tail _ _ _ Hq)|exact (ends_clean_tail _ _ Hc)].
    + rewrite <- append_cons. now apply phase2.
Qed.

Lemma phase4 (q : string) :
  q <> "" -> contains "born" q = false -> ends_clean q = true ->
  PyStr.starts_with "was born" (after_two_words (q +:+ tail)) = false.
Proof.
  unfold after_two_words. induction q as [|c q IH]; intros Hne Hq Hc; [congruence|].
  rewrite append_cons. unfold skip_word at 2. cbn [PyStr.drop_while].
  destruct (PyStr.is_word c) eqn:Ew.
  - apply IH; [exact (ends_clean_word _ _ Hc Ew)|exact (contains_tail _ _ _ Hq)
              |exact (ends_clean_tail _ _ Hc)].
  - rewrite <- append_cons. now apply phase3.
Qed.

End Before.

Lemma name_pattern_compiles :
  Re.compile "(\w+\s+\w+)\s+was born" = Some name_tokens.
Proof. vm_compute. reflexivity. Qed.

Lemma dob_pattern_compiles :
  Re.compile "born on (\w+ \d+, \d{4})" = Some dob_tokens.
Proof. vm_compute. reflexivity. Qed.

Lemma mem_lit (a b : ascii) : Re.mem (Re.lit a) b = Ascii.eqb b a.
Proof. unfold Re.mem, Re.lit. simpl. now rewrite orb_false_r. Qed.

Lemma mem_word (a : ascii) : Re.mem word_set a = PyStr.is_word a.
Proof. unfold Re.mem, word_set. simpl. now rewrite orb_false_r. Qed.

Lemma mem_space (a : ascii) : Re.mem space_set a = PyStr.is_space a.
Proof. unfold Re.mem, space_set. simpl. now rewrite orb_false_r. Qed.

Lemma literal_start (l : string) (ts : list Re.tok) (s : string) (pos : nat)
    (st : Re.mstate) (r : nat * Re.mstate) :
  Re.match_here (literal l ++ ts) s pos st = Some r ->
  PyStr.starts_with l s = true.
Proof.
  revert s pos. induction l as [|a l IH]; intros s pos; [reflexivity|].
  cbn [literal app Re.match_here Re.rep].
  destruct s as [|b s]; [discriminate|].
  rewrite mem_lit. cbn [PyStr.starts_with].
  destruct (Ascii.eqb b a) eqn:E; [|discriminate].
  apply Ascii.eqb_eq in E. subst b. rewrite Ascii.eqb_refl.
  intros H. now apply IH in H.
Qed.

Lemma run_head (p : ascii -> bool) (u : string) :
  u <> "" -> all_chars p u = true -> exists a u', u = String a u' /\ p a = true.
Proof.
  destruct u as [|a u]; [congruence|]. cbn [all_chars].
  intros _ H. apply andb_prop in H as (H & _). eauto.
Qed.

Lemma all_chars_ext (p q : ascii -> bool) (u : string) :
  (forall a, p a = q a) -> all_chars p u = all_chars q u.
Proof.
  intros H. induction u as [|a u IH]; [reflexivity|].
  cbn [all_chars]. now rewrite H, IH.
Qed.

(** A match of the name pattern at the head of [s] ends its four runs
    where the greedy reading does, in front of [was born]. *)
Lemma name_match_inv (s : string) (pos : nat) (st : Re.mstate) (r : nat * Re.mstate) :
  Re.match_here name_tokens s pos st = Some r ->
  PyStr.starts_with "was born" (after_two_words s) = true.
Proof.
  unfold name_tokens. cbn [app Re.match_here]. intros H.
  apply plus_inv in H as (u1 & s1 & -> & N1 & A1 & H).
  apply plus_inv in H as (u2 & s2 & -> & N2 & A2 & H).
  apply plus_inv in H as (u3 & s3 & -> & N3 & A3 & H).
  cbn [Re.ms_open] in H.
  apply plus_inv in H as (u4 & s4 & -> & N4 & A4 & H).
  change (literal "was born") with (literal "was born" ++ []) in H.
  apply literal_start in H.
  rewrite (all_chars_ext _ _ u1 mem_word) in A1.
  rewrite (all_chars_ext _ _ u3 mem_word) in A3.
  rewrite (all_chars_ext _ _ u2 mem_space) in A2.
  rewrite (all_chars_ext _ _ u4 mem_space) in A4.
  destruct (run_head _ _ N2 A2) as (a2 & v2 & E2 & P2).
  destruct (run_head _ _ N3 A3) as (a3 & v3 & E3 & P3).
  destruct (run_head _ _ N4 A4) as (a4 & v4 & E4 & P4).
  unfold after_two_words, skip_word, skip_space.
  rewrite (drop_while_run PyStr.is_word u1);
    [|exact A1|rewrite E2, append_cons; now apply space_not_word].
  rewrite (drop_while_run PyStr.is_space u2);
    [|exact A2|rewrite E3, append_cons; now apply word_not_space].
  rewrite (drop_while_run PyStr.is_word u3);
    [|exact A3|rewrite E4, append_cons; now apply space_not_word].
  rewrite (drop_while_run PyStr.is_space u4); [exact H|exact A4|].
  destruct s4 as [|c s4]; [exact I|].
  cbn [PyStr.starts_with] in H. apply andb_prop in H as (H & _).
  apply Ascii.eqb_eq in H. subst c. reflexivity.
Qed.

Lemma search_from_cons (ts : list Re.tok) (c : ascii) (s : string) (pos : nat) :
  Re.search_from ts (String c s) pos
  = match Re.match_here ts (String c s) pos (Re.MState None []) with
    | Some (e, st) => Some (Re.RMatch pos e (List.rev (Re.ms_done st)))
    | None => Re.search_from ts s (S pos)
    end.
Proof. reflexivity. Qed.

Lemma quiet_tail (c : ascii) (pre : string) : quiet (String c pre) -> quiet pre.
Proof.
  intros (H1 & H2). split; [exact (contains_tail _ _ _ H1)|exact (ends_clean_tail _ _ H2)].
Qed.

(** The leftmost match of the name pattern is the sentence's. *)
Lemma name_search (pre suffix : string) (pos : nat) :
  quiet pre ->
  Re.search_from name_tokens (pre +:+ vijay_sentence +:+ suffix) pos
  = Some (Re.RMatch (String.length pre + pos) (20 + (String.length pre + pos))
            [(String.length pre + pos, 11 + (String.length pre + pos))]).
Proof.
  revert pos. induction pre as [|c pre IH]; intros pos Hq.
  - rewrite append_nil_l. vm_compute. reflexivity.
  - rewrite append_cons, search_from_cons.
    destruct (Re.match_here name_tokens _ pos _) as [[e st]|] eqn:E.
    + exfalso. rewrite <- append_cons in E. apply name_match_inv in E.
      destruct Hq as (H1 & H2).
      rewrite (phase4 suffix (String c pre)) in E; [discriminate|discriminate|assumption..].
    + rewrite (IH (S pos) (quiet_tail _ _ Hq)).
      cbn [String.length]. now rewrite !Nat.add_succ_r.
Qed.

(** So is the leftmost match of the date-of-birth pattern. *)
Lemma dob_search (pre suffix : string) (pos : nat) :
  quiet pre ->
  Re.search_from dob_tokens (pre +:+ vijay_sentence +:+ suffix) pos
  = Some (Re.RMatch (16 + (String.length pre + pos)) (38 + (String.length pre + pos))
            [(24 + (String.length pre + pos), 38 + (String.length pre + pos))]).
Proof.
  revert pos. induction pre as [|c pre IH]; intros pos Hq.
  - rewrite append_nil_l. vm_compute. reflexivity.
  - rewrite append_cons, search_from_cons.
    destruct (Re.match_here dob_tokens _ pos _) as [[e st]|] eqn:E.
    + exfalso. rewrite <- append_cons in E. unfold dob_tokens in E.
      apply literal_start in E. destruct Hq as (H1 & _).
      destruct (no_birth_before (String c pre) suffix H1) as (_ & H); [discriminate|].
      rewrite H in E. discriminate.
    + rewrite (IH (S pos) (quiet_tail _ _ Hq)).
      cbn [String.length]. now rewrite !Nat.add_succ_r.
Qed.

Lemma substring_after (pre s : string) (i n : nat) :
  substring (i + String.length pre) n (pre +:+ s) = substring i n s.
Proof.
  induction pre as [|c pre IH].
  - rewrite append_nil_l. cbn [String.length]. now rewrite Nat.add_0_r.
  - rewrite append_cons. cbn [String.length]. rewrite Nat.add_succ_r.
    cbn [substring]. exact IH.
Qed.

Lemma slice_after (pre s : string) (i j : nat) :
  PyStr.slice (i + (String.length pre + 0)) (j + (String.length pre + 0)) (pre +:+ s)
  = PyStr.slice i j s.
Proof.
  unfold PyStr.slice. rewrite Nat.add_0_r, substring_after. f_equal. lia.
Qed.

Lemma name_rule_after (pre suffix : string) :
  quiet pre ->
  DocumentExtractor.name_rule (pre +:+ vijay_sentence +:+ suffix)
  = Ok [Entry "First Name" "Vijay" ""; Entry "Last Name" "Kumar" ""].
Proof.
  intros Hq. unfold DocumentExtractor.name_rule, DocumentExtractor.on_match, Re.search.
  rewrite name_pattern_compiles, (name_search pre suffix 0 Hq).
  unfold Re.group. cbn [Re.m_groups nth_error Nat.sub].
  rewrite (slice_after pre _ 0 11). vm_compute. reflexivity.
Qed.

Lemma dob_rule_after (pre suffix : string) :
  quiet pre ->
  DocumentExtractor.dob_rule (pre +:+ vijay_sentence +:+ suffix)
  = Ok [Entry "Date of Birth" "15-Mar-89" ""].
Proof.
  intros Hq. unfold DocumentExtractor.dob_rule, DocumentExtractor.on_match, Re.search.
  rewrite dob_pattern_compiles, (dob_search pre suffix 0 Hq).
  unfold Re.group. cbn [Re.m_groups nth_error Nat.sub].
  rewrite (slice_after pre _ 24 38). vm_compute. reflexivity.
Qed.

(** C1 (amended): for every document text in which the sentence is
    preceded only by text that does not contain [born] and does not end in
    a word character (a text that begins with the sentence is one), and
    whatever follows it, the personal-info rules emit, in this order, the
    records First Name = Vijay, Last Name = Kumar and Date of Birth =
    15-Mar-89, before the records of the later rules. *)
Theorem first_birth_sentence_yields_name_and_date (pre suffix : string)
    (Hquiet : quiet pre) :
  let text := pre +:+ vijay_sentence +:+ suffix in
  exists others,
    DocumentExtractor.extract_personal_info text
    = Ok (Entry "First Name" "Vijay" "" :: Entry "Last Name" "Kumar" ""
          :: Entry "Date of Birth" "15-Mar-89" "" :: others)
    /\ emits (DocumentExtractor.extract_personal_info text) "First Name" "Vijay"
    /\ emits (DocumentExtractor.extract_personal_info text) "Last Name" "Kumar"
    /\ emits (DocumentExtractor.extract_personal_info text) "Date of Birth" "15-Mar-89".
Proof.
  intros text.
  assert (exists others,
    DocumentExtractor.extract_personal_info text
    = Ok (Entry "First Name" "Vijay" "" :: Entry "Last Name" "Kumar" ""
          :: Entry "Date of Birth" "15-Mar-89" "" :: others)) as (others & E).
  { unfold DocumentExtractor.extract_personal_info, DocumentExtractor.personal_rules.
    cbn [DocumentExtractor.run_rules].
    pose proof (name_rule_after pre suffix Hquiet) as Hname.
    pose proof (dob_rule_after pre suffix Hquiet) as Hdob.
    fold text in Hname, Hdob.
    destruct (later_personal_rules_total text)
      as ((b & Hb) & (a & Ha) & (g & Hg) & (n & Hn)).
    rewrite Hname, bind_ok_l, Hdob, bind_ok_l, Hb, bind_ok_l, Ha, bind_ok_l,
      Hg, bind_ok_l, Hn, !bind_ok_l.
    eexists. reflexivity. }
  exists others. rewrite E. split; [reflexivity|].
  repeat split; eexists _, ""; (split; [reflexivity|]); simpl; tauto.
Qed.

(** The hypothesis of [first_birth_sentence_yields_name_and_date] holds
    for a sentence in the middle of a paragraph. *)
Lemma first_birth_sentence_yields_name_and_date_witness :
  quiet "Candidate profile. "
  /\ emits (DocumentExtractor.extract_personal_info
              ("Candidate profile. " +:+ vijay_sentence +:+ ", making him 35 years old as of 2024."))
           "Date of Birth" "15-Mar-89".
Proof.
  assert (quiet "Candidate profile. ") as Hq by (split; reflexivity).
  split; [exact Hq|].
  destruct (first_birth_sentence_yields_name_and_date
              "Candidate profile. " ", making him 35 years old as of 2024." Hq)
    as (others & _ & _ & _ & H).
  exact H.
Defined.

(* ===================================================================== *)
(** ** The patterns *)
(* ===================================================================== *)

(** Every pattern of the source lies in the fragment [Re.compile] reads,
    so a search that returns [None] found no match. *)
Lemma patterns_compile :
  forallb (fun p => bool_decide (is_Some (Re.compile p))) source_patterns = true.
Proof. vm_compute. reflexivity. Qed.

(* ===================================================================== *)
(** ** What a match of a pattern looks like *)
(* ===================================================================== *)

Lemma rep_inv (c : Re.cset) (n : nat) (k : Re.cont) (s : string) (pos : nat)
    (st : Re.mstate) (r : nat * Re.mstate) :
  Re.rep c n k s pos st = Some r ->
  exists u s', s = u +:+ s' /\ String.length u = n
               /\ all_chars (Re.mem c) u = true
               /\ k s' (String.length u + pos) st = Some r.
Proof.
  revert s pos. induction n as [|n IH]; intros s pos; cbn [Re.rep].
  - intros H. exists "", s. repeat split; assumption.
  - destruct s as [|a s]; [discriminate|].
    destruct (Re.mem c a) eqn:Ea; [|discriminate].
    intros H. apply IH in H as (u & s' & -> & Hn & Hu & Hk).
    exists (String a u), s'. cbn [String.length all_chars]. rewrite Ea, Hu.
    repeat split; [now rewrite Hn|].
    now replace (S (String.length u) + pos) with (String.length u + S pos) by lia.
Qed.

Lemma opt_inv (c : Re.cset) (k : Re.cont) (s : string) (pos : nat)
    (st : Re.mstate) (r : nat * Re.mstate) :
  Re.opt c k s pos st = Some r ->
  exists u s', s = u +:+ s' /\ String.length u <= 1
               /\ all_chars (Re.mem c) u = true
               /\ k s' (String.length u + pos) st = Some r.
Proof.
  assert (k s pos st = Some r ->
          exists u s', s = u +:+ s' /\ String.length u <= 1
               /\ all_chars (Re.mem c) u = true
               /\ k s' (String.length u + pos) st = Some r) as Hskip.
  { intros H. exists "", s. repeat split; [cbn; lia|exact H]. }
  unfold Re.opt. destruct s as [|a s]; [exact Hskip|].
  destruct (Re.mem c a) eqn:Ea; [|exact Hskip].
  destruct (k s (S pos) st) as [r'|] eqn:E; [|exact Hskip].
  intros [= <-]. exists (String a ""), s. cbn [all_chars String.length]. rewrite Ea.
  repeat split; [lia|exact E].
Qed.

Lemma substring_prefix (a r : string) : substring 0 (String.length a) (a +:+ r) = a.
Proof.
  induction a as [|c a IH]; [destruct r; reflexivity|].
  rewrite append_cons. cbn [String.length substring]. now rewrite IH.
Qed.

(** Reading on by [v] extends the text of the open group by [v]. *)
Lemma slice_extend (pre v rest : string) (b : nat) :
  b <= String.length pre ->
  PyStr.slice b (String.length pre + String.length v) (pre +:+ v +:+ rest)
  = PyStr.slice b (String.length pre) (pre +:+ v +:+ rest) +:+ v.
Proof.
  unfold PyStr.slice. revert b. induction pre as [|c pre IH]; intros b Hb.
  - cbn [String.length] in *. assert (b = 0) as -> by lia.
    rewrite !append_nil_l. cbn [Nat.add]. rewrite Nat.sub_0_r, substring_prefix.
    destruct (v +:+ rest); reflexivity.
  - rewrite !append_cons. cbn [String.length] in *. destruct b as [|b].
    + rewrite !Nat.sub_0_r. cbn [Nat.add substring]. rewrite append_cons. f_equal.
      specialize (IH 0 ltac:(lia)). now rewrite !Nat.sub_0_r in IH.
    + cbn [Nat.add Nat.sub substring]. apply IH. lia.
Qed.

Lemma slice_empty (b : nat) (text : string) : PyStr.slice b b text = "".
Proof.
  unfold PyStr.slice. rewrite Nat.sub_diag. revert b.
  induction text as [|c text IH]; intros [|b]; cbn [substring]; auto.
Qed.

(** A match at the head of [s], the part of [text] from offset [pos] on:
    the matched text has the shape of the tokens, and the spans recorded
    for the groups hold the texts of the shape. *)
Lemma match_here_shaped (ts : list Re.tok) (text : string) :
  forall (s : string) (pos : nat) (st : Re.mstate) (r : nat * Re.mstate) (pre : string),
    Re.match_here ts s pos st = Some r ->
    text = pre +:+ s -> String.length pre = pos ->
    (forall b, Re.ms_open st = Some b -> b <= pos) ->
    exists u rest new,
      s = u +:+ rest /\ r.1 = pos + String.length u
      /\ Re.ms_done r.2 = new ++ Re.ms_done st
      /\ shaped ts u (option_map (fun b => PyStr.slice b pos text) (Re.ms_open st))
                (map (fun p => PyStr.slice p.1 p.2 text) (List.rev new)).
Proof.
  induction ts as [|t ts IH]; intros s pos st r pre H Ht Hp Hb.
  - cbn [Re.match_here] in H. injection H as <-.
    exists "", s, []. cbn. rewrite Nat.add_0_r. repeat split.
  - assert (forall c q v s',
              chunk c q v -> s = v +:+ s' ->
              Re.match_here ts s' (String.length v + pos) st = Some r ->
              exists u rest new,
                s = u +:+ rest /\ r.1 = pos + String.length u
                /\ Re.ms_done r.2 = new ++ Re.ms_done st
                /\ shaped (Re.TSet c q :: ts) u
                     (option_map (fun b => PyStr.slice b pos text) (Re.ms_open st))
                     (map (fun p => PyStr.slice p.1 p.2 text) (List.rev new))) as Hset.
    { intros c q v s' Hc -> Hk.
      apply (IH _ _ _ _ (pre +:+ v)) in Hk as (w & rest & new & -> & Hr & Hd & Hs).
      - exists (v +:+ w), rest, new.
        split; [now rewrite append_assoc|]. split; [rewrite length_append; lia|].
        split; [exact Hd|].
        cbn [shaped]. exists v, w. split; [reflexivity|]. split; [exact Hc|].
        destruct (Re.ms_open st) as [b|] eqn:Eo; cbn [option_map] in *; [|exact Hs].
        subst text. rewrite <- Hp in Hs |- *.
        rewrite (Nat.add_comm (String.length v)) in Hs.
        rewrite slice_extend in Hs by (rewrite Hp; now apply Hb).
        exact Hs.
      - now rewrite Ht, append_assoc.
      - rewrite length_append. lia.
      - intros b Eb. specialize (Hb b Eb). lia. }
    destruct t as [c q| |].
    + destruct q as [| | |n]; cbn [Re.match_here] in H.
      * apply rep_inv in H as (v & s' & E & Hn & Hv & Hk).
        apply (Hset c Re.QOne v s'); [split; assumption|assumption..].
      * apply opt_inv in H as (v & s' & E & Hn & Hv & Hk).
        apply (Hset c Re.QOpt v s'); [split; assumption|assumption..].
      * apply plus_inv in H as (v & s' & E & Hn & Hv & Hk).
        apply (Hset c Re.QPlus v s'); [split; [assumption|]|assumption..].
        destruct v; [congruence|cbn; lia].
      * apply rep_inv in H as (v & s' & E & Hn & Hv & Hk).
        apply (Hset c (Re.QRep n) v s'); [split; assumption|assumption..].
    + cbn [Re.match_here] in H.
      apply (IH _ _ _ _ pre) in H as (u & rest & new & -> & Hr & Hd & Hs);
        [|assumption..|cbn; intros b [= <-]; lia].
      exists u, rest, new. cbn [Re.ms_open Re.ms_done option_map] in *.
      rewrite slice_empty in Hs. repeat split; assumption.
    + cbn [Re.match_here] in H. destruct (Re.ms_open st) as [b|] eqn:Eo; [|discriminate].
      apply (IH _ _ _ _ pre) in H as (u & rest & new & -> & Hr & Hd & Hs);
        [|assumption..|cbn; discriminate].
      cbn [Re.ms_open Re.ms_done option_map] in *.
      exists u, rest, (new ++ [(b, pos)]).
      split; [reflexivity|]. split; [exact Hr|]. split; [now rewrite <- app_assoc|].
      rewrite rev_app_distr. cbn [List.rev app map shaped fst snd].
      eexists _, _. split; [reflexivity|]. split; [reflexivity|]. exact Hs.
Qed.

Lemma search_from_shaped (ts : list Re.tok) (text : string) (m : Re.rmatch) :
  forall (s pre : string) (pos : nat),
    Re.search_from ts s pos = Some m ->
    text = pre +:+ s -> String.length pre = pos ->
    exists before u rest,
      text = before +:+ u +:+ rest
      /\ Re.m_start m = String.length before
      /\ Re.m_end m = String.length before + String.length u
      /\ shaped ts u None (map (fun p => PyStr.slice p.1 p.2 text) (Re.m_groups m)).
Proof.
  induction s as [|c s IH]; intros pre pos H Ht Hp.
  - cbn [Re.search_from] in H.
    destruct (Re.match_here ts "" pos _) as [[e st]|] eqn:E; [|discriminate].
    injection H as <-.
    apply (match_here_shaped _ text _ _ _ _ pre) in E
      as (u & rest & new & Hs & Hr & Hd & Hsh); [|assumption..|cbn; discriminate].
    cbn [Re.ms_open Re.ms_done option_map fst snd] in *. rewrite app_nil_r in Hd.
    exists pre, u, rest. cbn [Re.m_start Re.m_end Re.m_groups].
    rewrite Hd, Hp, Ht, Hs. repeat split; try assumption. now rewrite <- Hs, <- Ht.
  - rewrite search_from_cons in H.
    destruct (Re.match_here ts (String c s) pos _) as [[e st]|] eqn:E.
    + injection H as <-.
      apply (match_here_shaped _ text _ _ _ _ pre) in E
        as (u & rest & new & Hs & Hr & Hd & Hsh); [|assumption..|cbn; discriminate].
      cbn [Re.ms_open Re.ms_done option_map fst snd] in *. rewrite app_nil_r in Hd.
      exists pre, u, rest. cbn [Re.m_start Re.m_end Re.m_groups].
      rewrite Hd, Hp, Ht, Hs. repeat split; try assumption. now rewrite <- Hs, <- Ht.
    + apply (IH (pre +:+ String c "") (S pos)) in H; [exact H| |].
      * now rewrite Ht, append_assoc.
      * rewrite length_append. cbn. lia.
Qed.

Lemma substring_middle (a g b : string) :
  substring (String.length a) (String.length g) (a +:+ g +:+ b) = g.
Proof.
  rewrite <- (Nat.add_0_l (String.length a)), substring_after. apply substring_prefix.
Qed.

Lemma group_nth (text : string) (m : Re.rmatch) (i : nat) :
  Re.group (S i) text m
  = nth i (map (fun p => PyStr.slice p.1 p.2 text) (Re.m_groups m)) "".
Proof.
  unfold Re.group. cbn [Nat.sub]. rewrite Nat.sub_0_r.
  generalize (Re.m_groups m). intros l. revert i.
  induction l as [|[b e] l IH]; intros [|i]; cbn; auto.
Qed.

(** [re.search] found [m]: the text splits into what is before the match,
    the match, which has the shape of the pattern, and the rest;
    [m.group(0)] is the match and [m.group(i)] the text of the [i]-th
    group of the shape. *)
Lemma search_shaped (pattern text : string) (ts : list Re.tok) (m : Re.rmatch) :
  Re.compile pattern = Some ts ->
  Re.search pattern text = Some m ->
  exists before u rest gs,
    text = before +:+ u +:+ rest
    /\ Re.m_start m = String.length before
    /\ Re.group0 text m = u
    /\ (forall i, Re.group (S i) text m = nth i gs "")
    /\ shaped ts u None gs.
Proof.
  unfold Re.search. intros -> H.
  apply (search_from_shaped _ text _ _ "") in H
    as (before & u & rest & Ht & Hs & He & Hsh); [|now rewrite append_nil_l|reflexivity].
  exists before, u, rest. eexists. split; [exact Ht|]. split; [exact Hs|].
  split; [|split; [|exact Hsh]].
  - unfold Re.group0, PyStr.slice. rewrite Hs, He, Ht.
    replace (String.length before + String.length u - String.length before)
      with (String.length u) by lia.
    apply substring_middle.
  - intros i. apply group_nth.
Qed.

Lemma one_char (p : ascii -> bool) (v : string) :
  all_chars p v = true -> String.length v = 1 -> exists a, v = String a "" /\ p a = true.
Proof.
  destruct v as [|a [|b v]]; cbn [String.length all_chars]; try discriminate.
  intros H _. exists a. now rewrite andb_true_r in H.
Qed.

(** A pattern that starts with literal characters matches a text that
    starts with them. *)
Lemma shaped_lit_prefix (ts : list Re.tok) :
  forall (u : string) (cur : option string) (gs : list string),
    shaped ts u cur gs ->
    exists w, u = (lit_prefix ts).1 +:+ w
              /\ shaped (lit_prefix ts).2 w
                   (option_map (fun g => g +:+ (lit_prefix ts).1) cur) gs.
Proof.
  assert (forall ts u cur gs, shaped ts u cur gs ->
            exists w, u = "" +:+ w
                      /\ shaped ts w (option_map (fun g => g +:+ "") cur) gs) as Hnone.
  { intros ts' u cur gs H. exists u. split; [reflexivity|].
    destruct cur as [g|]; cbn [option_map]; [now rewrite append_empty_r|exact H]. }
  induction ts as [|t ts IH]; intros u cur gs H; [now apply Hnone|].
  destruct t as [[[] [|[a| | | |] [|i items]]] []| |];
    try (cbn [lit_prefix fst snd]; now apply Hnone).
  cbn [shaped] in H. destruct H as (v & w & -> & (Hv & Hn) & H).
  destruct (one_char _ _ Hv Hn) as (b & -> & Hb).
  change (Re.CSet false [Re.CChar a]) with (Re.lit a) in Hb.
  rewrite mem_lit in Hb. apply Ascii.eqb_eq in Hb. subst b.
  apply IH in H as (w' & -> & H).
  cbn [lit_prefix]. destruct (lit_prefix ts) as [l rest]. cbn [fst snd] in *.
  exists w'. split; [reflexivity|].
  destruct cur as [g|]; cbn [option_map] in *; [|exact H].
  now rewrite append_assoc in H.
Qed.

Lemma shaped_open (ts : list Re.tok) (u : string) (cur : option string)
    (gs : list string) :
  shaped (Re.TOpen :: ts) u cur gs -> shaped ts u (Some "") gs.
Proof. exact (fun H => H). Qed.

Lemma shaped_close (ts : list Re.tok) (u g : string) (gs : list string) :
  shaped (Re.TClose :: ts) u (Some g) gs ->
  exists gs', gs = g :: gs' /\ shaped ts u None gs'.
Proof. intros (g' & gs' & [= <-] & -> & H). eauto. Qed.

Lemma shaped_set (c : Re.cset) (q : Re.quant) (ts : list Re.tok) (u : string)
    (cur : option string) (gs : list string) :
  shaped (Re.TSet c q :: ts) u cur gs ->
  exists v w, u = v +:+ w /\ chunk c q v
              /\ shaped ts w (option_map (fun g => g +:+ v) cur) gs.
Proof. exact (fun H => H). Qed.

Lemma shaped_end (u : string) (cur : option string) (gs : list string) :
  shaped [] u cur gs -> u = "" /\ gs = [].
Proof. exact (fun H => H). Qed.

(** One step of reading a shape off a compiled pattern. *)
Ltac shape_step H :=
  lazymatch type of H with
  | shaped ?ts _ _ _ =>
      lazymatch ts with
      | [] => apply shaped_end in H; destruct H as [-> ->]
      | Re.TOpen :: _ => apply shaped_open in H
      | Re.TClose :: _ =>
          apply shaped_close in H; destruct H as (? & -> & H)
      | Re.TSet (Re.CSet false [Re.CChar _]) Re.QOne :: _ =>
          let w := fresh "w" in
          apply shaped_lit_prefix in H;
          let x := eval vm_compute in (lit_prefix ts) in
          change (lit_prefix ts) with x in H;
          cbn [fst snd option_map] in H;
          destruct H as (w & -> & H)
      | Re.TSet _ _ :: _ =>
          let v := fresh "v" in
          let w := fresh "w" in
          let C := fresh "C" in
          apply shaped_set in H; cbn [option_map] in H;
          destruct H as (v & w & -> & C & H)
      end
  end.

Ltac read_shape H := repeat shape_step H.

(* ===================================================================== *)
(** ** Strings: reversal, [split], [strip], [replace] *)
(* ===================================================================== *)

Lemma rev_onto_twice (a b c : string) :
  PyStr.rev_onto (PyStr.rev_onto a b) c = PyStr.rev_onto b (a +:+ c).
Proof.
  revert b c. induction a as [|x a IH]; intros b c; [reflexivity|].
  cbn [PyStr.rev_onto]. rewrite IH. reflexivity.
Qed.

Lemma rev_rev_onto (w : string) : PyStr.rev (PyStr.rev_onto w "") = w.
Proof. unfold PyStr.rev. rewrite rev_onto_twice. cbn. apply append_empty_r. Qed.

Lemma rev_onto_nonempty (w acc : string) : w <> "" -> PyStr.rev_onto w acc <> "".
Proof.
  revert acc. induction w as [|x w IH]; intros acc H; [congruence|].
  cbn [PyStr.rev_onto]. destruct w as [|y w]; [discriminate|]. apply IH. discriminate.
Qed.

Lemma split_go_word (w s cur : string) :
  all_chars PyStr.is_word w = true ->
  PyStr.split_go (w +:+ s) cur = PyStr.split_go s (PyStr.rev_onto w cur).
Proof.
  revert cur. induction w as [|a w IH]; intros cur H; [reflexivity|].
  cbn [all_chars] in H. apply andb_prop in H as (Ha & H).
  rewrite append_cons. cbn [PyStr.split_go PyStr.rev_onto].
  rewrite (word_not_space a Ha). now apply IH.
Qed.

Lemma split_go_skip (g s : string) :
  all_chars PyStr.is_space g = true ->
  PyStr.split_go (g +:+ s) "" = PyStr.split_go s "".
Proof.
  induction g as [|a g IH]; intros H; [reflexivity|].
  cbn [all_chars] in H. apply andb_prop in H as (Ha & H).
  rewrite append_cons. cbn [PyStr.split_go]. rewrite Ha. now apply IH.
Qed.

Lemma split_go_gap (g s cur : string) :
  blank g -> cur <> "" ->
  PyStr.split_go (g +:+ s) cur = PyStr.rev cur :: PyStr.split_go s "".
Proof.
  intros (Hne & H) Hcur. destruct g as [|a g]; [congruence|].
  cbn [all_chars] in H. apply andb_prop in H as (Ha & H).
  rewrite append_cons. cbn [PyStr.split_go]. rewrite Ha.
  destruct cur; [congruence|]. f_equal. now apply split_go_skip.
Qed.

(** [split] of two words with whitespace between them. *)
Lemma split_two_words (first gap last : string) :
  word first -> blank gap -> word last ->
  PyStr.split (first +:+ gap +:+ last) = [first; last].
Proof.
  intros (N1 & W1) Hgap (N2 & W2). unfold PyStr.split.
  rewrite split_go_word by exact W1.
  rewrite split_go_gap; [|exact Hgap|now apply rev_onto_nonempty].
  rewrite rev_rev_onto. f_equal.
  rewrite <- (append_empty_r last) at 1. rewrite split_go_word by exact W2.
  cbn [PyStr.split_go].
  destruct (PyStr.rev_onto last "") eqn:E; [now apply rev_onto_nonempty in E|].
  rewrite <- E, rev_rev_onto. reflexivity.
Qed.

Lemma chunk_plus (c : Re.cset) (v : string) :
  chunk c Re.QPlus v -> v <> "" /\ all_chars (Re.mem c) v = true.
Proof. intros (H & Hn). split; [|exact H]. intros ->. cbn in Hn. lia. Qed.

Lemma mem_digit (a : ascii) : Re.mem digit_set a = PyStr.is_digit a.
Proof. unfold Re.mem, digit_set. simpl. now rewrite orb_false_r. Qed.

Lemma mem_other_than (x a : ascii) :
  Re.mem (Re.CSet true [Re.CChar x]) a = negb (Ascii.eqb a x).
Proof. unfold Re.mem. simpl. now rewrite orb_false_r. Qed.

Lemma word_chunk (v : string) : chunk word_set Re.QPlus v -> word v.
Proof.
  intros H. apply chunk_plus in H as (Hn & H). split; [exact Hn|].
  now rewrite <- (all_chars_ext _ _ v mem_word).
Qed.

Lemma blank_chunk (v : string) : chunk space_set Re.QPlus v -> blank v.
Proof.
  intros H. apply chunk_plus in H as (Hn & H). split; [exact Hn|].
  now rewrite <- (all_chars_ext _ _ v mem_space).
Qed.

Lemma digits_chunk (v : string) : chunk digit_set Re.QPlus v -> digits v.
Proof.
  intros H. apply chunk_plus in H as (Hn & H). split; [exact Hn|].
  now rewrite <- (all_chars_ext _ _ v mem_digit).
Qed.

Lemma four_digits_chunk (v : string) : chunk digit_set (Re.QRep 4) v -> four_digits v.
Proof.
  intros (H & Hn). split; [exact Hn|].
  now rewrite <- (all_chars_ext _ _ v mem_digit).
Qed.

Lemma lacks_chunk (x : ascii) (q : Re.quant) (v : string) :
  chunk (Re.CSet true [Re.CChar x]) q v -> lacks x v = true.
Proof.
  intros (H & _). unfold lacks.
  now rewrite <- (all_chars_ext _ _ v (mem_other_than x)).
Qed.

(* ===================================================================== *)
(** ** The name rule *)
(* ===================================================================== *)

(** A match of the name pattern: two words with whitespace between them,
    whitespace, and [was born]. *)
Lemma name_match_shape (text : string) (m : Re.rmatch) :
  Re.search "(\w+\s+\w+)\s+was born" text = Some m ->
  exists before first gap1 last gap2 rest,
    text = before +:+ first +:+ gap1 +:+ last +:+ gap2 +:+ "was born" +:+ rest
    /\ Re.group 1 text m = first +:+ gap1 +:+ last
    /\ word first /\ blank gap1 /\ word last /\ blank gap2.
Proof.
  intros H.
  eapply search_shaped in H as (before & u & rest & gs & Ht & _ & _ & Hg & H);
    [|vm_compute; reflexivity].
  read_shape H.
  exists before, v, v0, v1, v2, rest.
  split; [rewrite Ht; now rewrite !append_assoc, append_nil_l|].
  split; [rewrite Hg; cbn [nth]; now rewrite append_nil_l, !append_assoc|].
  repeat split; first [now apply word_chunk | now apply blank_chunk].
Qed.

Lemma name_rule_cases (text : string) :
  DocumentExtractor.name_rule text = Ok []
  \/ exists before first gap1 last gap2 rest,
       DocumentExtractor.name_rule text
       = Ok [Entry "First Name" first ""; Entry "Last Name" last ""]
       /\ text = before +:+ first +:+ gap1 +:+ last +:+ gap2 +:+ "was born" +:+ rest
       /\ word first /\ blank gap1 /\ word last /\ blank gap2.
Proof.
  unfold DocumentExtractor.name_rule, DocumentExtractor.on_match.
  destruct (Re.search _ text) as [m|] eqn:E; [right|now left].
  apply name_match_shape in E
    as (before & first & gap1 & last & gap2 & rest & Ht & Hg & W1 & B1 & W2 & B2).
  exists before, first, gap1, last, gap2, rest.
  rewrite Hg, (split_two_words _ _ _ W1 B1 W2). cbn.
  repeat split; try assumption; first [apply W1 | apply B1 | apply W2 | apply B2].
Qed.

Lemma all_chars_app (p : ascii -> bool) (a b : string) :
  all_chars p (a +:+ b) = all_chars p a && all_chars p b.
Proof.
  induction a as [|x a IH]; [now rewrite append_nil_l|].
  rewrite append_cons. cbn [all_chars]. now rewrite IH, andb_assoc.
Qed.

Lemma drop_while_keeps (p q : ascii -> bool) (s : string) :
  all_chars q s = true -> all_chars q (PyStr.drop_while p s) = true.
Proof.
  induction s as [|a s IH]; [reflexivity|].
  intros H. cbn [PyStr.drop_while]. destruct (p a); [|exact H].
  cbn [all_chars] in H. apply andb_prop in H as (_ & H). now apply IH.
Qed.

Lemma drop_while_head (p : ascii -> bool) (s : string) :
  match PyStr.drop_while p s with
  | String a _ => p a = false
  | EmptyString => True
  end.
Proof.
  induction s as [|a s IH]; [exact I|].
  cbn [PyStr.drop_while]. destruct (p a) eqn:E; [exact IH|exact E].
Qed.

(** What [drop_while] removes, in front of what it leaves. *)
Lemma drop_while_split (p : ascii -> bool) (s : string) :
  exists l, s = l +:+ PyStr.drop_while p s.
Proof.
  induction s as [|a s (l & IH)]; [now exists ""|].
  cbn [PyStr.drop_while]. destruct (p a).
  - exists (String a l). rewrite append_cons. now f_equal.
  - now exists "".
Qed.

Lemma rev_onto_keeps (q : ascii -> bool) (s acc : string) :
  all_chars q s = true -> all_chars q acc = true ->
  all_chars q (PyStr.rev_onto s acc) = true.
Proof.
  revert acc. induction s as [|a s IH]; intros acc Hs Hacc; [exact Hacc|].
  cbn [all_chars] in Hs. apply andb_prop in Hs as (Ha & Hs).
  cbn [PyStr.rev_onto]. apply IH; [exact Hs|]. cbn [all_chars]. now rewrite Ha.
Qed.

Lemma rev_onto_app (b c : string) :
  PyStr.rev_onto b c = PyStr.rev_onto b "" +:+ c.
Proof.
  revert c. induction b as [|x b IH]; intros c; [reflexivity|].
  cbn [PyStr.rev_onto]. rewrite (IH (String x c)), (IH (String x "")).
  now rewrite append_assoc.
Qed.

Lemma rev_append (a b : string) : PyStr.rev (a +:+ b) = PyStr.rev b +:+ PyStr.rev a.
Proof.
  unfold PyStr.rev. revert b. generalize "" at 1 3. induction a as [|x a IH]; intros acc b.
  - rewrite append_nil_l. cbn [PyStr.rev_onto]. apply rev_onto_app.
  - rewrite append_cons. cbn [PyStr.rev_onto]. apply IH.
Qed.

Lemma rev_rev (s : string) : PyStr.rev (PyStr.rev s) = s.
Proof. apply rev_rev_onto. Qed.

(** [strip] keeps what holds of every character. *)
Lemma strip_keeps (q : ascii -> bool) (s : string) :
  all_chars q s = true -> all_chars q (PyStr.strip s) = true.
Proof.
  intros H. unfold PyStr.strip, PyStr.rev.
  apply rev_onto_keeps; [|reflexivity]. apply drop_while_keeps.
  apply rev_onto_keeps; [|reflexivity]. now apply drop_while_keeps.
Qed.

(** [strip] leaves no whitespace at either end. *)
Lemma strip_trimmed (s : string) : trimmed (PyStr.strip s).
Proof.
  unfold trimmed, PyStr.strip. split; [|rewrite rev_rev; apply drop_while_head].
  set (t := PyStr.drop_while PyStr.is_space s).
  destruct (drop_while_split PyStr.is_space (PyStr.rev t)) as (r & Hr).
  apply (f_equal PyStr.rev) in Hr. rewrite rev_rev, rev_append in Hr.
  pose proof (drop_while_head PyStr.is_space s) as Hh. fold t in Hh.
  destruct (PyStr.rev (PyStr.drop_while PyStr.is_space (PyStr.rev t))) as [|a x]; [exact I|].
  rewrite Hr, append_cons in Hh. exact Hh.
Qed.

(** Removing the commas of a run of digits and commas leaves digits. *)
Lemma replace_commas (s : string) :
  all_chars (fun a => PyStr.is_digit a || Ascii.eqb a ",") s = true ->
  all_chars PyStr.is_digit (PyStr.replace "," "" s) = true.
Proof.
  unfold PyStr.replace. induction s as [|a s IH]; [reflexivity|].
  cbn [all_chars]. intros H. apply andb_prop in H as (Ha & H).
  cbn [PyStr.replace_go PyStr.starts_with String.length Nat.sub].
  rewrite andb_true_r, Ascii.eqb_sym.
  destruct (Ascii.eqb a ",") eqn:E.
  - rewrite append_nil_l. now apply IH.
  - cbn [all_chars]. rewrite orb_false_r in Ha. rewrite Ha. now apply IH.
Qed.

(* ===================================================================== *)
(** ** Values read by a negated class or by four digits *)
(* ===================================================================== *)

(** The shape of the match that [E] says was found. *)
Ltac rule_shape E :=
  let before := fresh "before" in
  let u := fresh "u" in
  let rest := fresh "rest" in
  let gs := fresh "gs" in
  let Ht := fresh "Ht" in
  let Hg := fresh "Hg" in
  eapply search_shaped in E as (before & u & rest & gs & Ht & _ & _ & Hg & E);
  [|vm_compute; reflexivity];
  read_shape E.

Ltac open_rule E :=
  match goal with
  | |- context [match Re.search ?p ?text with _ => _ end] =>
      destruct (Re.search p text) eqn:E
  end.

Ltac bounded_rule :=
  let E := fresh "E" in
  cbv beta iota delta [bounded_rule_behaviour];
  cbv beta iota delta [DocumentExtractor.current_org_rule
    DocumentExtractor.current_desig_rule DocumentExtractor.prev_org_rule
    DocumentExtractor.prev_desig_rule DocumentExtractor.hs_rule
    DocumentExtractor.ug_degree_rule DocumentExtractor.ug_college_rule
    DocumentExtractor.grad_degree_rule DocumentExtractor.grad_college_rule
    DocumentExtractor.on_match];
  open_rule E; [right|now left];
  rule_shape E;
  match goal with
  | Hg : forall i, Re.group (S i) _ _ = _ |- _ => rewrite Hg
  end;
  cbn [nth]; rewrite ?append_nil_l;
  eexists _, _; split; [reflexivity|]; split; [|apply strip_trimmed];
  apply strip_keeps; unfold lacks in *; rewrite ?all_chars_app;
  match goal with
  | C : chunk _ _ _ |- _ => apply lacks_chunk in C; unfold lacks in C; rewrite C
  end; reflexivity.

(** X1: nine rules of [extract_professional_info] and
    [extract_education_info] read their value with a negated class and
    strip it. Whatever the text, such a rule emits nothing, or one record
    under its key whose value has no whitespace at either end and does not
    contain the character its class shuts out: no [e] in a Current
    Designation, no [a] in a Previous Starting Designation or an
    Undergraduate degree, no [b] in a Current Organization, no [f] in a
    Previous Organization, no [i] in a Graduation degree, no comma in the
    names of the school and the colleges. *)
Theorem bounded_values_lack_a_character (text : string) :
  Forall (bounded_rule_behaviour text) bounded_rules.
Proof.
  unfold bounded_rules.
  repeat (apply List.Forall_cons; [bounded_rule|]). apply List.Forall_nil.
Qed.

Ltac year_rule :=
  let E := fresh "E" in
  cbv beta iota delta [year_rule_behaviour];
  cbv beta iota delta [DocumentExtractor.prev_end_rule DocumentExtractor.year_12_rule
    DocumentExtractor.ug_year_rule DocumentExtractor.grad_year_rule
    DocumentExtractor.on_match];
  open_rule E; [right|now left];
  rule_shape E;
  match goal with
  | Hg : forall i, Re.group (S i) _ _ = _ |- _ => rewrite Hg
  end;
  cbn [nth]; rewrite ?append_nil_l;
  eexists _, _; split; [reflexivity|];
  match goal with
  | C : chunk _ (Re.QRep 4) _ |- _ => exact (four_digits_chunk _ C)
  end.

(** X2: the four rules that read a year emit nothing, or one record
    under their key whose value is exactly four digits. *)
Theorem year_values_have_four_digits (text : string) :
  Forall (year_rule_behaviour text) year_rules.
Proof.
  unfold year_rules.
  repeat (apply List.Forall_cons; [year_rule|]). apply List.Forall_nil.
Qed.

(* ===================================================================== *)
(** ** The dates the rules accept *)
(* ===================================================================== *)

Lemma space_is_space : PyStr.is_space " " = true.
Proof. reflexivity. Qed.

Lemma not_space_neq (a : ascii) : PyStr.is_space a = false -> Ascii.eqb a " " = false.
Proof.
  intros H. destruct (Ascii.eqb_spec a " ") as [->|]; [discriminate H|reflexivity].
Qed.

(** One alternative of the month group, tried on a word followed by a
    blank: it goes on only when the word is the name in some letter
    case. *)
Lemma month_step {A} (name : string) :
  forall (k : string -> string -> option A) (B t : string),
    all_chars (fun a => negb (PyStr.is_space a)) name = true ->
    all_chars PyStr.is_word B = true ->
    match PyDate.imatch name (B +:+ String " " t) with
    | Some (B', r) => PyDate.ws_plus (k B') r
    | None => None
    end
    = if String.eqb (PyStr.lower B) name then PyDate.ws_plus (k B) (String " " t) else None.
Proof.
  induction name as [|a name IH]; intros k B t Hn HB.
  - cbn [PyDate.imatch]. destruct B as [|b B]; [reflexivity|].
    rewrite append_cons. cbn [all_chars] in HB. apply andb_prop in HB as (Hb & _).
    cbn [PyDate.ws_plus]. now rewrite (word_not_space b Hb).
  - cbn [all_chars] in Hn. apply andb_prop in Hn as (Ha & Hn).
    apply negb_true_iff in Ha.
    destruct B as [|b B].
    + rewrite append_nil_l. cbn [PyDate.imatch].
      change (PyStr.lower_az " ") with " "%char.
      now rewrite (not_space_neq a Ha).
    + rewrite append_cons. cbn [PyDate.imatch].
      cbn [all_chars] in HB. apply andb_prop in HB as (_ & HB).
      change (PyStr.lower (String b B)) with (String (PyStr.lower_az b) (PyStr.lower B)).
      cbn [String.eqb]. rewrite (Ascii.eqb_sym (PyStr.lower_az b) a).
      destruct (Ascii.eqb a (PyStr.lower_az b)); [|reflexivity].
      specialize (IH (fun m => k (String b m)) B t Hn HB). cbv beta in IH.
      rewrite <- IH.
      destruct (PyDate.imatch name (B +:+ String " " t)) as [[m r]|]; reflexivity.
Qed.

Lemma first_some_pick {A} (f : string -> option A) (x : string) (X : option A)
    (l : list string) :
  (forall name, In name l -> f name = if String.eqb x name then X else None) ->
  PyDate.first_some f l = if existsb (String.eqb x) l then X else None.
Proof.
  induction l as [|name l IH]; intros H; [reflexivity|].
  cbn [PyDate.first_some existsb]. rewrite (H name) by (now left).
  rewrite IH by (intros n Hn; apply H; now right).
  destruct (String.eqb x name); cbn [orb]; [|reflexivity].
  destruct X; cbn; [reflexivity|]. now destruct (existsb _ l).
Qed.

Lemma comma_digit {A} (k : string -> option A) (y : ascii) (s : string) :
  PyStr.is_digit y = true -> PyDate.comma k (String y s) = None.
Proof.
  intros H. destruct (PyDate.comma k (String y s)) eqn:E; [|reflexivity].
  apply comma_inv in E as (r & [= -> _] & _). discriminate H.
Qed.

Lemma digit_tests (x : ascii) :
  PyStr.is_digit x = true ->
  Ascii.eqb " " x = false /\ Ascii.eqb "," x = false.
Proof.
  intros H. split.
  - destruct (Ascii.eqb_spec " " x) as [<-|]; [discriminate H|reflexivity].
  - destruct (Ascii.eqb_spec "," x) as [<-|]; [discriminate H|reflexivity].
Qed.

Lemma range_tests_comma (lo hi : N) :
  (48 <= lo)%N -> PyStr.in_range lo hi "," = false.
Proof.
  intros H. unfold PyStr.in_range. apply andb_false_iff. left.
  apply N.leb_gt. change (PyStr.code ",") with 44%N. lia.
Qed.

Lemma or_else_none_r {A} (x : option A) : PyDate.or_else x None = x.
Proof. now destruct x. Qed.

Lemma or_else_same {A} (x : option A) : PyDate.or_else x x = x.
Proof. now destruct x. Qed.

(** The [%d] group followed by the comma, on digits followed by a comma. *)
Lemma day_group_digits {A} (K : string -> string -> option A) (D r : string) :
  all_chars PyStr.is_digit D = true ->
  PyDate.day_group (fun d r1 => PyDate.comma (K d) r1) (D +:+ String "," r)
  = if day_ok D then K D r else None.
Proof.
  intros HD. unfold PyDate.day_group.
  destruct D as [|x [|y [|z D]]]; cbn [all_chars] in HD.
  - rewrite append_nil_l. cbn [day_ok]. unfold PyDate.two, PyDate.one.
    destruct r as [|a r]; cbn; reflexivity.
  - apply andb_prop in HD as (Hx & _).
    destruct (digit_tests x Hx) as (Hs & _).
    rewrite !append_cons, append_nil_l. cbn [day_ok].
    unfold PyDate.two, PyDate.one.
    rewrite !range_tests_comma by lia.
    change (PyStr.is_digit ",") with false.
    rewrite !andb_false_r, ?Hs. cbn [andb PyDate.or_else].
    destruct (PyStr.in_range 49 57 x); [|reflexivity].
    cbn [PyDate.comma]. apply or_else_none_r.
  - apply andb_prop in HD as (Hx & HD). apply andb_prop in HD as (Hy & _).
    destruct (digit_tests x Hx) as (Hs & _).
    rewrite !append_cons, append_nil_l. cbn [day_ok].
    unfold PyDate.two, PyDate.one. rewrite Hs. cbn [andb]. cbv beta.
    rewrite (comma_digit (K (String x "")) y _ Hy).
    assert (forall b : bool, (if b then @None A else None) = None) as Hn
      by (now intros []).
    rewrite Hn. cbn [PyDate.comma].
    destruct (Ascii.eqb "3" x && PyStr.in_range 48 49 y);
      destruct (PyStr.in_range 49 50 x && PyStr.is_digit y);
      destruct (Ascii.eqb "0" x && PyStr.in_range 49 57 y);
      cbn [orb PyDate.or_else]; destruct (K (String x (String y "")) r); reflexivity.
  - apply andb_prop in HD as (Hx & HD). apply andb_prop in HD as (Hy & HD).
    apply andb_prop in HD as (Hz & _).
    destruct (digit_tests x Hx) as (Hs & _).
    rewrite !append_cons. cbn [day_ok].
    unfold PyDate.two, PyDate.one. rewrite Hs. cbn [andb]. cbv beta.
    rewrite (comma_digit (K (String x "")) y _ Hy).
    rewrite (comma_digit (K (String x (String y ""))) z _ Hz).
    repeat match goal with
           | |- context [if ?b then _ else _] => destruct b
           end; reflexivity.
Qed.

Lemma month_alternatives_plain :
  Forall (fun name => all_chars (fun a => negb (PyStr.is_space a)) name = true)
         PyDate.month_alternatives.
Proof. repeat constructor. Qed.

(** What the regular expression of the format finds in a date text. *)
Lemma format_match_date (B D : string) (a b c e : ascii) :
  all_chars PyStr.is_word B = true -> digits D ->
  PyStr.is_digit a = true -> PyStr.is_digit b = true ->
  PyStr.is_digit c = true -> PyStr.is_digit e = true ->
  PyDate.format_match (date_text B D a b c e)
  = if existsb (String.eqb (PyStr.lower B)) PyDate.month_alternatives && day_ok D
    then Some (B, D, year_text a b c e, "") else None.
Proof.
  intros HB (HD0 & HD) Ha Hb Hc He. unfold PyDate.format_match, date_text.
  change (B +:+ " " +:+ D +:+ ", " +:+ year_text a b c e)
    with (B +:+ String " " (D +:+ String "," (String " " (year_text a b c e)))).
  rewrite (first_some_pick _ (PyStr.lower B)
             (PyDate.ws_plus
                (PyDate.day_group (fun d r1 =>
                   PyDate.comma (PyDate.ws_plus (fun r2 =>
                     match PyDate.year_group r2 with
                     | Some (Y, rest) => Some (B, d, Y, rest)
                     | None => None
                     end)) r1))
                (String " " (D +:+ String "," (String " " (year_text a b c e)))))).
  2:{ intros name Hin.
      pose proof (proj1 (List.Forall_forall _ _) month_alternatives_plain name Hin) as Hn.
      exact (month_step name
               (fun B' => PyDate.day_group (fun d r1 =>
                   PyDate.comma (PyDate.ws_plus (fun r2 =>
                     match PyDate.year_group r2 with
                     | Some (Y, rest) => Some (B', d, Y, rest)
                     | None => None
                     end)) r1)) B _ Hn HB). }
  destruct (existsb _ _); [|reflexivity]. cbn [andb].
  destruct D as [|x D]; [congruence|].
  assert (PyStr.is_digit x = true) as Hx
    by (cbn [all_chars] in HD; now apply andb_prop in HD).
  rewrite append_cons, ws_plus_one_space by (now apply digit_not_space).
  rewrite <- append_cons.
  rewrite (day_group_digits (fun d => PyDate.ws_plus (fun r2 =>
             match PyDate.year_group r2 with
             | Some (Y, rest) => Some (B, d, Y, rest)
             | None => None
             end)) (String x D) _ HD).
  destruct (day_ok (String x D)); [|reflexivity].
  unfold year_text at 1. rewrite ws_plus_one_space by (now apply digit_not_space).
  fold (year_text a b c e).
  now destruct (year_text_value a b c e Ha Hb Hc He) as (-> & _).
Qed.

Lemma digit_cases (x : ascii) (P : ascii -> Prop) :
  PyStr.is_digit x = true ->
  (forall n, n <= 9 -> P (PyStr.digit_char n)) -> P x.
Proof.
  intros Hx H. destruct (digit_of_char x Hx) as (E & Hn).
  rewrite <- E. apply H. exact Hn.
Qed.

Ltac split_number n H depth :=
  lazymatch depth with
  | O => exfalso; lia
  | S ?k => destruct n as [|n]; [clear H|split_number n H k]
  end.

Ltac each_digit :=
  let n := fresh "n" in
  let H := fresh in
  intros n H; split_number n H 10.

(** A day the group accepts is a day from 1 to 31 in one or two digits. *)
Lemma day_ok_inv (D : string) :
  all_chars PyStr.is_digit D = true -> day_ok D = true ->
  exists d, 1 <= d <= 31 /\ PyStr.int (PyStr.strip D) = Some d /\ day_digits d D.
Proof.
  destruct D as [|x [|y [|z D]]]; cbn [all_chars]; intros HD; try discriminate.
  - apply andb_prop in HD as (Hx & _).
    pattern x. apply (digit_cases x); [exact Hx|]. each_digit;
      match goal with
      | |- day_ok (String (PyStr.digit_char ?k) "") = true -> _ =>
          first [ intros H; discriminate H
                | intros _; exists k; split; [lia|]; split; [reflexivity|];
                  left; reflexivity ]
      end.
  - apply andb_prop in HD as (Hx & HD). apply andb_prop in HD as (Hy & _).
    pattern x. apply (digit_cases x); [exact Hx|]. clear x Hx.
    each_digit; (pattern y; apply (digit_cases y); [exact Hy|]); each_digit;
      match goal with
      | |- day_ok (String (PyStr.digit_char ?k) (String (PyStr.digit_char ?j) "")) = true
           -> _ =>
          first [ intros H; discriminate H
                | intros _; exists (10 * k + j); split; [lia|]; split; [reflexivity|];
                  first [left; reflexivity | right; reflexivity] ]
      end.
Qed.

Lemma day_digits_ok (d : nat) (D : string) :
  1 <= d <= 31 -> day_digits d D ->
  all_chars PyStr.is_digit D = true
  /\ day_ok D = true /\ PyStr.int (PyStr.strip D) = Some d.
Proof.
  intros Hd HD. destruct d as [|d]; [lia|].
  do 31 (destruct d as [|d]; [destruct HD as [->| ->]; vm_compute; auto|]).
  lia.
Qed.

Lemma month_name_lower (m : nat) :
  1 <= m <= 12 ->
  nth_error PyDate.f_month (m - 1) = Some (PyStr.lower (nth (m - 1) month_names "")).
Proof.
  intros Hm. destruct m as [|m]; [lia|].
  do 12 (destruct m as [|m]; [reflexivity|]). lia.
Qed.

Lemma month_is_alternative (m : nat) :
  1 <= m <= 12 ->
  existsb (String.eqb (PyStr.lower (nth (m - 1) month_names ""))) PyDate.month_alternatives
  = true.
Proof.
  intros Hm. destruct m as [|m]; [lia|].
  do 12 (destruct m as [|m]; [reflexivity|]). lia.
Qed.

Lemma days_at_most_31 (y m : nat) : PyDate.days_in_month y m <= 31.
Proof.
  unfold PyDate.days_in_month.
  repeat match goal with |- context [match ?x with _ => _ end] => destruct x end; lia.
Qed.

(** [strptime] on a date text: it accepts exactly the texts that name an
    existing date, and returns that date. *)
Lemma strptime_date (B D : string) (a b c e : ascii) :
  word B -> digits D ->
  PyStr.is_digit a = true -> PyStr.is_digit b = true ->
  PyStr.is_digit c = true -> PyStr.is_digit e = true ->
  (forall m d,
      names_date B D a b c e m d ->
      PyDate.strptime (date_text B D a b c e)
      = Ok (PyDate.DateTime (year_value a b c e) m d))
  /\ (forall dt,
        PyDate.strptime (date_text B D a b c e) = Ok dt ->
        PyDate.year dt = year_value a b c e
        /\ names_date B D a b c e (PyDate.month dt) (PyDate.day dt)).
Proof.
  intros (_ & HB) HD Ha Hb Hc He.
  pose proof (format_match_date B D a b c e HB HD Ha Hb Hc He) as Hf.
  destruct (year_text_value a b c e Ha Hb Hc He) as (_ & HY).
  split.
  - intros m d (Hm & HBm & Hday & Hy & Hd).
    assert (1 <= d <= 31) as Hd31
      by (pose proof (days_at_most_31 (year_value a b c e) m); lia).
    destruct (day_digits_ok d D Hd31 Hday) as (_ & Hok & Hint).
    unfold PyDate.strptime. rewrite Hf, HBm, (month_is_alternative m Hm), Hok.
    cbn [andb]. cbv iota. rewrite HBm, month_index by exact Hm. rewrite Hint, HY.
    destruct (Nat.eqb_spec (year_value a b c e) 0) as [E|_]; [lia|].
    destruct Hd as (Hd1 & Hd2). apply Nat.leb_le in Hd1, Hd2. now rewrite Hd1, Hd2.
  - intros dt. unfold PyDate.strptime. rewrite Hf.
    destruct (existsb _ _ && day_ok D) eqn:E; [|discriminate].
    apply andb_prop in E as (_ & Hok).
    destruct (PyDate.index_of _ _ _) as [m|] eqn:Em; [|discriminate].
    destruct (day_ok_inv D (proj2 HD) Hok) as (d & Hd31 & Hint & Hday).
    rewrite Hint, HY.
    destruct (Nat.eqb_spec (year_value a b c e) 0) as [E0|E0]; [discriminate|].
    destruct (Nat.leb 1 d && Nat.leb d (PyDate.days_in_month (year_value a b c e) m)) eqn:Eb;
      [|discriminate].
    intros [= <-]. cbn [PyDate.year PyDate.month PyDate.day].
    apply andb_prop in Eb as (E1 & E2). apply Nat.leb_le in E1, E2.
    apply index_of_inv in Em as (Hm & Hnth). cbn [length PyDate.f_month] in Hm.
    assert (1 <= m <= 12) as Hm12 by lia.
    rewrite (month_name_lower m Hm12) in Hnth. injection Hnth as Hnth.
    split; [reflexivity|]. unfold names_date. repeat split; try lia; auto.
Qed.

Lemma strftime_value (m d : nat) (a b c e : ascii) :
  PyStr.is_digit c = true -> PyStr.is_digit e = true ->
  PyDate.strftime (PyDate.DateTime (year_value a b c e) m d) = as_dd_mon_yy m d c e.
Proof.
  intros Hc He. unfold PyDate.strftime, as_dd_mon_yy.
  cbn [PyDate.day PyDate.month PyDate.year]. rewrite <- month_abbreviation.
  do 4 f_equal. unfold PyStr.two_digits, year_value.
  destruct (digit_of_char c Hc) as (Ec & Lc).
  destruct (digit_of_char e He) as (Ee & Le).
  destruct (last_two_digits (digit_of a) (digit_of b) (digit_of c) (digit_of e) Lc Le)
    as (-> & ->).
  now rewrite Ec, Ee.
Qed.

Lemma four_digits_year (Y : string) :
  four_digits Y ->
  exists a b c e,
    Y = year_text a b c e
    /\ PyStr.is_digit a = true /\ PyStr.is_digit b = true
    /\ PyStr.is_digit c = true /\ PyStr.is_digit e = true.
Proof.
  intros (Hl & H). destruct Y as [|a [|b [|c [|e [|x Y]]]]]; try discriminate Hl.
  cbn [all_chars] in H. rewrite andb_true_r in H.
  apply andb_prop in H as (Ha & H). apply andb_prop in H as (Hb & H).
  apply andb_prop in H as (Hc & He).
  exists a, b, c, e. auto.
Qed.

(** A rule that reformats the date its pattern reads decides by the
    date. *)
Lemma date_rule_decided (text pattern key : string)
    (rule : string -> result (list entry)) (tail : Re.rmatch -> list entry) :
  In rule (DocumentExtractor.personal_rules ++ DocumentExtractor.professional_rules) ->
  rule text
  = DocumentExtractor.on_match pattern text (fun m =>
      d ← DocumentExtractor.reformat_date (Re.group 1 text m);
      Ok (Entry key d "" :: tail m)) ->
  (forall found,
      Re.search pattern text = Some found ->
      exists B D Y,
        Re.group 1 text found = B +:+ " " +:+ D +:+ ", " +:+ Y
        /\ word B /\ digits D /\ four_digits Y) ->
  date_rule_decides text (pattern, key, rule).
Proof.
  intros Hin Hrule Hshape. unfold date_rule_decides.
  unfold DocumentExtractor.on_match in Hrule.
  destruct (Re.search pattern text) as [found|]; [|exact Hrule].
  destruct (Hshape found eq_refl) as (B & D & Y & Hg & HB & HD & HY).
  destruct (four_digits_year Y HY) as (a & b & c & e & -> & Ha & Hb & Hc & He).
  exists B, D, a, b, c, e. split; [exact Hg|].
  repeat (split; [assumption|]).
  destruct (strptime_date B D a b c e HB HD Ha Hb Hc He) as (Hacc & Hinv).
  unfold DocumentExtractor.reformat_date in Hrule. rewrite Hg in Hrule.
  fold (date_text B D a b c e) in Hrule.
  destruct (PyDate.strptime (date_text B D a b c e)) as [dt|err] eqn:Ed.
  - left. destruct (Hinv dt eq_refl) as (Hy & Hn).
    exists (PyDate.month dt), (PyDate.day dt), (tail found). split; [exact Hn|].
    rewrite Hrule, !bind_ok_l. do 3 f_equal.
    destruct dt as [y m d]. cbn [PyDate.year PyDate.month PyDate.day] in *. subst y.
    now apply strftime_value.
  - right. split.
    + intros m d Hn. specialize (Hacc m d Hn). congruence.
    + exists err. assert (rule text = Raise err) as Hr by exact Hrule.
      split; [exact (strptime_raises_value_error _ _ Ed)|].
      split; [exact Hr|].
      pose proof (extract_all_raise rule text err Hin Hr) as Hall.
      split; [exact Hall|].
      intros fs s o <-. now apply process_document_raise.
Qed.

Ltac date_shape :=
  let found := fresh "found" in
  let E := fresh "E" in
  intros found E; rule_shape E;
  match goal with
  | Hg : forall i, Re.group (S i) _ _ = _ |- _ => rewrite Hg
  end;
  cbn [nth]; rewrite ?append_nil_l, ?append_assoc;
  match goal with
  | C1 : chunk (Re.CSet false [Re.CWord]) Re.QPlus ?B,
    C2 : chunk (Re.CSet false [Re.CDigit]) Re.QPlus ?D,
    C3 : chunk (Re.CSet false [Re.CDigit]) (Re.QRep 4) ?Y |- _ =>
      exists B, D, Y; split; [reflexivity|];
      split; [exact (word_chunk _ C1)|];
      split; [exact (digits_chunk _ C2)|exact (four_digits_chunk _ C3)]
  end.

(** C2 (amended): for every document text, each of the four date-bearing
    rules does one of three things. Without a match of its pattern it
    contributes nothing. With a match, the date it read is a word, a
    blank, digits, a comma and a blank, and four digits. When these name
    an existing date (the word is the English name of a month in whatever
    letter case, the digits are a day of that month in one or two digits,
    the year is not 0000), the rule emits the date record with the date
    as DD-Mon-YY: the day in two digits, the abbreviation of the month,
    the last two digits of the year (March 15, 1989 gives 15-Mar-89).
    When they do not, the rule raises [ValueError]; nothing catches it,
    so the extraction and [process_document] of every run over that text
    raise too. *)
Theorem date_rules_reformat_dates_of_the_grammar (text : string) :
  Forall (date_rule_decides text) date_rules
  /\ names_date "March" "15" "1" "9" "8" "9" 3 15
  /\ as_dd_mon_yy 3 15 "8" "9" = "15-Mar-89".
Proof.
  split; [|split; [|reflexivity]].
  2:{ unfold names_date, day_digits.
      change (year_value "1" "9" "8" "9") with 1989.
      change (PyDate.days_in_month 1989 3) with 31.
      split; [lia|]. split; [reflexivity|]. split; [now left|]. lia. }
  unfold date_rules.
  apply List.Forall_cons; [|apply List.Forall_cons; [|apply List.Forall_cons;
    [|apply List.Forall_cons; [|apply List.Forall_nil]]]].
  - apply (date_rule_decided text _ _ _ (fun _ => [])); [|reflexivity|date_shape].
    apply in_or_app. left. unfold DocumentExtractor.personal_rules. simpl. tauto.
  - apply (date_rule_decided text _ _ _ (fun m =>
      [Entry "Designation of first professional role"
             (PyStr.strip (Re.group 2 text m)) "";
       Entry "Salary of first professional role"
             (PyStr.replace "," "" (Re.group 3 text m)) "";
       Entry "Salary currency of first professional role" "INR" ""]));
      [|reflexivity|date_shape].
    apply in_or_app. right. unfold DocumentExtractor.professional_rules. simpl. tauto.
  - apply (date_rule_decided text _ _ _ (fun _ => [])); [|reflexivity|date_shape].
    apply in_or_app. right. unfold DocumentExtractor.professional_rules. simpl. tauto.
  - apply (date_rule_decided text _ _ _ (fun _ => [])); [|reflexivity|date_shape].
    apply in_or_app. right. unfold DocumentExtractor.professional_rules. simpl. tauto.
Qed.

(* ===================================================================== *)
(** ** Salaries *)
(* ===================================================================== *)

Lemma mem_digit_comma (a : ascii) :
  Re.mem (Re.CSet false [Re.CDigit; Re.CChar ","]) a = PyStr.is_digit a || Ascii.eqb a ",".
Proof. unfold Re.mem. simpl. now rewrite orb_false_r. Qed.

Lemma salary_chunk (q : Re.quant) (v : string) :
  chunk (Re.CSet false [Re.CDigit; Re.CChar ","]) q v ->
  all_chars PyStr.is_digit (PyStr.replace "," "" v) = true.
Proof.
  intros (H & _). apply replace_commas.
  now rewrite <- (all_chars_ext _ _ v mem_digit_comma).
Qed.

Lemma optional_char (a : ascii) (v : string) :
  chunk (Re.lit a) Re.QOpt v -> v = "" \/ v = String a "".
Proof.
  intros (H & Hn). destruct v as [|b [|c v]]; cbn in Hn; [now left| |lia].
  right. cbn [all_chars] in H. rewrite mem_lit, andb_true_r in H.
  apply Ascii.eqb_eq in H. now subst.
Qed.

Lemma reformat_date_cases (s : string) :
  (exists d, DocumentExtractor.reformat_date s = Ok d /\ dd_mon_yy d = true)
  \/ (exists e, DocumentExtractor.reformat_date s = Raise e /\ exn_cls e = ValueError).
Proof.
  unfold DocumentExtractor.reformat_date.
  destruct (PyDate.strptime s) as [dt|e] eqn:E.
  - left. exists (PyDate.strftime dt). split; [reflexivity|].
    apply strftime_shape. now destruct (strptime_inv _ _ E) as (_ & _ & H & _).
  - right. exists e. split; [reflexivity|]. exact (strptime_raises_value_error _ _ E).
Qed.

Lemma first_job_rule_cases (text : string) :
  DocumentExtractor.first_job_rule text = Ok []
  \/ (exists e, DocumentExtractor.first_job_rule text = Raise e /\ exn_cls e = ValueError)
  \/ exists d g s,
       DocumentExtractor.first_job_rule text
       = Ok [Entry "Joining Date of first professional role" d "";
             Entry "Designation of first professional role" g "";
             Entry "Salary of first professional role" s "";
             Entry "Salary currency of first professional role" "INR" ""]
       /\ dd_mon_yy d = true
       /\ lacks "w" g = true /\ trimmed g
       /\ all_chars PyStr.is_digit s = true.
Proof.
  unfold DocumentExtractor.first_job_rule, DocumentExtractor.on_match.
  open_rule E; [right|now left].
  destruct (reformat_date_cases (Re.group 1 text r)) as [(d & -> & Hd)|(e & -> & He)];
    [right|left; now exists e].
  rule_shape E. rewrite !Hg. cbn [nth]. rewrite ?append_nil_l.
  eexists _, _, _. split; [reflexivity|]. split; [exact Hd|].
  split; [|split; [apply strip_trimmed|exact (salary_chunk _ _ C3)]].
  apply strip_keeps. exact (lacks_chunk _ _ _ C2).
Qed.

Lemma current_sal_rule_cases (text : string) :
  DocumentExtractor.current_sal_rule text = Ok []
  \/ exists s c,
       DocumentExtractor.current_sal_rule text
       = Ok [Entry "Current Salary" s c; Entry "Current Salary Currency" "INR" ""]
       /\ all_chars PyStr.is_digit s = true
       /\ (c = "" \/ c = salary_progression "" \/ c = salary_progression " ").
Proof.
  unfold DocumentExtractor.current_sal_rule, DocumentExtractor.on_match.
  open_rule E; [right|now left].
  eexists _, _. split; [reflexivity|]. split.
  - rule_shape E. rewrite Hg. cbn [nth]. rewrite append_nil_l.
    exact (salary_chunk _ _ C).
  - clear E. unfold DocumentExtractor.context_or_empty.
    open_rule E; [right|now left].
    eapply search_shaped in E as (before & u & rest & gs & Ht & _ & -> & _ & E);
      [|vm_compute; reflexivity].
    read_shape E.
    change (Re.CSet false [Re.CChar " "]) with (Re.lit " ") in C.
    destruct (optional_char _ _ C) as [->| ->]; [left|right]; reflexivity.
Qed.

(* ===================================================================== *)
(** ** The blood group and its comment *)
(* ===================================================================== *)





(* ===================================================================== *)
(** ** Two rules on one phrase *)
(* ===================================================================== *)

Lemma append_same_length (a b a' b' : string) :
  a +:+ b = a' +:+ b' -> String.length a = String.length a' -> a = a' /\ b = b'.
Proof.
  revert a'. induction a as [|x a IH]; intros [|x' a'] H Hn; try discriminate Hn.
  - now rewrite !append_nil_l in H.
  - rewrite !append_cons in H. injection H as <- H. injection Hn as Hn.
    destruct (IH _ H Hn) as (-> & ->). auto.
Qed.

Lemma append_inv_head (l a b : string) : l +:+ a = l +:+ b -> a = b.
Proof. intros H. now destruct (append_same_length _ _ _ _ H eq_refl). Qed.

(** A text splits in one way only at the first occurrence of [x]. *)
Lemma split_at_first (x : ascii) (a r a' r' : string) :
  lacks x a = true -> lacks x a' = true ->
  a +:+ String x r = a' +:+ String x r' -> a = a' /\ r = r'.
Proof.
  unfold lacks. revert a'.
  induction a as [|c a IH]; intros [|c' a'] Ha Ha' H;
    rewrite ?append_nil_l, ?append_cons in H; cbn [all_chars] in Ha, Ha'.
  - injection H as <-. auto.
  - injection H as <- _. now rewrite Ascii.eqb_refl in Ha'.
  - injection H as -> _. now rewrite Ascii.eqb_refl in Ha.
  - injection H as <- H. apply andb_prop in Ha as (_ & Ha), Ha' as (_ & Ha').
    destruct (IH _ Ha Ha' H) as (-> & ->). auto.
Qed.

Lemma all_chars_impl (p q : ascii -> bool) (s : string) :
  (forall a, p a = true -> q a = true) -> all_chars p s = true -> all_chars q s = true.
Proof.
  intros Hpq. induction s as [|a s IH]; [reflexivity|].
  cbn [all_chars]. intros H. apply andb_prop in H as (Ha & H).
  now rewrite (Hpq a Ha), IH.
Qed.

Lemma word_lacks_comma (s : string) : all_chars PyStr.is_word s = true -> lacks "," s = true.
Proof.
  apply all_chars_impl. intros a.
  destruct a as [[] [] [] [] [] [] [] []]; vm_compute; congruence.
Qed.

Lemma digits_lack_comma (s : string) : all_chars PyStr.is_digit s = true -> lacks "," s = true.
Proof.
  apply all_chars_impl. intros a.
  destruct a as [[] [] [] [] [] [] [] []]; vm_compute; congruence.
Qed.

(** A month-and-day [w d] is free of commas. *)
Lemma month_day_lacks_comma (w d : string) :
  word w -> digits d -> lacks "," (w +:+ " " +:+ d) = true.
Proof.
  intros (_ & Hw) (_ & Hd). unfold lacks. rewrite !all_chars_app.
  fold (lacks "," w). fold (lacks "," d).
  now rewrite (word_lacks_comma _ Hw), (digits_lack_comma _ Hd).
Qed.

Lemma occurrences_after (sub before s : string) :
  PyStr.starts_with sub s = true -> 1 <= occurrences sub (before +:+ s).
Proof.
  intros H. induction before as [|c before IH].
  - rewrite append_nil_l. destruct s; cbn [occurrences]; rewrite H; lia.
  - rewrite append_cons. cbn [occurrences]. lia.
Qed.

(** Two places at which [sub] occurs. *)
Lemma occurrences_twice (sub b1 s1 b2 s2 : string) :
  b1 +:+ s1 = b2 +:+ s2 -> String.length b1 < String.length b2 ->
  PyStr.starts_with sub s1 = true -> PyStr.starts_with sub s2 = true ->
  2 <= occurrences sub (b1 +:+ s1).
Proof.
  revert b2. induction b1 as [|c b1 IH]; intros [|c2 b2] E Hn H1 H2;
    cbn [String.length] in Hn; try lia.
  - rewrite append_nil_l in *. rewrite E, append_cons. cbn [occurrences].
    rewrite <- append_cons, <- E, H1.
    pose proof (occurrences_after sub b2 s2 H2). lia.
  - rewrite !append_cons in *. injection E as <- E. cbn [occurrences].
    specialize (IH b2 E ltac:(lia) H1 H2). lia.
Qed.

Lemma starts_with_append (l s : string) : PyStr.starts_with l (l +:+ s) = true.
Proof.
  induction l as [|a l IH]; [reflexivity|].
  rewrite append_cons. cbn [PyStr.starts_with]. now rewrite Ascii.eqb_refl.
Qed.

Lemma four_digits_head (y s : string) (a : ascii) (s' : string) :
  four_digits y -> y +:+ s = String a s' -> PyStr.is_digit a = true.
Proof.
  intros (Hn & Hd) E. destruct y as [|b y]; [discriminate Hn|].
  rewrite append_cons in E. injection E as <- _.
  cbn [all_chars] in Hd. now apply andb_prop in Hd as (Hd & _).
Qed.

(** Two matches at different places of a phrase that starts with [sub]. *)
Lemma two_phrases (sub text b1 t1 b2 t2 : string) :
  text = b1 +:+ sub +:+ t1 -> text = b2 +:+ sub +:+ t2 ->
  String.length b1 <> String.length b2 ->
  2 <= occurrences sub text.
Proof.
  intros E1 E2 Hn.
  destruct (Nat.lt_ge_cases (String.length b1) (String.length b2)) as [Hlt|Hge].
  - rewrite E1. apply (occurrences_twice sub b1 _ b2 (sub +:+ t2));
      [congruence|exact Hlt|apply starts_with_append..].
  - rewrite E2. apply (occurrences_twice sub b2 _ b1 (sub +:+ t1));
      [congruence|lia|apply starts_with_append..].
Qed.

(** The date-of-birth pattern and the birth-place pattern do not match at
    the same place: after [born on], the first comma is followed by the
    year for the one and by [in] for the other. *)
Lemma birth_patterns_apart (text : string) (m1 m2 : Re.rmatch) :
  Re.search "born on (\w+ \d+, \d{4})" text = Some m1 ->
  Re.search "born on [^,]+, in (\w+), (\w+)" text = Some m2 ->
  2 <= occurrences "born on " text.
Proof.
  intros E1 E2.
  eapply search_shaped in E1 as (b1 & u1 & r1 & gs1 & Ht1 & _ & _ & _ & E1);
    [|vm_compute; reflexivity].
  eapply search_shaped in E2 as (b2 & u2 & r2 & gs2 & Ht2 & _ & _ & _ & E2);
    [|vm_compute; reflexivity].
  read_shape E1. read_shape E2.
  rewrite !append_assoc in Ht1, Ht2.
  destruct (Nat.eq_dec (String.length b1) (String.length b2)) as [Hn|Hn];
    [exfalso|exact (two_phrases _ _ _ _ _ _ Ht1 Ht2 Hn)].
  rewrite Ht1 in Ht2. apply append_same_length in Ht2 as (_ & Ht2); [|exact Hn].
  apply append_inv_head in Ht2.
  assert ((v +:+ " " +:+ v0) +:+ String "," (" " +:+ v1 +:+ "" +:+ r1)
          = v2 +:+ String "," (" in " +:+ v3 +:+ ", " +:+ v4 +:+ "" +:+ r2)) as H
    by (rewrite !append_assoc; exact Ht2).
  apply split_at_first in H as (_ & H);
    [|exact (month_day_lacks_comma _ _ (word_chunk _ C) (digits_chunk _ C0))
     |exact (lacks_chunk _ _ _ C2)].
  apply (append_inv_head " ") in H.
  pose proof (four_digits_head _ _ _ _ (four_digits_chunk _ C1) H) as Hd.
  discriminate Hd.
Qed.

(** So it is with the two patterns that read the previous job: after
    [from], the first comma is followed by the year for the one and by
    [to] for the other. *)
Lemma previous_patterns_apart (text : string) (m1 m2 : Re.rmatch) :
  Re.search "from (\w+ \d+, \d{4}), to" text = Some m1 ->
  Re.search "from [^,]+, to (\d{4})" text = Some m2 ->
  2 <= occurrences "from " text.
Proof.
  intros E1 E2.
  eapply search_shaped in E1 as (b1 & u1 & r1 & gs1 & Ht1 & _ & _ & _ & E1);
    [|vm_compute; reflexivity].
  eapply search_shaped in E2 as (b2 & u2 & r2 & gs2 & Ht2 & _ & _ & _ & E2);
    [|vm_compute; reflexivity].
  read_shape E1. read_shape E2.
  rewrite !append_assoc in Ht1, Ht2.
  destruct (Nat.eq_dec (String.length b1) (String.length b2)) as [Hn|Hn];
    [exfalso|exact (two_phrases _ _ _ _ _ _ Ht1 Ht2 Hn)].
  rewrite Ht1 in Ht2. apply append_same_length in Ht2 as (_ & Ht2); [|exact Hn].
  apply append_inv_head in Ht2.
  assert ((v +:+ " " +:+ v0) +:+ String "," (" " +:+ v1 +:+ ", to" +:+ "" +:+ r1)
          = v2 +:+ String "," (" to " +:+ v3 +:+ "" +:+ r2)) as H
    by (rewrite !append_assoc in Ht2 |- *; exact Ht2).
  apply split_at_first in H as (_ & H);
    [|exact (month_day_lacks_comma _ _ (word_chunk _ C) (digits_chunk _ C0))
     |exact (lacks_chunk _ _ _ C2)].
  apply (append_inv_head " ") in H.
  pose proof (four_digits_head _ _ _ _ (four_digits_chunk _ C1) H) as Hd.
  discriminate Hd.
Qed.

(* ===================================================================== *)
(** ** Certifications *)
(* ===================================================================== *)



(* ===================================================================== *)
(** ** Which rules can fail *)
(* ===================================================================== *)

Lemma name_rule_total (text : string) :
  exists found, DocumentExtractor.name_rule text = Ok found.
Proof.
  destruct (name_rule_cases text) as [->|(b & f & g1 & l & g2 & r & -> & _)]; eauto.
Qed.

(** A rule that neither parses a date nor indexes a list returns. *)
Lemma plain_rules_total (rule : string -> result (list entry)) (text : string) :
  In rule plain_rules -> exists found, rule text = Ok found.
Proof.
  unfold plain_rules, DocumentExtractor.education_rules. cbn [app In].
  intros H. destruct H as [<-|H]; [apply name_rule_total|].
  repeat (destruct H as [<-|H];
    [match goal with
     | |- exists found, ?rule text = Ok found =>
         let h := eval cbv delta [DocumentExtractor.birth_rule DocumentExtractor.age_rule
           DocumentExtractor.blood_rule DocumentExtractor.nationality_rule
           DocumentExtractor.current_org_rule DocumentExtractor.current_desig_rule
           DocumentExtractor.current_sal_rule DocumentExtractor.prev_org_rule
           DocumentExtractor.prev_end_rule DocumentExtractor.prev_desig_rule
           DocumentExtractor.hs_rule DocumentExtractor.year_12_rule
           DocumentExtractor.score_12_rule DocumentExtractor.ug_degree_rule
           DocumentExtractor.ug_college_rule DocumentExtractor.ug_year_rule
           DocumentExtractor.ug_cgpa_rule DocumentExtractor.grad_degree_rule
           DocumentExtractor.grad_college_rule DocumentExtractor.grad_year_rule
           DocumentExtractor.grad_cgpa_rule DocumentExtractor.pmp_rule
           DocumentExtractor.safe_rule] in rule in
         change rule with h; cbv beta; unfold DocumentExtractor.on_match;
         match goal with
         | |- context [match Re.search ?p text with _ => _ end] =>
             destruct (Re.search p text); eauto
         end
     end|]).
  destruct H.
Qed.

Lemma first_raise_app {A} (a b : list (result A)) :
  first_raise (a ++ b)
  = match first_raise a with Some e => Some e | None => first_raise b end.
Proof.
  induction a as [|[x|e] a IH]; cbn [app first_raise]; auto.
Qed.

(** [run_rules] raises what the first rule that raises does. *)
Lemma run_rules_first_raise (rules : list (string -> result (list entry)))
    (text : string) :
  first_raise (map (fun rule => rule text) rules)
  = match DocumentExtractor.run_rules rules text with
    | Ok _ => None
    | Raise e => Some e
    end.
Proof.
  induction rules as [|rule rules IH]; [reflexivity|].
  cbn [map first_raise DocumentExtractor.run_rules].
  destruct (rule text) as [found|e]; [|reflexivity].
  rewrite bind_ok_l, IH.
  destruct (DocumentExtractor.run_rules rules text); reflexivity.
Qed.

Lemma extract_all_first_raise (text : string) :
  first_raise (map (fun rule => rule text) rules_in_order)
  = match DocumentExtractor.extract_all text with
    | Ok _ => None
    | Raise e => Some e
    end.
Proof.
  unfold rules_in_order. rewrite !map_app, !first_raise_app, !run_rules_first_raise.
  unfold DocumentExtractor.extract_all, DocumentExtractor.extract_personal_info,
    DocumentExtractor.extract_professional_info, DocumentExtractor.extract_education_info,
    DocumentExtractor.extract_certifications, DocumentExtractor.extract_technical_proficiency.
  destruct (DocumentExtractor.run_rules DocumentExtractor.personal_rules text);
    [rewrite bind_ok_l|reflexivity].
  destruct (DocumentExtractor.run_rules DocumentExtractor.professional_rules text);
    [rewrite bind_ok_l|reflexivity].
  destruct (DocumentExtractor.run_rules DocumentExtractor.education_rules text);
    [rewrite bind_ok_l|reflexivity].
  destruct (DocumentExtractor.run_rules _ text); reflexivity.
Qed.

(** Among all the rules, the first exception is that of a date rule. *)
Lemma first_raise_is_a_date (text : string) :
  first_raise (map (fun rule => rule text) rules_in_order)
  = first_raise (map (fun r => r.2 text) date_rules).
Proof.
  assert (forall rule rs, In rule plain_rules ->
            first_raise (rule text :: rs) = first_raise rs) as Hskip.
  { intros rule rs Hin. destruct (plain_rules_total rule text Hin) as (found & ->).
    reflexivity. }
  assert (forall (r : result (list entry)) rs rs',
            first_raise rs = first_raise rs' ->
            first_raise (r :: rs) = first_raise (r :: rs')) as Hkeep.
  { intros [x|e] rs rs' H; [exact H|reflexivity]. }
  unfold rules_in_order, date_rules, DocumentExtractor.personal_rules,
    DocumentExtractor.professional_rules, DocumentExtractor.education_rules.
  cbn [map app snd].
  repeat first
    [ apply Hkeep
    | rewrite Hskip by (unfold plain_rules, DocumentExtractor.education_rules;
                        cbn [app In]; tauto) ].
  reflexivity.
Qed.

(* ===================================================================== *)
(** ** The keys of the table *)
(* ===================================================================== *)

Lemma rule_keys_kept : Forall keeps_keys rule_keys.
Proof.
  unfold rule_keys.
  repeat (apply List.Forall_cons;
    [unfold keeps_keys; cbn [fst snd]; intros text found;
     match goal with
     | |- ?rule text = _ -> _ =>
         let h := eval cbv delta [DocumentExtractor.name_rule DocumentExtractor.dob_rule
           DocumentExtractor.first_job_rule DocumentExtractor.current_join_rule
           DocumentExtractor.prev_join_rule
           DocumentExtractor.birth_rule DocumentExtractor.age_rule
           DocumentExtractor.blood_rule DocumentExtractor.nationality_rule
           DocumentExtractor.current_org_rule DocumentExtractor.current_desig_rule
           DocumentExtractor.current_sal_rule DocumentExtractor.prev_org_rule
           DocumentExtractor.prev_end_rule DocumentExtractor.prev_desig_rule
           DocumentExtractor.hs_rule DocumentExtractor.year_12_rule
           DocumentExtractor.score_12_rule DocumentExtractor.ug_degree_rule
           DocumentExtractor.ug_college_rule DocumentExtractor.ug_year_rule
           DocumentExtractor.ug_cgpa_rule DocumentExtractor.grad_degree_rule
           DocumentExtractor.grad_college_rule DocumentExtractor.grad_year_rule
           DocumentExtractor.grad_cgpa_rule DocumentExtractor.pmp_rule
           DocumentExtractor.safe_rule] in rule in
         change rule with h; cbv beta; unfold DocumentExtractor.on_match
     end;
     match goal with
     | |- context [match Re.search ?p text with _ => _ end] =>
         destruct (Re.search p text); [|intros [= <-]; now left]
     end;
     intros H; repeat (apply bind_ok in H as (? & _ & H));
     injection H as <-; now right|]).
  apply List.Forall_nil.
Qed.

(** The keys of what a list of rules emits, in the order of the rules. *)
Lemma run_rules_keys (rk : list ((string -> result (list entry)) * list string))
    (text : string) (data : list entry) :
  Forall keeps_keys rk ->
  DocumentExtractor.run_rules (map fst rk) text = Ok data ->
  sublist (map key data) (concat (map snd rk)).
Proof.
  intros Hk. revert data. induction Hk as [|[rule ks] rk Hr Hk IH]; intros data H.
  - injection H as <-. constructor.
  - cbn [map fst DocumentExtractor.run_rules] in H.
    apply bind_ok in H as (found & Hf & H). apply bind_ok in H as (more & Hm & H).
    injection H as <-. rewrite map_app. cbn [map snd concat].
    apply sublist_app; [|exact (IH _ Hm)].
    destruct (Hr text found Hf) as [->| ->]; [apply sublist_nil_l|reflexivity].
Qed.

Lemma table_keys_distinct : NoDup table_keys.
Proof. apply (bool_decide_unpack (NoDup table_keys)). vm_compute. reflexivity. Qed.

Lemma extract_all_keys (text : string) (data : list entry) :
  DocumentExtractor.extract_all text = Ok data ->
  sublist (map key data) table_keys
  /\ sublist (map key fixed_entries) (map key data).
Proof.
  unfold DocumentExtractor.extract_all, DocumentExtractor.extract_personal_info,
    DocumentExtractor.extract_professional_info, DocumentExtractor.extract_education_info,
    DocumentExtractor.extract_certifications, DocumentExtractor.extract_technical_proficiency.
  intros H.
  apply bind_ok in H as (personal & Hp & H).
  apply bind_ok in H as (professional & Hq & H).
  apply bind_ok in H as (education & He & H).
  apply bind_ok in H as (cert & Hc & H).
  apply bind_ok in Hc as (found & Hf & Hc).
  injection Hc as <-. rewrite bind_ok_l in H. injection H as <-.
  pose proof rule_keys_kept as Hk.
  change rule_keys with (take 6 rule_keys ++ take 9 (drop 6 rule_keys)
                           ++ take 11 (drop 15 rule_keys) ++ drop 26 rule_keys) in Hk.
  apply Forall_app in Hk as (K1 & Hk). apply Forall_app in Hk as (K2 & Hk).
  apply Forall_app in Hk as (K3 & K4).
  apply (run_rules_keys _ _ _ K1) in Hp. apply (run_rules_keys _ _ _ K2) in Hq.
  apply (run_rules_keys _ _ _ K3) in He. apply (run_rules_keys _ _ _ K4) in Hf.
  split.
  - change table_keys with
      (concat (map snd (take 6 rule_keys))
       ++ concat (map snd (take 9 (drop 6 rule_keys)))
       ++ concat (map snd (take 11 (drop 15 rule_keys)))
       ++ "Certifications 1" :: "Certifications 2"
          :: (concat (map snd (drop 26 rule_keys)) ++ ["Technical Proficiency"])).
    rewrite !map_app. do 3 (apply sublist_app; [assumption|]).
    cbn [map key]. do 2 apply sublist_skip. rewrite map_app.
    apply sublist_app; [assumption|reflexivity].
  - rewrite !map_app. do 3 apply sublist_inserts_l.
    cbn [map key]. do 2 apply sublist_skip. rewrite map_app.
    apply sublist_inserts_l. reflexivity.
Qed.

(* ===================================================================== *)
(** ** Further properties of the pattern rules *)
(* ===================================================================== *)

Lemma date_rule_raises (text : string) (e : exn) :
  first_raise (map (fun r => r.2 text) date_rules) = Some e -> exn_cls e = ValueError.
Proof.
  assert (forall pattern (tail : Re.rmatch -> string -> list entry),
            DocumentExtractor.on_match pattern text (fun m =>
              d ← DocumentExtractor.reformat_date (Re.group 1 text m); Ok (tail m d))
            = Raise e -> exn_cls e = ValueError) as Hrule.
  { intros pattern tail. unfold DocumentExtractor.on_match.
    destruct (Re.search pattern text) as [m|]; [|discriminate].
    destruct (reformat_date_cases (Re.group 1 text m)) as [(d & -> & _)|(e' & -> & He)];
      [discriminate|]. now intros [= <-]. }
  unfold date_rules. cbn [map snd first_raise].
  destruct (DocumentExtractor.dob_rule text) eqn:E1;
    [|intros [= <-]; exact (Hrule _ (fun _ d => [Entry "Date of Birth" d ""]) E1)].
  destruct (DocumentExtractor.first_job_rule text) eqn:E2;
    [|intros [= <-];
      exact (Hrule _ (fun m d =>
        [Entry "Joining Date of first professional role" d "";
         Entry "Designation of first professional role"
               (PyStr.strip (Re.group 2 text m)) "";
         Entry "Salary of first professional role"
               (PyStr.replace "," "" (Re.group 3 text m)) "";
         Entry "Salary currency of first professional role" "INR" ""]) E2)].
  destruct (DocumentExtractor.current_join_rule text) eqn:E3;
    [|intros [= <-]; exact (Hrule _ (fun _ d => [Entry "Current Joining Date" d ""]) E3)].
  destruct (DocumentExtractor.prev_join_rule text) eqn:E4;
    [discriminate
    |intros [= <-]; exact (Hrule _ (fun _ d => [Entry "Previous Joining Date" d ""]) E4)].
Qed.

(** X4: the name rule of [extract_personal_info] never fails on its list
    index. Either it finds no match and emits nothing, or the text holds
    two words, whitespace between them and whitespace after them, in front
    of [was born]; the rule then emits the first word as First Name and
    the second as Last Name, so neither value is empty and the branch that
    would leave Last Name empty is never taken. *)
Theorem name_rule_reads_two_words (text : string) :
  DocumentExtractor.name_rule text = Ok []
  \/ exists before first gap1 last gap2 rest,
       text = before +:+ first +:+ gap1 +:+ last +:+ gap2 +:+ "was born" +:+ rest
       /\ word first /\ blank gap1 /\ word last /\ blank gap2
       /\ DocumentExtractor.name_rule text
          = Ok [Entry "First Name" first ""; Entry "Last Name" last ""].
Proof.
  destruct (name_rule_cases text)
    as [H|(before & first & gap1 & last & gap2 & rest & H & Ht & W1 & B1 & W2 & B2)];
    [now left|right].
  exists before, first, gap1, last, gap2, rest. auto 10.
Qed.

(** X5: the salary values hold digits only: the commas the pattern lets
    through are removed. The first-job rule emits nothing, or raises the
    [ValueError] of the date, or emits its four records in order: the
    date as DD-Mon-YY, the stripped designation, which has no [w], the
    salary, and the currency INR. The current-salary rule emits nothing,
    or the salary and the currency INR; the comment of the salary is
    empty or the sentence on the salary progression as the text has it. *)
Theorem salary_values_are_digits (text : string) :
  (DocumentExtractor.first_job_rule text = Ok []
   \/ (exists e, DocumentExtractor.first_job_rule text = Raise e
                 /\ exn_cls e = ValueError)
   \/ exists d g s,
        DocumentExtractor.first_job_rule text
        = Ok [Entry "Joining Date of first professional role" d "";
              Entry "Designation of first professional role" g "";
              Entry "Salary of first professional role" s "";
              Entry "Salary currency of first professional role" "INR" ""]
        /\ dd_mon_yy d = true
        /\ lacks "w" g = true /\ trimmed g
        /\ all_chars PyStr.is_digit s = true)
  /\ (DocumentExtractor.current_sal_rule text = Ok []
      \/ exists s c,
           DocumentExtractor.current_sal_rule text
           = Ok [Entry "Current Salary" s c; Entry "Current Salary Currency" "INR" ""]
           /\ all_chars PyStr.is_digit s = true
           /\ (c = "" \/ c = salary_progression "" \/ c = salary_progression " ")).
Proof. split; [apply first_job_rule_cases|apply current_sal_rule_cases]. Qed.

(** X6: the date-of-birth rule and the birth-place rule never read the
    same [born on] phrase, so a text with one such phrase gives a date of
    birth or a birth place, never both; the same holds of the rules for
    the previous joining date and the previous end year and the phrases
    that start with [from]. *)
Theorem one_phrase_feeds_one_rule (text : string) :
  (occurrences "born on " text <= 1 ->
   DocumentExtractor.dob_rule text = Ok [] \/ DocumentExtractor.birth_rule text = Ok [])
  /\ (occurrences "from " text <= 1 ->
      DocumentExtractor.prev_join_rule text = Ok []
      \/ DocumentExtractor.prev_end_rule text = Ok []).
Proof.
  split; intros Hn.
  - unfold DocumentExtractor.dob_rule, DocumentExtractor.birth_rule,
      DocumentExtractor.on_match.
    destruct (Re.search "born on (\w+ \d+, \d{4})" text) as [m1|] eqn:E1; [|now left].
    destruct (Re.search "born on [^,]+, in (\w+), (\w+)" text) as [m2|] eqn:E2;
      [|now right].
    pose proof (birth_patterns_apart text m1 m2 E1 E2). lia.
  - unfold DocumentExtractor.prev_join_rule, DocumentExtractor.prev_end_rule,
      DocumentExtractor.on_match.
    destruct (Re.search "from (\w+ \d+, \d{4}), to" text) as [m1|] eqn:E1; [|now left].
    destruct (Re.search "from [^,]+, to (\d{4})" text) as [m2|] eqn:E2; [|now right].
    pose proof (previous_patterns_apart text m1 m2 E1 E2). lia.
Qed.


(** X8: the only rules of [document_extractor.py] that can fail are the
    four that parse a date: the other 24 rules return on every text.
    [extract_all] raises exactly when one of the four does, and then it
    raises the exception of the first of them in source order, a
    [ValueError]; the same holds of [process_document], which on every
    other text returns a table. *)
Theorem pattern_extraction_fails_only_on_a_date (text : string) :
  Forall (fun rule => is_ok (rule text) = true) plain_rules
  /\ first_raise (map (fun r => r.2 text) date_rules)
     = match DocumentExtractor.extract_all text with
       | Ok _ => None
       | Raise e => Some e
       end
  /\ (forall e, DocumentExtractor.extract_all text = Raise e -> exn_cls e = ValueError)
  /\ (forall fs s o,
        text_read fs s o = text ->
        match (DocumentExtractor.process_document fs s o).1.1 with
        | Ok _ => is_ok (DocumentExtractor.extract_all text) = true
        | Raise e => DocumentExtractor.extract_all text = Raise e
        end).
Proof.
  assert (first_raise (map (fun r => r.2 text) date_rules)
          = match DocumentExtractor.extract_all text with
            | Ok _ => None
            | Raise e => Some e
            end) as H
    by (rewrite <- first_raise_is_a_date; apply extract_all_first_raise).
  split.
  { apply List.Forall_forall. intros rule Hin.
    now destruct (plain_rules_total rule text Hin) as (found & ->). }
  split; [exact H|]. split.
  - intros e He. rewrite He in H. exact (date_rule_raises text e H).
  - intros fs s o Ht. unfold text_read in Ht. unfold DocumentExtractor.process_document.
    destruct (DocumentExtractor.extract_text_from_pdf fs s o) as [[t s1] o1].
    cbn [fst snd] in *. rewrite Ht.
    destruct (DocumentExtractor.extract_all text) as [data|e] eqn:E; [|reflexivity].
    rewrite bind_ok_l. apply pattern_extractor_never_empty in E.
    destruct data as [|x data]; [congruence|]. rewrite pattern_table_cons. reflexivity.
Qed.

(** X9: the records of a run of [document_extractor.py] follow the fixed
    list of 37 keys: their keys are a selection of that list in its order,
    so no key occurs twice; the three fixed records are always among
    them; and there are between 3 and 37 records. *)
Theorem pattern_records_follow_the_key_list (text : string) (data : list entry) :
  DocumentExtractor.extract_all text = Ok data ->
  sublist (map key data) table_keys
  /\ NoDup (map key data)
  /\ sublist (map key fixed_entries) (map key data)
  /\ 3 <= length data <= 37.
Proof.
  intros H. destruct (extract_all_keys text data H) as (H1 & H2).
  split; [exact H1|]. split; [exact (sublist_NoDup _ _ table_keys_distinct H1)|].
  split; [exact H2|].
  apply sublist_length in H1, H2.
  rewrite List.length_map in H1. rewrite !List.length_map in H2.
  change (length fixed_entries) with 3 in H2. change (length table_keys) with 37 in H1.
  split; assumption.
Qed.

(** The hypothesis of [pattern_records_follow_the_key_list] holds for the
    example sentence, which gives six records. *)
Lemma pattern_records_follow_the_key_list_witness :
  let data :=
    [Entry "First Name" "Vijay" ""; Entry "Last Name" "Kumar" "";
     Entry "Date of Birth" "15-Mar-89" "";
     Entry "Certifications 1" "AWS Solutions Architect" DocumentExtractor.cert_context;
     Entry "Certifications 2" "Azure Data Engineer" DocumentExtractor.cert_context;
     Entry "Technical Proficiency" "" DocumentExtractor.proficiency_context] in
  DocumentExtractor.extract_all vijay_sentence = Ok data
  /\ NoDup (map key data).
Proof.
  intros data.
  assert (DocumentExtractor.extract_all vijay_sentence = Ok data) as H
    by (vm_compute; reflexivity).
  split; [exact H|].
  exact (proj1 (proj2 (pattern_records_follow_the_key_list vijay_sentence data H))).
Defined.

(* ===================================================================== *)
(** ** Scores, and the other personal details *)
(* ===================================================================== *)






(* ===================================================================== *)
(** ** The page script *)
(* ===================================================================== *)

(** While the flag is not set, the extraction block does nothing. *)
Lemma run_block_idle (svc : service) (ss : App.session) (o : App.out) :
  App.run_extraction ss <> Some true -> App.run_block svc ss o = (ss, o).
Proof.
  unfold App.run_block. destruct (App.run_extraction ss) as [[]|]; congruence.
Qed.

Lemma read_keeps_calls (s : App.self) (o : App.out) :
  App.calls (App.extract_text_from_pdf s o).2 = App.calls o
  /\ App.cache (App.extract_text_from_pdf s o).2 = App.cache o
  /\ App.use_ai (App.extract_text_from_pdf s o).1.2 = App.use_ai s
  /\ App.uploaded_file (App.extract_text_from_pdf s o).1.2 = App.uploaded_file s.
Proof.
  unfold App.extract_text_from_pdf. destruct (App.uploaded_file s) as [file|] eqn:E;
    [|cbn; auto].
  destruct (App.read_pdf file); cbn; auto.
Qed.




Lemma joined_pages_nonempty (texts : list string) :
  App.nonempty (pages_joined texts) = negb (Nat.eqb (pages_with_text texts) 0).
Proof.
  induction texts as [|t texts IH]; [reflexivity|].
  destruct t as [|c t]; [exact IH|]. reflexivity.
Qed.

(** Without a key and while the flag is not set, a run of the script
    calls nothing. *)
Lemma script_without_key (api_key : option string) (svc : service) (ev : event)
    (ss : App.session) (o : App.out) :
  App.check_api_key api_key = false -> App.run_extraction ss <> Some true ->
  App.calls (script api_key svc ev ss o).1.2 = App.calls o.
Proof.
  intros Hkey Hrun. unfold script, main_area, App.page_top. rewrite Hkey. cbn [negb].
  destruct (ev_button ev).
  - rewrite run_block_idle by exact Hrun. reflexivity.
  - unfold App.click_extract, extract_stops. cbn [App.pdf_uploader App.use_ai_checkbox].
    rewrite Hkey. cbn [negb andb].
    destruct (ev_file ev) as [file|]; [|reflexivity].
    destruct (ev_use_ai ev) eqn:Hai; [reflexivity|].
    unfold App.run_block. cbn [App.run_extraction App.pdf_uploader App.use_ai_checkbox].
    unfold App.process_document.
    pose proof (read_keeps_calls (App.init (Some file) false)
                  (App.show (App.StError "**GEMINI_API_KEY not found!** Please create a `.env` file with your key or set it as an environment variable to run the extraction.") o))
      as (Hc & _ & Hu & Hf).
    destruct (App.extract_text_from_pdf _ _) as [[[t|e] s1] o1]; cbn [fst snd] in *.
    + rewrite Hu. cbn. exact Hc.
    + exact Hc.
  - cbn. reflexivity.
Qed.

(** X13: the key is checked where [Extract Data] is clicked, and nowhere
    else. While the environment holds no key (unset or empty), a run of
    the script that finds the flag [run_extraction] unset creates no
    client and sends no request, whatever is uploaded, ticked and
    clicked: with the model ticked [Extract Data] stops at the error, and
    with the model unticked the run extracts nothing. But a run that
    finds the flag set (a run before was stopped or cut short after the
    flag was set) passes no check: with no button clicked, the model
    ticked, a readable PDF with text and nothing cached, it creates the
    client although no key is there. *)
Theorem form_key_is_checked_at_the_click (api_key : option string) (svc : service)
    (Hkey : App.check_api_key api_key = false) :
  (forall ev ss o,
      App.run_extraction ss <> Some true ->
      App.calls (script api_key svc ev ss o).1.2 = App.calls o)
  /\ (forall texts ss o,
        App.run_extraction ss = Some true ->
        pages_with_text texts <> 0 ->
        App.cache o !! [] = None ->
        exists more,
          App.calls
            (script api_key svc
               (Event (Some (Pages (map PageText texts))) true NoButton) ss o).1.2
          = App.calls o ++ ClientCreated :: more).
Proof.
  split; [intros ev ss o Hrun; now apply script_without_key|].
  intros texts ss o Hrun Htext Hmiss.
  assert (App.nonempty (pages_joined texts) = true) as Hne.
  { rewrite joined_pages_nonempty.
    destruct (pages_with_text texts); [congruence|reflexivity]. }
  unfold script, main_area, App.page_top. rewrite Hkey. cbn [negb ev_button ev_file ev_use_ai].
  unfold App.run_block. cbn [App.run_extraction App.pdf_uploader App.use_ai_checkbox].
  rewrite Hrun. unfold App.process_document.
  destruct (model_backed_readers_join_pages texts) as (_ & Hread).
  rewrite Hread. cbn [App.use_ai App.text_content]. rewrite Hne. cbn [andb].
  unfold App.extract_with_gemini. rewrite cache_key_is_constant.
  unfold App.show. cbn [App.cache]. rewrite Hmiss.
  unfold App.extract_with_gemini_body.
  destruct (new_client svc) as [[]|e].
  - destruct (_ ≫= _) as [answer|e];
      destruct (App.table_of svc _) as [df|e']; try destruct (negb (Pandas.empty df));
      cbn; eexists; reflexivity.
  - destruct (App.table_of svc _) as [df|e']; try destruct (negb (Pandas.empty df));
      cbn; eexists; reflexivity.
Qed.

(** The hypothesis of [form_key_is_checked_at_the_click] holds for an
    unset key; the user uploads a file and clicks with the model ticked. *)
Lemma form_key_is_checked_at_the_click_witness :
  App.check_api_key None = false
  /\ App.calls
       (script None echo_service
          (Event (Some (Pages [PageText "text"])) true ExtractData)
          new_session (App.Out [] [] ∅)).1.2 = [].
Proof.
  split; [reflexivity|].
  exact (proj1 (form_key_is_checked_at_the_click None echo_service eq_refl)
           (Event (Some (Pages [PageText "text"])) true ExtractData)
           new_session (App.Out [] [] ∅) ltac:(discriminate)).
Defined.

(** X14: with the model unticked, [Extract Data] extracts nothing: the
    run calls nothing, shows the warning that no data could be extracted,
    and leaves in the session the table it found there. A table extracted
    before stays on the page, with its download, although the run was for
    the file now uploaded. *)
Theorem unticked_model_keeps_the_old_table (api_key : option string) (svc : service)
    (file : pdf) (ss : App.session) (o : App.out) :
  let run := script api_key svc (Event (Some file) false ExtractData) ss o in
  App.extracted_df run.1.1 = App.extracted_df ss
  /\ App.calls run.1.2 = App.calls o
  /\ last (App.shown run.1.2)
     = Some (App.StWarning "No structured data could be extracted by the AI model. Check the console for details.")
  /\ run.2 = Drawn (display run.1.1)
  /\ forall df, App.extracted_df ss = Some df -> Pandas.empty df = false ->
       exists panel,
         run.2 = Drawn (Some (Results df (Workbook "Extracted Data" df [] []) panel)).
Proof.
  cbv zeta. unfold script, main_area, App.click_extract, extract_stops.
  cbn [ev_file ev_use_ai ev_button App.pdf_uploader App.use_ai_checkbox andb].
  rewrite andb_false_r.
  unfold App.run_block. cbn [App.run_extraction App.pdf_uploader App.use_ai_checkbox].
  unfold App.process_document.
  pose proof (read_keeps_calls (App.init (Some file) false) (App.page_top api_key o))
    as (Hc & _ & Hu & Hf).
  assert (App.calls (App.page_top api_key o) = App.calls o) as Hp
    by (unfold App.page_top; destruct (negb _); reflexivity).
  cbn [App.init App.uploaded_file] in Hf.
  unfold App.extract_text_from_pdf in *. cbn [App.init App.uploaded_file] in *.
  destruct (App.read_pdf file) as [t|e]; cbn [fst snd App.use_ai] in *; cbn.
  - rewrite last_snoc. repeat split; try congruence.
    intros df -> Hne. unfold display. cbn. rewrite Hne. cbn. eauto.
  - rewrite last_snoc. repeat split; try congruence.
    intros df -> Hne. unfold display. cbn. rewrite Hne. cbn. eauto.
Qed.



(** X16: [Clear Results] empties the session and the cache and draws the
    page without results. The extraction that follows is made for the
    document at hand: nothing is cached, so the records are those the
    body of the extractor returns for the text of that document. *)
Theorem clear_results_starts_afresh (api_key : option string) (svc : service)
    (file : option pdf) (ai : bool) (ss : App.session) (o : App.out) :
  let cleared := script api_key svc (Event file ai ClearResults) ss o in
  cleared.1.1 = App.Session file ai None None None
  /\ App.cache cleared.1.2 = ∅
  /\ App.calls cleared.1.2 = App.calls o
  /\ cleared.2 = Drawn None
  /\ forall s, (App.extract_with_gemini svc s cleared.1.2).1
               = (App.extract_with_gemini_body svc s).1.1.
Proof.
  cbv zeta. unfold script, main_area.
  cbn [ev_file ev_use_ai ev_button App.click_clear].
  rewrite run_block_idle by discriminate. cbn [fst snd].
  assert (forall o', App.cache (App.page_top api_key o') = App.cache o'
                     /\ App.calls (App.page_top api_key o') = App.calls o') as Hp.
  { intros o'. unfold App.page_top. destruct (negb _); split; reflexivity. }
  destruct (Hp (App.Out (App.shown (App.page_top api_key o))
                        (App.calls (App.page_top api_key o)) ∅)) as (Hc1 & Hc2).
  destruct (Hp o) as (_ & Hc3).
  repeat split; try assumption.
  - rewrite Hc2. exact Hc3.
  - intros s. unfold App.extract_with_gemini. rewrite cache_key_is_constant, Hc1.
    cbn [App.cache]. rewrite lookup_empty.
    destruct (App.extract_with_gemini_body svc s) as [[data msgs] made]. reflexivity.
Qed.

(* ===================================================================== *)
(** ** More on the readers, the requests and the command lines *)
(* ===================================================================== *)

Lemma pattern_read_fails (texts : list string) (e : exn) (later : list page)
    (acc : string) :
  DocumentExtractor.read_pages (map PageText texts ++ PageFails e :: later) acc = Raise e.
Proof.
  revert acc. induction texts as [|t texts IH]; intros acc; [reflexivity|]. apply IH.
Qed.

Lemma cli_read_fails (texts : list string) (e : exn) (later : list page)
    (acc : string) :
  AIExtractor.read_pages (map PageText texts ++ PageFails e :: later) acc = Raise e.
Proof.
  revert acc. induction texts as [|t texts IH]; intros acc; [reflexivity|].
  cbn [map app AIExtractor.read_pages]. destruct t; apply IH.
Qed.

(** X17: the readers keep all of the text or none of it. When a page
    fails after any number of pages that were read, each of the three
    readers returns the empty string, reports the failure of that page,
    and leaves [text_content] as it was; the text of the pages before is
    lost. The run of [document_extractor.py] goes on with the empty text
    and builds the table of the three fixed records. *)
Theorem failing_page_loses_the_text (texts : list string) (e : exn)
    (later : list page) :
  let source := pages_then_failure texts e later in
  (forall fs s o, fs (DocumentExtractor.pdf_path s) = source ->
     DocumentExtractor.extract_text_from_pdf fs s o
     = ("", s, DocumentExtractor.print ("Error reading PDF: " +:+ exn_detail e) o))
  /\ (forall fs s o, fs (AIExtractor.pdf_path s) = source ->
        AIExtractor.extract_text_from_pdf fs s o
        = ("", s, AIExtractor.print ("Error reading PDF: " +:+ exn_detail e) o))
  /\ (forall s o, App.uploaded_file s = Some source ->
        App.extract_text_from_pdf s o
        = (Ok "", s, App.show (App.StError ("Error reading PDF: " +:+ exn_detail e)) o))
  /\ (forall path o,
        (DocumentExtractor.process_document (fun _ => source)
           (DocumentExtractor.init path) o).1.1
        = Ok (Pandas.Frame header (numbered 1 fixed_entries))).
Proof.
  cbv zeta. unfold pages_then_failure. repeat split.
  - intros fs s o H. unfold DocumentExtractor.extract_text_from_pdf. rewrite H.
    cbn [DocumentExtractor.read_pdf]. now rewrite pattern_read_fails.
  - intros fs s o H. unfold AIExtractor.extract_text_from_pdf. rewrite H.
    cbn [AIExtractor.read_pdf]. now rewrite cli_read_fails.
  - intros s o H. unfold App.extract_text_from_pdf. rewrite H.
    cbn [App.read_pdf]. now rewrite app_read_pages_eq, cli_read_fails.
  - intros path o. unfold DocumentExtractor.process_document,
      DocumentExtractor.extract_text_from_pdf.
    cbn [DocumentExtractor.read_pdf DocumentExtractor.init DocumentExtractor.pdf_path].
    rewrite pattern_read_fails.
    change (DocumentExtractor.text_content (DocumentExtractor.init path)) with "".
    cbn [fst]. destruct rules_on_empty_text as (_ & _ & _ & _ & ->). reflexivity.
Qed.

Lemma cli_read_keeps (fs : string -> pdf) (s : AIExtractor.self) (o : AIExtractor.out) :
  AIExtractor.calls (AIExtractor.extract_text_from_pdf fs s o).2 = AIExtractor.calls o
  /\ AIExtractor.use_ai (AIExtractor.extract_text_from_pdf fs s o).1.2 = AIExtractor.use_ai s.
Proof.
  unfold AIExtractor.extract_text_from_pdf.
  destruct (AIExtractor.read_pdf _); cbn; auto.
Qed.

Lemma cli_extractor_requests (svc : service) (s : AIExtractor.self) (o : AIExtractor.out) :
  requests (AIExtractor.calls (AIExtractor.extract_with_gemini svc s o).2)
  = requests (AIExtractor.calls o) + (if is_ok (new_client svc) then 1 else 0).
Proof.
  unfold AIExtractor.extract_with_gemini.
  destruct (new_client svc) as [[]|e]; cbn -[requests].
  - destruct (generate_content svc _ _) as [t|e]; cbn -[requests];
      [destruct (json_loads svc t)|]; cbn -[requests];
      rewrite !requests_app; unfold requests; cbn [List.filter is_generate length]; lia.
  - rewrite requests_app. unfold requests. cbn [List.filter is_generate length]. lia.
Qed.

Lemma form_extractor_requests (svc : service) (s : App.self) (o : App.out) :
  requests (App.calls (App.extract_with_gemini svc s o).2)
  = requests (App.calls o)
    + (if bool_decide (App.cache o !! [] = None) && is_ok (new_client svc) then 1 else 0).
Proof.
  unfold App.extract_with_gemini. rewrite cache_key_is_constant.
  destruct (App.cache o !! []) as [hit|] eqn:E.
  { rewrite bool_decide_eq_false_2 by discriminate. cbn [andb snd App.calls]. lia. }
  rewrite bool_decide_eq_true_2 by reflexivity. cbn [andb].
  unfold App.extract_with_gemini_body.
  destruct (new_client svc) as [[]|e]; cbn -[requests].
  - destruct (generate_content svc _ _) as [t|e]; cbn -[requests];
      [destruct (json_loads svc t)|]; cbn -[requests];
      rewrite !requests_app; unfold requests; cbn [List.filter is_generate length]; lia.
  - rewrite requests_app. unfold requests. cbn [List.filter is_generate length]. lia.
Qed.

Lemma cli_process_requests (fs : string -> pdf) (svc : service)
    (s : AIExtractor.self) (o : AIExtractor.out) :
  requests (AIExtractor.calls (AIExtractor.process_document fs svc s o).2)
  = requests (AIExtractor.calls o)
    + (if AIExtractor.use_ai s && is_ok (new_client svc) then 1 else 0).
Proof.
  unfold AIExtractor.process_document.
  destruct (cli_read_keeps fs s o) as (Hc & Hu).
  destruct (AIExtractor.extract_text_from_pdf fs s o) as [[t s1] o1].
  cbn [fst snd] in Hc, Hu. rewrite Hu.
  destruct (AIExtractor.use_ai s); cbn [andb].
  - pose proof (cli_extractor_requests svc s1 o1) as H.
    destruct (AIExtractor.extract_with_gemini svc s1 o1) as [data o2].
    cbn [fst snd] in *. now rewrite H, Hc.
  - cbn [fst snd]. rewrite Hc. lia.
Qed.

(** X18: the requests of a run, counted. [process_document] of
    [ai_extractor.py] sends one request when the flag is on and the client
    can be made, whatever was read, and none otherwise.
    [process_document] of [app.py], run on a fresh extractor for a
    readable PDF, sends one request when the flag is on, some page has
    text, nothing is cached and the client can be made, and none
    otherwise. Neither sends a second request, whatever the service
    answers. *)
Theorem requests_of_a_run (svc : service) :
  (forall fs s o,
      requests (AIExtractor.calls (AIExtractor.process_document fs svc s o).2)
      = requests (AIExtractor.calls o)
        + (if AIExtractor.use_ai s && is_ok (new_client svc) then 1 else 0))
  /\ (forall texts ai o,
        requests (App.calls
                    (App.process_document svc
                       (App.init (Some (Pages (map PageText texts))) ai) o).2)
        = requests (App.calls o)
          + (if ai && negb (Nat.eqb (pages_with_text texts) 0)
                && bool_decide (App.cache o !! [] = None)
                && is_ok (new_client svc)
             then 1 else 0)).
Proof.
  split; [intros fs s o; apply cli_process_requests|].
  intros texts ai o. unfold App.process_document.
  destruct (model_backed_readers_join_pages texts) as (_ & ->).
  cbn [App.use_ai App.text_content]. rewrite joined_pages_nonempty.
  destruct (ai && negb (Nat.eqb (pages_with_text texts) 0)); cbn [andb].
  - pose proof (form_extractor_requests svc
      (App.Self (Some (Pages (map PageText texts))) (pages_joined texts) ai) o) as H.
    destruct (App.extract_with_gemini svc _ o) as [data o2].
    cbn [fst snd] in *. exact H.
  - cbn [fst snd]. lia.
Qed.



Lemma extract_all_raises_value_error (text : string) (e : exn) :
  DocumentExtractor.extract_all text = Raise e -> exn_cls e = ValueError.
Proof.
  intros H. apply (date_rule_raises text).
  rewrite <- first_raise_is_a_date, extract_all_first_raise. now rewrite H.
Qed.

(** The table [process_document] of [document_extractor.py] returns has
    the four columns and between 3 and 37 records numbered from 1. *)
Lemma pattern_table_shape (fs : string -> pdf) (s : DocumentExtractor.self)
    (o : DocumentExtractor.out) (df : Pandas.DataFrame) :
  (DocumentExtractor.process_document fs s o).1.1 = Ok df ->
  exists data, df = Pandas.Frame header (numbered 1 data) /\ 3 <= length data <= 37.
Proof.
  unfold DocumentExtractor.process_document.
  destruct (DocumentExtractor.extract_text_from_pdf fs s o) as [[t s1] o1].
  cbn [fst snd].
  destruct (DocumentExtractor.extract_all (DocumentExtractor.text_content s1))
    as [data|e] eqn:E; [|discriminate].
  rewrite bind_ok_l.
  destruct (extract_all_keys _ _ E) as (H1 & H2).
  apply sublist_length in H1, H2.
  rewrite List.length_map in H1. rewrite !List.length_map in H2.
  change (length fixed_entries) with 3 in H2. change (length table_keys) with 37 in H1.
  destruct data as [|x data]; [cbn in H2; lia|].
  rewrite pattern_table_cons. intros [= <-]. exists (x :: data). split; [reflexivity|lia].
Qed.

Lemma pattern_process_raises_value_error (fs : string -> pdf)
    (s : DocumentExtractor.self) (o : DocumentExtractor.out) (e : exn) :
  (DocumentExtractor.process_document fs s o).1.1 = Raise e -> exn_cls e = ValueError.
Proof.
  unfold DocumentExtractor.process_document.
  destruct (DocumentExtractor.extract_text_from_pdf fs s o) as [[t s1] o1].
  cbn [fst snd].
  destruct (DocumentExtractor.extract_all (DocumentExtractor.text_content s1))
    as [data|e'] eqn:E.
  - rewrite bind_ok_l. destruct data as [|x data].
    + apply pattern_extractor_never_empty in E. congruence.
    + rewrite pattern_table_cons. discriminate.
  - cbn. intros [= <-]. exact (extract_all_raises_value_error _ _ E).
Qed.

(** X20: the program [document_extractor.py]. A run ends in one of three
    ways. A date of the text is not accepted: the [ValueError] ends the
    program, the writer is not called and no file is written. Or the
    table is built, with the four columns and between 3 and 37 records
    numbered from 1, and handed to the writer for [Output.xlsx] as the
    sheet [Sheet1]: when the writer saves, the file is there and the last
    printed line gives the count of the records; when the writer raises,
    its exception ends the program, and the path holds what the writer
    left. A file [Data Input.pdf] that cannot be read is no reason to
    stop: the program reports it and goes on with the table of the three
    fixed records. *)
Theorem pattern_program_outcomes (to_string : Pandas.DataFrame -> string)
    (writer : string -> workbook -> written)
    (fs : string -> pdf) (o : DocumentExtractor.out) :
  let run :=
    DocumentExtractor.process_document fs (DocumentExtractor.init "Data Input.pdf") o in
  let ended := pattern_main to_string writer fs o in
  match run.1.1 with
  | Raise e =>
      exn_cls e = ValueError
      /\ ended = (Raise e, run.2)
      /\ DocumentExtractor.files ended.2 = DocumentExtractor.files o
  | Ok df =>
      (exists data, df = Pandas.Frame header (numbered 1 data) /\ 3 <= length data <= 37)
      /\ match writer "Output.xlsx" (Workbook "Sheet1" df [] []) with
         | Saved =>
             ended.1 = Ok ()
             /\ DocumentExtractor.files ended.2
                = <["Output.xlsx" := Workbook "Sheet1" df [] []]> (DocumentExtractor.files o)
             /\ last (DocumentExtractor.stdout ended.2)
                = Some (nl +:+ "Total records extracted: " +:+ pretty (Pandas.len df))
         | WriteFails e remains =>
             ended.1 = Raise e
             /\ DocumentExtractor.stdout ended.2 = DocumentExtractor.stdout run.2
             /\ DocumentExtractor.files ended.2
                = match remains with
                  | Some wb => <["Output.xlsx" := wb]> (DocumentExtractor.files o)
                  | None => DocumentExtractor.files o
                  end
         end
  end
  /\ (forall e, fs "Data Input.pdf" = Unreadable e ->
        run.1.1 = Ok (Pandas.Frame header (numbered 1 fixed_entries))
        /\ In ("Error reading PDF: " +:+ exn_detail e) (DocumentExtractor.stdout run.2)).
Proof.
  cbv zeta. split.
  - pose proof (pattern_process_keeps_files fs (DocumentExtractor.init "Data Input.pdf") o)
      as Hfiles.
    pose proof (pattern_table_shape fs (DocumentExtractor.init "Data Input.pdf") o) as Hshape.
    pose proof (pattern_process_raises_value_error fs
                  (DocumentExtractor.init "Data Input.pdf") o) as Hraise.
    unfold pattern_main, DocumentExtractor.save_to_excel, DocumentExtractor.to_excel.
    destruct (DocumentExtractor.process_document fs _ o) as [[[df|e] s1] o1];
      cbn [fst snd] in *.
    + split; [now apply Hshape|].
      destruct (writer "Output.xlsx" (Workbook "Sheet1" df [] [])) as [|e [wb|]];
        cbn [fst snd DocumentExtractor.files DocumentExtractor.print
             DocumentExtractor.stdout]; rewrite ?Hfiles; auto.
      split; [reflexivity|]. split; [reflexivity|]. apply last_snoc.
    + split; [now apply Hraise|]. split; [reflexivity|exact Hfiles].
  - intros e He. unfold DocumentExtractor.process_document,
      DocumentExtractor.extract_text_from_pdf.
    cbn [DocumentExtractor.init DocumentExtractor.pdf_path]. rewrite He.
    cbn [DocumentExtractor.read_pdf fst snd].
    change (DocumentExtractor.text_content (DocumentExtractor.init "Data Input.pdf"))
      with "".
    destruct rules_on_empty_text as (_ & _ & _ & _ & ->). rewrite bind_ok_l.
    split; [reflexivity|].
    cbn [DocumentExtractor.stdout DocumentExtractor.print].
    rewrite in_app_iff. cbn [In]. tauto.
Qed.

Lemma cli_process_prints_on (fs : string -> pdf) (svc : service)
    (s : AIExtractor.self) (o : AIExtractor.out) :
  exists lines,
    AIExtractor.stdout (AIExtractor.process_document fs svc s o).2
    = AIExtractor.stdout o ++ lines.
Proof.
  unfold AIExtractor.process_document, AIExtractor.extract_text_from_pdf.
  assert (forall s' o', exists lines,
            AIExtractor.stdout (AIExtractor.extract_with_gemini svc s' o').2
            = AIExtractor.stdout o' ++ lines) as Hg.
  { intros s' o'. unfold AIExtractor.extract_with_gemini.
    destruct (new_client svc); cbn.
    - destruct (generate_content svc _ _) as [t|]; cbn;
        [destruct (json_loads svc t)|]; cbn; eexists;
        first [now rewrite app_nil_r | reflexivity].
    - eexists. now rewrite <- app_assoc. }
  destruct (AIExtractor.read_pdf _) as [t|e]; cbn [AIExtractor.use_ai];
    destruct (AIExtractor.use_ai s).
  - destruct (Hg (AIExtractor.Self (AIExtractor.pdf_path s) t true) o) as (lines & H).
    destruct (AIExtractor.extract_with_gemini _ _ _) as [data o2]. cbn in *. eauto.
  - exists []. cbn. now rewrite app_nil_r.
  - destruct (Hg s (AIExtractor.print ("Error reading PDF: " +:+ exn_detail e) o))
      as (lines & H).
    destruct (AIExtractor.extract_with_gemini _ _ _) as [data o2]. cbn in *.
    rewrite H, <- app_assoc. eauto.
  - cbn. eauto.
Qed.

(** [save_to_excel] calls nothing, and touches no file but the one at the
    output path. *)
Lemma cli_save_keeps (writer : string -> workbook -> written) (fs : string -> pdf)
    (svc : service) (output_path : string) (s : AIExtractor.self) (o : AIExtractor.out) :
  AIExtractor.calls (AIExtractor.save_to_excel writer fs svc output_path s o).2
  = AIExtractor.calls (AIExtractor.process_document fs svc s o).2
  /\ forall other, other <> output_path ->
       AIExtractor.files (AIExtractor.save_to_excel writer fs svc output_path s o).2 !! other
       = AIExtractor.files o !! other.
Proof.
  pose proof (cli_process_keeps_files fs svc s o) as Hf.
  unfold AIExtractor.save_to_excel, AIExtractor.write_excel.
  destruct (AIExtractor.process_document fs svc s o) as [[[df|e] s1] o1];
    cbn [fst snd] in *; [|split; [reflexivity|intros; now rewrite Hf]].
  destruct (Pandas.empty df); cbn; [split; [reflexivity|intros; now rewrite Hf]|].
  destruct (writer output_path (AIExtractor.sheet df)) as [|e [wb|]]; cbn;
    (split; [reflexivity|]); intros other Hne;
    rewrite ?lookup_insert_ne by congruence; now rewrite Hf.
Qed.

(** X21: the program [ai_extractor.py]. When the path of the PDF does not
    exist it prints two lines and does nothing else: no file is written
    and nothing is called. Otherwise it ends in one of three ways. The
    table cannot be built from what the service answered (the answer is
    no list of records with the three fields): the exception of
    [process_document] ends the program. Or the table has rows and the
    writer raises: that exception ends the program. Or the program
    returns: it prints the banner EXTRACTION COMPLETE and, last, the
    number of rows of the table, also when nothing was extracted. In
    every case it touches no file but the output path, and it has sent
    one request if the flag is on and the client could be made, and none
    if not. *)
Theorem cli_program_outcomes (to_string : Pandas.DataFrame -> string)
    (path_exists : string -> bool) (writer : string -> workbook -> written)
    (fs : string -> pdf) (svc : service)
    (argv : list string) (o : AIExtractor.out) :
  let extractor := AIExtractor.init (cli_pdf_path argv) (cli_use_ai argv) in
  let started :=
    AIExtractor.print "Extracting data from document..."
      (AIExtractor.print "Initializing AI Document Extractor..." o) in
  let run := AIExtractor.process_document fs svc extractor started in
  let ended := cli_main to_string path_exists writer fs svc argv o in
  if path_exists (cli_pdf_path argv) then
    match run.1.1 with
    | Raise e => ended.1 = Raise e /\ AIExtractor.stdout ended.2 = AIExtractor.stdout run.2
    | Ok df =>
        match (if Pandas.empty df then Saved
               else writer (cli_output_path argv) (AIExtractor.sheet df)) with
        | Saved =>
            ended.1 = Ok ()
            /\ In "EXTRACTION COMPLETE" (AIExtractor.stdout ended.2)
            /\ last (AIExtractor.stdout ended.2)
               = Some (nl +:+ "... (" +:+ pretty (Pandas.len df) +:+ " total records)")
        | WriteFails e _ =>
            ended.1 = Raise e /\ AIExtractor.stdout ended.2 = AIExtractor.stdout run.2
        end
    end
    /\ (forall other, other <> cli_output_path argv ->
          AIExtractor.files ended.2 !! other = AIExtractor.files o !! other)
    /\ requests (AIExtractor.calls ended.2)
       = requests (AIExtractor.calls o)
         + (if cli_use_ai argv && is_ok (new_client svc) then 1 else 0)
  else
    ended
    = (Ok (),
       AIExtractor.Out
         (AIExtractor.stdout o
            ++ ["Initializing AI Document Extractor...";
                "Error: The specified PDF file was not found at path: "
                  +:+ cli_pdf_path argv])
         (AIExtractor.files o) (AIExtractor.calls o)).
Proof.
  intros s o0 run ended. unfold ended, cli_main.
  destruct (path_exists (cli_pdf_path argv)); cbn [negb].
  - fold s o0.
    destruct (cli_save_keeps writer fs svc (cli_output_path argv) s o0) as (Hcalls & Hfiles).
    pose proof (cli_process_requests fs svc s o0) as Hreq.
    rewrite <- Hcalls in Hreq. clear Hcalls.
    split; [|split].
    + unfold run. unfold AIExtractor.save_to_excel, AIExtractor.write_excel.
      destruct (AIExtractor.process_document fs svc s o0) as [[[df|e] s1] o1];
        cbn [fst snd]; [|auto].
      destruct (Pandas.empty df).
      * cbn [fst snd AIExtractor.stdout AIExtractor.print].
        split; [reflexivity|]. split; [rewrite !in_app_iff; cbn [In]; tauto|].
        apply last_snoc.
      * destruct (writer (cli_output_path argv) (AIExtractor.sheet df)) as [|e [wb|]];
          cbn [fst snd AIExtractor.stdout AIExtractor.print]; auto.
        split; [reflexivity|]. split; [rewrite !in_app_iff; cbn [In]; tauto|].
        apply last_snoc.
    + intros other Hne. specialize (Hfiles other Hne).
      destruct (AIExtractor.save_to_excel writer fs svc (cli_output_path argv) s o0)
        as [[[df|e] s1] o1]; cbn [fst snd] in *; exact Hfiles.
    + destruct (AIExtractor.save_to_excel writer fs svc (cli_output_path argv) s o0)
        as [[[df|e] s1] o1]; cbn [fst snd] in *; exact Hreq.
  - unfold AIExtractor.print.
    cbn [AIExtractor.stdout AIExtractor.files AIExtractor.calls].
    now rewrite <- app_assoc.
Qed.

(** X22: the third argument of [ai_extractor.py] turns the model on only
    when it spells [true], in whatever case. With any other third argument
    (such as [yes], [1] or [on]) and a path that exists, the program calls
    nothing and writes no file; it prints that the save was skipped, the
    banner, and a count of zero records. *)
Theorem cli_third_argument_must_spell_true (to_string : Pandas.DataFrame -> string)
    (path_exists : string -> bool) (writer : string -> workbook -> written)
    (fs : string -> pdf) (svc : service)
    (prog pdf_path output_path flag : string) (more : list string)
    (o : AIExtractor.out)
    (Hfile : path_exists pdf_path = true)
    (Hflag : PyStr.lower flag <> "true") :
  let argv := prog :: pdf_path :: output_path :: flag :: more in
  cli_use_ai argv = false
  /\ (forall flag', PyStr.lower flag' = "true" ->
        cli_use_ai (prog :: pdf_path :: output_path :: flag' :: more) = true)
  /\ exists o',
       cli_main to_string path_exists writer fs svc argv o = (Ok (), o')
       /\ AIExtractor.files o' = AIExtractor.files o
       /\ AIExtractor.calls o' = AIExtractor.calls o
       /\ In "No data extracted. Skipping Excel save." (AIExtractor.stdout o')
       /\ In "EXTRACTION COMPLETE" (AIExtractor.stdout o')
       /\ last (AIExtractor.stdout o') = Some (nl +:+ "... (0 total records)").
Proof.
  intros argv.
  assert (cli_use_ai argv = false) as Hoff.
  { unfold argv, cli_use_ai. cbn [length Nat.ltb Nat.leb nth].
    apply String.eqb_neq. exact Hflag. }
  split; [exact Hoff|]. split.
  { intros flag' H. unfold cli_use_ai. cbn [length Nat.ltb Nat.leb nth].
    now apply String.eqb_eq. }
  unfold cli_main. rewrite Hoff.
  change (cli_pdf_path argv) with pdf_path. rewrite Hfile. cbn [negb].
  set (o0 := AIExtractor.print "Extracting data from document..."
               (AIExtractor.print "Initializing AI Document Extractor..." o)).
  unfold AIExtractor.save_to_excel.
  pose proof (cli_flag_off_makes_no_call fs svc (AIExtractor.init pdf_path false) o0 eq_refl)
    as H.
  destruct (AIExtractor.extract_text_from_pdf fs _ o0) as [[t s1] o1].
  destruct H as (-> & Hc & Hf).
  eexists. split; [reflexivity|].
  cbn [AIExtractor.files AIExtractor.calls AIExtractor.stdout AIExtractor.print].
  split; [exact Hf|]. split; [exact Hc|].
  split; [rewrite !in_app_iff; cbn [In]; tauto|].
  split; [rewrite !in_app_iff; cbn [In]; tauto|].
  rewrite last_snoc. reflexivity.
Qed.

(** The hypotheses of [cli_third_argument_must_spell_true] hold for the
    argument [yes]. *)
Lemma cli_third_argument_must_spell_true_witness :
  cli_use_ai ["ai_extractor.py"; "Data Input.pdf"; "Output.xlsx"; "yes"] = false
  /\ cli_use_ai ["ai_extractor.py"; "Data Input.pdf"; "Output.xlsx"; "TRUE"] = true.
Proof.
  destruct (cli_third_argument_must_spell_true (fun _ => "") (fun _ => true)
              (fun _ _ => Saved) (fun _ => Pages []) echo_service
              "ai_extractor.py" "Data Input.pdf" "Output.xlsx" "yes" []
              (AIExtractor.Out [] ∅ []) eq_refl ltac:(discriminate))
    as (H1 & H2 & _).
  split; [exact H1|]. apply H2. reflexivity.
Defined.

(* ===================================================================== *)
(** ** The search misses no phrase *)
(* ===================================================================== *)

Lemma rep_complete (c : Re.cset) (k : Re.cont) (st : Re.mstate) (v s' : string) :
  all_chars (Re.mem c) v = true ->
  (forall pos, is_Some (k s' pos st)) ->
  forall pos, is_Some (Re.rep c (String.length v) k (v +:+ s') pos st).
Proof.
  intros Hv Hk. induction v as [|a v IH]; intros pos; [apply Hk|].
  cbn [all_chars] in Hv. apply andb_prop in Hv as (Ha & Hv).
  rewrite append_cons. cbn [String.length Re.rep]. rewrite Ha. now apply IH.
Qed.

Lemma plus_complete (c : Re.cset) (k : Re.cont) (st : Re.mstate) (v s' : string) :
  all_chars (Re.mem c) v = true -> v <> "" ->
  (forall pos, is_Some (k s' pos st)) ->
  forall pos, is_Some (Re.plus c k (v +:+ s') pos st).
Proof.
  intros Hv Hne Hk. induction v as [|a v IH]; intros pos; [congruence|].
  cbn [all_chars] in Hv. apply andb_prop in Hv as (Ha & Hv).
  rewrite append_cons. cbn [Re.plus]. rewrite Ha.
  destruct v as [|b v].
  - rewrite append_nil_l in *. destruct (Re.plus c k s' (S pos) st); [eauto|apply Hk].
  - destruct (IH Hv ltac:(discriminate) (S pos)) as (r & ->). eauto.
Qed.

Lemma opt_complete (c : Re.cset) (k : Re.cont) (st : Re.mstate) (v s' : string) :
  all_chars (Re.mem c) v = true -> String.length v <= 1 ->
  (forall pos, is_Some (k s' pos st)) ->
  forall pos, is_Some (Re.opt c k (v +:+ s') pos st).
Proof.
  intros Hv Hn Hk pos. destruct v as [|a [|b v]]; cbn in Hn; [| |lia].
  - rewrite append_nil_l in *. unfold Re.opt. destruct s' as [|a s']; [apply Hk|].
    destruct (Re.mem c a); [|apply Hk].
    destruct (k s' (S pos) st); [eauto|apply Hk].
  - cbn [all_chars] in Hv. rewrite andb_true_r in Hv.
    rewrite append_cons, append_nil_l. unfold Re.opt. rewrite Hv.
    destruct (Hk (S pos)) as (r & ->). eauto.
Qed.

(** A text that has the shape of the tokens is matched, by some reading
    of it. *)
Lemma match_here_complete (ts : list Re.tok) :
  forall (u : string) (cur : option string) (gs : list string) (rest : string)
         (st : Re.mstate),
    shaped ts u cur gs ->
    (is_Some cur -> is_Some (Re.ms_open st)) ->
    forall pos, is_Some (Re.match_here ts (u +:+ rest) pos st).
Proof.
  induction ts as [|t ts IH]; intros u cur gs rest st H Hopen pos.
  - cbn. eauto.
  - destruct t as [c q| |].
    + apply shaped_set in H as (v & w & -> & (Hv & Hn) & H).
      rewrite append_assoc.
      assert (forall pos', is_Some (Re.match_here ts (w +:+ rest) pos' st)) as Hk.
      { apply (IH _ _ _ _ _ H). intros (g & Hg). apply Hopen.
        destruct cur; [eauto|discriminate]. }
      destruct q as [| | |n]; cbn [Re.match_here].
      * rewrite <- Hn. now apply rep_complete.
      * now apply opt_complete.
      * apply plus_complete; try assumption. intros ->. cbn in Hn. lia.
      * rewrite <- Hn. now apply rep_complete.
    + apply shaped_open in H. cbn [Re.match_here].
      apply (IH _ _ _ _ _ H). cbn. eauto.
    + cbn [shaped] in H. destruct H as (g & gs' & -> & -> & H).
      destruct (Hopen ltac:(eauto)) as (b & Hb). cbn [Re.match_here]. rewrite Hb.
      apply (IH _ _ _ _ _ H). intros (x & Hx). discriminate.
Qed.

Lemma search_from_complete (ts : list Re.tok) (u rest : string) (gs : list string) :
  shaped ts u None gs ->
  forall before pos, is_Some (Re.search_from ts (before +:+ u +:+ rest) pos).
Proof.
  intros H. induction before as [|c before IH]; intros pos.
  - rewrite append_nil_l.
    destruct (match_here_complete ts u None gs rest (Re.MState None []) H
                ltac:(intros (x & Hx); discriminate) pos) as ([e st] & Hm).
    destruct (u +:+ rest); cbn [Re.search_from]; rewrite Hm; eauto.
  - rewrite append_cons, search_from_cons.
    destruct (Re.match_here ts _ pos _) as [[e st]|]; [eauto|apply IH].
Qed.

Lemma not_none {A} (x : option A) : x = None <-> ~ is_Some x.
Proof.
  destruct x; split; intros H; try congruence; try (exfalso; apply H; eauto).
  intros (y & Hy). discriminate.
Qed.

Lemma class_mem (c : char_class) (a : ascii) : Re.mem (class_set c) a = in_class c a.
Proof.
  destruct c; unfold Re.mem; cbn [class_set Re.cneg Re.citems existsb Re.item_mem xorb];
    rewrite ?orb_false_r; reflexivity.
Qed.

Lemma class_chunk (c : char_class) (q : count) (v : string) :
  chunk (class_set c) (count_quant q) v
  <-> all_chars (in_class c) v = true /\ counted q (String.length v).
Proof.
  unfold chunk. rewrite (all_chars_ext _ _ v (class_mem c)).
  destruct q; reflexivity.
Qed.

Lemma literal_shaped (s : string) (ts : list Re.tok) :
  forall (u : string) (cur : option string) (gs : list string),
    shaped (literal s ++ ts) u cur gs
    <-> exists w, u = s +:+ w /\ shaped ts w (option_map (fun g => g +:+ s) cur) gs.
Proof.
  induction s as [|a s IH]; intros u cur gs.
  - cbn [literal app]. split.
    + intros H. exists u. split; [reflexivity|].
      destruct cur as [g|]; cbn [option_map]; [now rewrite append_empty_r|exact H].
    + intros (w & -> & H). rewrite append_nil_l.
      destruct cur as [g|]; cbn [option_map] in H; [now rewrite append_empty_r in H|exact H].
  - cbn [literal app shaped]. split.
    + intros (v & w & -> & (Hv & Hn) & H).
      destruct (one_char _ _ Hv Hn) as (b & -> & Hb).
      rewrite mem_lit in Hb. apply Ascii.eqb_eq in Hb. subst b.
      apply IH in H as (w' & -> & H). exists w'. split; [reflexivity|].
      destruct cur as [g|]; cbn [option_map] in *; [|exact H].
      now rewrite append_assoc in H.
    + intros (w & -> & H). exists (String a ""), (s +:+ w). split; [reflexivity|].
      split; [split; [cbn [all_chars]; now rewrite mem_lit, Ascii.eqb_refl|reflexivity]|].
      apply IH. exists w. split; [reflexivity|].
      destruct cur as [g|]; cbn [option_map] in *; [|exact H].
      now rewrite append_assoc.
Qed.

(** A text with the shape of the tokens of a pattern is a phrase of the
    pattern. *)
Lemma shaped_reads (ps : list piece) :
  forall (u : string) (cur : option string) (gs : list string),
    shaped (tokens_of ps) u cur gs -> reads ps u.
Proof.
  induction ps as [|p ps IH]; intros u cur gs H.
  - now destruct H.
  - destruct p as [s|c q| |]; cbn [tokens_of reads] in *.
    + apply literal_shaped in H as (w & -> & H). exists w. split; [reflexivity|].
      exact (IH _ _ _ H).
    + cbn [shaped] in H. destruct H as (v & w & -> & Hc & H).
      apply class_chunk in Hc as (Hv & Hn). exists v, w.
      repeat split; try assumption. exact (IH _ _ _ H).
    + cbn [shaped] in H. exact (IH _ _ _ H).
    + cbn [shaped] in H. destruct H as (g & gs' & _ & _ & H). exact (IH _ _ _ H).
Qed.

(** And a phrase of the pattern has the shape of its tokens. *)
Lemma reads_shaped (ps : list piece) :
  forall (u : string) (cur : option string),
    closes_ok ps (bool_decide (is_Some cur)) = true ->
    reads ps u -> exists gs, shaped (tokens_of ps) u cur gs.
Proof.
  induction ps as [|p ps IH]; intros u cur Hok H.
  - exists []. cbn [tokens_of shaped]. split; [exact H|reflexivity].
  - destruct p as [s|c q| |]; cbn [tokens_of reads closes_ok] in *.
    + destruct H as (w & -> & H).
      destruct (IH w (option_map (fun g => g +:+ s) cur)) as (gs & Hs); [|exact H|].
      { now destruct cur. }
      exists gs. apply literal_shaped. eauto.
    + destruct H as (v & w & -> & Hv & Hn & H).
      destruct (IH w (option_map (fun g => g +:+ v) cur)) as (gs & Hs); [|exact H|].
      { now destruct cur. }
      exists gs. cbn [shaped]. exists v, w. split; [reflexivity|].
      split; [now apply class_chunk|exact Hs].
    + destruct (IH u (Some "")) as (gs & Hs); [exact Hok|exact H|].
      exists gs. exact Hs.
    + apply andb_prop in Hok as (Hopen & Hok).
      destruct cur as [g|]; [|discriminate Hopen].
      destruct (IH u None) as (gs & Hs); [exact Hok|exact H|].
      exists (g :: gs). cbn [shaped]. eauto.
Qed.

(** [re.search] finds a match exactly when some part of the text has the
    shape of the tokens of the pattern. *)
Lemma search_finds_tokens (pattern text : string) (ts : list Re.tok) :
  Re.compile pattern = Some ts ->
  is_Some (Re.search pattern text)
  <-> exists before u rest gs, text = before +:+ u +:+ rest /\ shaped ts u None gs.
Proof.
  intros Ec. split.
  - intros (m & Hm).
    destruct (search_shaped pattern text ts m Ec Hm)
      as (before & u & rest & gs & Ht & _ & _ & _ & H).
    exists before, u, rest, gs. auto.
  - intros (before & u & rest & gs & -> & H).
    unfold Re.search. rewrite Ec. exact (search_from_complete ts u rest gs H before 0).
Qed.

(** [re.search] finds a match exactly when some part of the text is a
    phrase of the pattern. *)
Lemma search_finds_the_phrase (pattern text : string) (ps : list piece) :
  Re.compile pattern = Some (tokens_of ps) ->
  closes_ok ps false = true ->
  is_Some (Re.search pattern text) <-> holds ps text.
Proof.
  intros Ec Hok. rewrite (search_finds_tokens pattern text _ Ec). split.
  - intros (before & u & rest & gs & Ht & H).
    exists before, u, rest. split; [exact Ht|]. exact (shaped_reads ps _ _ _ H).
  - intros (before & u & rest & Ht & H).
    destruct (reads_shaped ps u None Hok H) as (gs & Hs).
    exists before, u, rest, gs. auto.
Qed.

(** X23: the rules of [document_extractor.py] miss no phrase. For every
    text, each of the 28 rules emits nothing exactly when no part of the
    text is a phrase of the rule's pattern, the pattern being read piece
    by piece as the source writes it: the literal text, and for each
    class as many characters of the class as its quantifier says. When
    some part is such a phrase, the rule emits its records or, for a date
    rule, raises. *)
Theorem rules_fire_on_their_phrases (text : string) :
  Forall (fires_on_its_phrase text) rule_patterns.
Proof.
  unfold rule_patterns.
  repeat (apply List.Forall_cons;
    [unfold fires_on_its_phrase; cbn [fst snd];
     match goal with
     | |- ?rule text = _ <-> _ =>
         let h := eval cbv delta [DocumentExtractor.name_rule DocumentExtractor.dob_rule
           DocumentExtractor.first_job_rule DocumentExtractor.current_join_rule
           DocumentExtractor.prev_join_rule
           DocumentExtractor.birth_rule DocumentExtractor.age_rule
           DocumentExtractor.blood_rule DocumentExtractor.nationality_rule
           DocumentExtractor.current_org_rule DocumentExtractor.current_desig_rule
           DocumentExtractor.current_sal_rule DocumentExtractor.prev_org_rule
           DocumentExtractor.prev_end_rule DocumentExtractor.prev_desig_rule
           DocumentExtractor.hs_rule DocumentExtractor.year_12_rule
           DocumentExtractor.score_12_rule DocumentExtractor.ug_degree_rule
           DocumentExtractor.ug_college_rule DocumentExtractor.ug_year_rule
           DocumentExtractor.ug_cgpa_rule DocumentExtractor.grad_degree_rule
           DocumentExtractor.grad_college_rule DocumentExtractor.grad_year_rule
           DocumentExtractor.grad_cgpa_rule DocumentExtractor.pmp_rule
           DocumentExtractor.safe_rule] in rule in
         change rule with h; cbv beta; unfold DocumentExtractor.on_match
     end;
     match goal with
     | |- context [match Re.search ?p text with _ => _ end] =>
         match goal with
         | |- _ <-> ~ holds ?ps text =>
             rewrite <- (search_finds_the_phrase p text ps)
               by (vm_compute; reflexivity)
         end;
         rewrite <- not_none;
         destruct (Re.search p text); [|tauto]
     end;
     split; [|discriminate];
     intros H; exfalso;
     repeat match type of H with
            | (?r ≫= _) = Ok _ => destruct r; cbn in H; [|discriminate H]
            end;
     discriminate H|]).
  apply List.Forall_nil.
Qed.

(* ===================================================================== *)
(** ** Answers that are no list of records *)
(* ===================================================================== *)

Lemma add_key_has (k k' : string) (cols : list string) :
  existsb (String.eqb k) (Pandas.add_key cols k')
  = existsb (String.eqb k) cols || String.eqb k k'.
Proof.
  unfold Pandas.add_key. destruct (existsb (String.eqb k') cols) eqn:E.
  - destruct (String.eqb_spec k k') as [->|]; [now rewrite E|now rewrite orb_false_r].
  - rewrite existsb_app. cbn [existsb]. now rewrite orb_false_r.
Qed.

Lemma add_keys_have (k : string) (ks cols : list string) :
  existsb (String.eqb k) (foldl Pandas.add_key cols ks)
  = existsb (String.eqb k) cols || existsb (String.eqb k) ks.
Proof.
  revert cols. induction ks as [|k' ks IH]; intros cols; cbn [foldl existsb].
  - now rewrite orb_false_r.
  - now rewrite IH, add_key_has, orb_assoc.
Qed.

Lemma get_none (k : string) (d : list (string * json)) :
  Pandas.get k d = None <-> existsb (String.eqb k) (map fst d) = false.
Proof.
  induction d as [|[k' v] d IH]; cbn [Pandas.get map fst existsb]; [tauto|].
  destruct (String.eqb k k'); cbn [orb]; [split; discriminate|exact IH].
Qed.

(** A key no dictionary has is no column of the frame. *)
Lemma keys_met_lack (k : string) (dicts : list (list (string * json))) :
  Forall (fun d => Pandas.get k d = None) dicts ->
  existsb (String.eqb k) (Pandas.keys_met dicts) = false.
Proof.
  unfold Pandas.keys_met.
  assert (forall cols, existsb (String.eqb k) cols = false ->
            Forall (fun d => Pandas.get k d = None) dicts ->
            existsb (String.eqb k)
              (foldl (fun cols d => foldl Pandas.add_key cols (map fst d)) cols dicts)
            = false) as H.
  { induction dicts as [|d dicts IH]; intros cols Hc Hd; [exact Hc|].
    cbn [foldl]. apply Forall_cons in Hd as (Hd & Hds).
    apply IH; [|exact Hds]. rewrite add_keys_have, Hc. now apply get_none. }
  intros Hd. now apply H.
Qed.

Lemma add_keys_grow (ks cols : list string) :
  cols <> [] -> foldl Pandas.add_key cols ks <> [].
Proof.
  revert cols. induction ks as [|k ks IH]; intros cols Hc; [exact Hc|].
  cbn [foldl]. apply IH. unfold Pandas.add_key.
  destruct (existsb _ cols); [exact Hc|]. now destruct cols.
Qed.

Lemma keys_met_grow (dicts : list (list (string * json))) (cols : list string) :
  cols <> [] ->
  foldl (fun cols d => foldl Pandas.add_key cols (map fst d)) cols dicts <> [].
Proof.
  revert cols. induction dicts as [|d dicts IH]; intros cols Hc; [exact Hc|].
  cbn [foldl]. apply IH. now apply add_keys_grow.
Qed.

Lemma keys_met_from (dicts : list (list (string * json))) (cols : list string) :
  Exists (fun d => d <> []) dicts ->
  foldl (fun cols d => foldl Pandas.add_key cols (map fst d)) cols dicts <> [].
Proof.
  revert cols. induction dicts as [|d dicts IH]; intros cols He; [inversion He|].
  cbn [foldl]. apply Exists_cons in He as [Hd|He]; [|now apply IH].
  apply keys_met_grow.
  destruct d as [|[k v] d]; [congruence|]. cbn [map fst foldl].
  apply add_keys_grow. unfold Pandas.add_key.
  destruct (existsb _ cols) eqn:E; now destruct cols.
Qed.

(** A dictionary with a member gives the frame a column. *)
Lemma keys_met_some (dicts : list (list (string * json))) :
  Exists (fun d => d <> []) dicts -> Pandas.keys_met dicts <> [].
Proof. apply keys_met_from. Qed.

Lemma position_none (k : string) (cols : list string) :
  existsb (String.eqb k) cols = false -> Pandas.position k cols = None.
Proof.
  induction cols as [|c cols IH]; [reflexivity|]. cbn [existsb Pandas.position].
  destruct (String.eqb k c); [discriminate|]. cbn [orb]. intros H. now rewrite IH.
Qed.

Lemma select_missing (k : string) (df : Pandas.DataFrame) :
  In k ["key"; "value"; "comments"] ->
  existsb (String.eqb k) (Pandas.columns df) = false ->
  Pandas.select ["key"; "value"; "comments"] df = Raise (Exn KeyError "not in index").
Proof.
  intros Hk Hc. unfold Pandas.select. apply position_none in Hc.
  cbn [mapM]. cbn [In] in Hk.
  destruct Hk as [<-|[<-|[<-|[]]]]; rewrite Hc; cbn;
    repeat match goal with
           | |- context [Pandas.position ?n ?c] => destruct (Pandas.position n c)
           end; reflexivity.
Qed.

Lemma table_of_lacking (svc : service) (k : string)
    (dicts : list (list (string * json))) :
  lacks_field k dicts ->
  AIExtractor.table_of svc (JArray (map JObject dicts))
  = Raise (Exn KeyError "not in index").
Proof.
  intros (Hk & Hnone & Hsome). unfold AIExtractor.table_of, Pandas.of_json.
  assert (Pandas.as_dicts (map JObject dicts) = Some dicts) as ->.
  { unfold Pandas.as_dicts. clear. induction dicts as [|d dicts IH]; [reflexivity|].
    cbn [map mapM]. now rewrite IH. }
  cbv zeta. rewrite bind_ok_l. unfold AIExtractor.finish_table.
  assert (Pandas.empty
            (Pandas.Frame (Pandas.keys_met dicts)
               (map (fun d => map (fun c => Pandas.cell_of (Pandas.get c d))
                                  (Pandas.keys_met dicts)) dicts)) = false) as ->.
  { unfold Pandas.empty. cbn [Pandas.rows Pandas.columns]. rewrite List.length_map.
    pose proof (keys_met_some dicts Hsome) as Hc.
    destruct dicts; [inversion Hsome|]. destruct (Pandas.keys_met _); [congruence|].
    reflexivity. }
  cbn [negb]. rewrite (select_missing k) by (try assumption; now apply keys_met_lack).
  reflexivity.
Qed.

(** X24: an answer without a field ends the run. The programs hand what
    [json.loads] returned to [pd.DataFrame] unchecked. When the service
    answers with a list of dictionaries none of which has one of the
    fields [key], [value], [comments] (and some of which has a member),
    selecting the three columns raises [KeyError]. In [ai_extractor.py]
    nothing catches it: [process_document] and [save_to_excel] raise, and
    no file is written. In [app.py] the handler of the page catches it:
    the run shows the error, unsets the flag, and leaves the table of the
    session as it was. *)
Theorem answer_without_a_field_ends_the_run (svc : service) (k : string)
    (dicts : list (list (string * json)))
    (Hlacks : lacks_field k dicts) :
  let answer := JArray (map JObject dicts) in
  exists failure,
    exn_cls failure = KeyError
    /\ (forall writer fs output_path s o response,
          AIExtractor.use_ai s = true ->
          new_client svc = Ok () ->
          generate_content svc AIExtractor.model
            (AIExtractor.prompt
               (AIExtractor.text_content (AIExtractor.extract_text_from_pdf fs s o).1.2))
          = Ok response ->
          json_loads svc response = Ok answer ->
          (AIExtractor.process_document fs svc s o).1.1 = Raise failure
          /\ (AIExtractor.save_to_excel writer fs svc output_path s o).1.1 = Raise failure
          /\ AIExtractor.files (AIExtractor.save_to_excel writer fs svc output_path s o).2
             = AIExtractor.files o)
    /\ (forall api_key texts response ss o,
          App.check_api_key api_key = true ->
          pages_with_text texts <> 0 ->
          App.cache o !! [] = None ->
          new_client svc = Ok () ->
          generate_content svc App.model (App.prompt (pages_joined texts)) = Ok response ->
          json_loads svc response = Ok answer ->
          let run :=
            script api_key svc (Event (Some (Pages (map PageText texts))) true ExtractData)
                   ss o in
          App.run_extraction run.1.1 = Some false
          /\ App.extracted_df run.1.1 = App.extracted_df ss
          /\ last (App.shown run.1.2)
             = Some (App.StError ("An error occurred during file processing: "
                                  +:+ exn_detail failure))).
Proof.
  cbv zeta. pose proof (table_of_lacking svc k dicts Hlacks) as Htable.
  exists (Exn KeyError "not in index"). split; [reflexivity|]. split.
  - intros writer fs output_path s o response Hai Hclient Hanswer Hparse.
    pose proof (cli_process_keeps_files fs svc s o) as Hfiles.
    assert ((AIExtractor.process_document fs svc s o).1.1
            = Raise (Exn KeyError "not in index")) as Hp.
    { unfold AIExtractor.process_document.
      destruct (cli_read_keeps fs s o) as (_ & Hu).
      destruct (AIExtractor.extract_text_from_pdf fs s o) as [[t s1] o1].
      cbn [fst snd] in *. rewrite Hu, Hai.
      unfold AIExtractor.extract_with_gemini.
      rewrite Hclient, Hanswer, bind_ok_l, Hparse. cbn [fst]. exact Htable. }
    split; [exact Hp|]. unfold AIExtractor.save_to_excel.
    destruct (AIExtractor.process_document fs svc s o) as [[r s1] o1].
    cbn [fst snd] in *. subst r. cbn [fst snd]. auto.
  - intros api_key texts response ss o Hkey Htext Hmiss Hclient Hanswer Hparse.
    assert (App.nonempty (pages_joined texts) = true) as Hne.
    { rewrite joined_pages_nonempty.
      destruct (pages_with_text texts); [congruence|reflexivity]. }
    unfold script, main_area, App.page_top, App.click_extract, extract_stops.
    rewrite Hkey. cbn [negb andb ev_file ev_use_ai ev_button App.pdf_uploader
                       App.use_ai_checkbox].
    unfold App.run_block. cbn [App.run_extraction App.pdf_uploader App.use_ai_checkbox].
    unfold App.process_document.
    destruct (model_backed_readers_join_pages texts) as (_ & Hread).
    rewrite Hread. cbn [App.use_ai App.text_content]. rewrite Hne. cbn [andb].
    unfold App.extract_with_gemini. rewrite cache_key_is_constant, Hmiss.
    unfold App.extract_with_gemini_body. rewrite Hclient.
    cbn [App.text_content]. rewrite Hanswer, bind_ok_l, Hparse.
    rewrite app_table_of_eq, Htable.
    cbn [fst snd App.run_extraction App.extracted_df App.shown App.show exn_detail].
    rewrite app_nil_r, last_snoc. auto.
Qed.

(** The hypothesis of [answer_without_a_field_ends_the_run] holds for an
    answer whose one record has a key and a value and no comments. *)
Lemma answer_without_a_field_ends_the_run_witness :
  lacks_field "comments" [[("key", JString "Name"); ("value", JString "Vijay")]]
  /\ exists failure,
       exn_cls failure = KeyError
       /\ (AIExtractor.process_document (fun _ => Pages [PageText "Vijay"])
             (Service (Ok ()) (fun _ _ => Ok "")
                (fun _ => Ok (JArray [JObject [("key", JString "Name");
                                               ("value", JString "Vijay")]]))
                (fun _ => Ok no_table))
             (AIExtractor.init "Data Input.pdf" true) (AIExtractor.Out [] ∅ [])).1.1
          = Raise failure.
Proof.
  assert (lacks_field "comments" [[("key", JString "Name"); ("value", JString "Vijay")]])
    as H.
  { split; [cbn; tauto|]. split; [repeat constructor|]. left. discriminate. }
  split; [exact H|].
  destruct (answer_without_a_field_ends_the_run
              (Service (Ok ()) (fun _ _ => Ok "")
                 (fun _ => Ok (JArray [JObject [("key", JString "Name");
                                                ("value", JString "Vijay")]]))
                 (fun _ => Ok no_table)) _ _ H) as (failure & Hcls & Hcli & _).
  exists failure. split; [exact Hcls|].
  exact (proj1 (Hcli (fun _ _ => Saved) (fun _ => Pages [PageText "Vijay"]) "Output.xlsx"
                  (AIExtractor.init "Data Input.pdf" true) (AIExtractor.Out [] ∅ []) ""
                  eq_refl eq_refl eq_refl eq_refl)).
Defined.
